(** * claude_usage_stats.py: a shallow embedding and its verified properties

    The script shells out to the [claude] command-line tool, decodes its
    JSON replies, aggregates token counts and prints a usage report.  The
    embedding below follows [scripts/claude_usage_stats.py] function by
    function.

    - Python values decoded from JSON are the inductive type [pyval];
      Python's dynamic checks ([AttributeError], [TypeError], ...) are
      explicit results of the primitive operations.
    - Python [float] is IEEE-754 binary64, taken from the Standard
      Library's [SpecFloat] (53-bit mantissa, exponent bound 1024).
    - [datetime] is a count of microseconds since 0001-01-01T00:00:00 plus an
      optional UTC offset (naive when absent).
    - The outside world (the clock, the child processes, the file system)
      is an oracle [env] indexed by the number of observations made so far;
      the program state threads that counter and the lines printed.
    - Library functions whose exact text format is irrelevant here
      ([json.loads], [json.dumps], [datetime.fromisoformat], [isoformat],
      [strftime], number formatting) are the fields of the class [PyLib].
    - A printed message that interpolates the text of an exception is
      kept up to that text. *)

From Stdlib Require Import ZArith Bool List String Ascii Lia.
From Stdlib Require Import Floats.SpecFloat.
From Stdlib Require Import Numbers.DecimalString.
From Stdlib Require Import Reals Lra.
Import ListNotations.

Set Warnings "-register-all".

Local Open Scope string_scope.
Local Open Scope Z_scope.

(* ================================================================== *)
(** ** Exceptions and the two monads *)
(* ================================================================== *)

(** The exception classes the script can meet. *)
Inductive exn : Type :=
| CalledProcessError (returncode : Z) (stderr : string)
| FileNotFoundError
| PermissionError
| OSError
| UnicodeDecodeError
| JSONDecodeError
| ValueError
| TypeError
| AttributeError
| KeyError
| OverflowError
| ZeroDivisionError.

(** An [except] clause is a predicate on the raised exception; the
    predicates follow Python's class hierarchy ([JSONDecodeError] and
    [UnicodeDecodeError] derive from [ValueError]). *)
Definition is_CalledProcessError (e : exn) : bool :=
  match e with CalledProcessError _ _ => true | _ => false end.

Definition is_JSONDecodeError (e : exn) : bool :=
  match e with JSONDecodeError => true | _ => false end.

Definition is_ValueError (e : exn) : bool :=
  match e with
  | ValueError | JSONDecodeError | UnicodeDecodeError => true
  | _ => false
  end.

Definition is_TypeError (e : exn) : bool :=
  match e with TypeError => true | _ => false end.

Definition is_AttributeError (e : exn) : bool :=
  match e with AttributeError => true | _ => false end.

(** [except (ValueError, TypeError)] *)
Definition is_ValueError_or_TypeError (e : exn) : bool :=
  is_ValueError e || is_TypeError e.

(** [except (json.JSONDecodeError, AttributeError)] *)
Definition is_JSONDecodeError_or_AttributeError (e : exn) : bool :=
  is_JSONDecodeError e || is_AttributeError e.

(** [except Exception] *)
Definition is_Exception (e : exn) : bool := true.

(** Result of an expression that may raise. *)
Inductive outcome (A : Type) : Type :=
| Ok (a : A)
| Raise (e : exn).
Arguments Ok {A} a.
Arguments Raise {A} e.

Class Monad (M : Type -> Type) : Type := {
  ret : forall {A}, A -> M A;
  bind : forall {A B}, M A -> (A -> M B) -> M B
}.

Declare Scope py_scope.
Delimit Scope py_scope with py.
Notation "x <- c ;; k" := (bind c (fun x => k))
  (at level 61, c at next level, right associativity) : py_scope.
Notation "' p <- c ;; k" := (bind c (fun x => let 'p := x in k))
  (at level 61, p pattern, c at next level, right associativity) : py_scope.
Notation "c ;;; k" := (bind c (fun _ => k))
  (at level 61, right associativity) : py_scope.
Local Open Scope py_scope.

Definition outcome_bind {A B} (c : outcome A) (k : A -> outcome B) : outcome B :=
  match c with
  | Ok a => k a
  | Raise e => Raise e
  end.

#[export] Instance Monad_outcome : Monad outcome := {
  ret := @Ok;
  bind := @outcome_bind
}.

(** State and exceptions; the state survives a raise, as Python's
    variables and side effects do. *)
Definition St (S A : Type) : Type := S -> outcome A * S.

Definition St_ret {S A} (a : A) : St S A := fun s => (Ok a, s).

Definition St_bind {S A B} (c : St S A) (k : A -> St S B) : St S B :=
  fun s =>
    match c s with
    | (Ok a, s') => k a s'
    | (Raise e, s') => (Raise e, s')
    end.

#[export] Instance Monad_St (S : Type) : Monad (St S) := {
  ret := @St_ret S;
  bind := @St_bind S
}.

(** A pure expression evaluated inside a stateful block. *)
Definition lift {S A} (c : outcome A) : St S A := fun s => (c, s).

Definition raise {S A} (e : exn) : St S A := fun s => (Raise e, s).

Definition get_state {S} : St S S := fun s => (Ok s, s).

Definition put_state {S} (s : S) : St S unit := fun _ => (Ok tt, s).

(** [try: body  except <clause>: handler] *)
Definition try_except {S A} (body : St S A) (clause : exn -> bool)
    (handler : exn -> St S A) : St S A :=
  fun s =>
    match body s with
    | (Ok a, s') => (Ok a, s')
    | (Raise e, s') => if clause e then handler e s' else (Raise e, s')
    end.

(** Monadic left fold: the body of a [for] loop run over a list. *)
Fixpoint for_each {S A} (body : A -> St S unit) (l : list A) : St S unit :=
  match l with
  | [] => ret tt
  | x :: rest => body x ;;; for_each body rest
  end.

(* ================================================================== *)
(** ** Python floats *)
(* ================================================================== *)

Definition prec : Z := 53.
Definition emax : Z := 1024.

Definition float : Type := spec_float.

Definition float_add : float -> float -> float := SFadd prec emax.
Definition float_mul : float -> float -> float := SFmul prec emax.
Definition float_div : float -> float -> float := SFdiv prec emax.

(** The integer [z] rounded to the nearest float, ties to even. *)
Definition float_of_Z (z : Z) : float := binary_normalize prec emax z 0 false.

(** The integer [z] as an unrounded significand with exponent 0. *)
Definition exact_of_Z (z : Z) : float :=
  match z with
  | Z0 => S754_zero false
  | Zpos p => S754_finite false p 0
  | Zneg p => S754_finite true p 0
  end.

Definition is_infinite (f : float) : bool :=
  match f with S754_infinity _ => true | _ => false end.

Definition float_is_zero (f : float) : bool :=
  match f with S754_zero _ => true | _ => false end.

(** A decimal literal [n/d] denotes the float nearest to that rational. *)
Definition float_literal (n d : Z) : float :=
  float_div (exact_of_Z n) (exact_of_Z d).

Definition float_zero : float := S754_zero false.

(** [float(z)] for a Python int: [OverflowError] when the rounded value
    exceeds the largest finite float. *)
Definition int_to_float (z : Z) : outcome float :=
  let f := float_of_Z z in
  if is_infinite f then Raise OverflowError else Ok f.

(** [a / b] for Python ints (true division).  CPython converts both
    operands and divides as floats when both fit in 53 bits; otherwise
    it returns the correctly rounded quotient of the exact integers and
    raises [OverflowError] when that is too large for a float. *)
Definition int_truediv (a b : Z) : outcome float :=
  if b =? 0 then Raise ZeroDivisionError
  else if (Z.abs a <? 2 ^ 53) && (Z.abs b <? 2 ^ 53)
  then Ok (float_div (float_of_Z a) (float_of_Z b))
  else
    let q := float_div (exact_of_Z a) (exact_of_Z b) in
    if is_infinite q then Raise OverflowError else Ok q.

(* ================================================================== *)
(** ** Python values *)
(* ================================================================== *)

(** What [json.loads] can return, and what the stats mappings hold.  A
    [dict] is an association list in insertion order. *)
Inductive pyval : Type :=
| PNone
| PBool (b : bool)
| PInt (z : Z)
| PFloat (f : float)
| PStr (s : string)
| PList (l : list pyval)
| PDict (d : list (string * pyval)).

Definition dict : Type := list (string * pyval).

(** [bool(v)] *)
Definition truthy (v : pyval) : bool :=
  match v with
  | PNone => false
  | PBool b => b
  | PInt z => negb (z =? 0)
  | PFloat f => negb (float_is_zero f)
  | PStr s => negb (s =? "")%string
  | PList l => match l with [] => false | _ => true end
  | PDict d => match d with [] => false | _ => true end
  end.

Fixpoint dict_get (d : dict) (k : string) : option pyval :=
  match d with
  | [] => None
  | (k', v) :: rest => if (k' =? k)%string then Some v else dict_get rest k
  end.

(** [d[k] = v]: overwrite in place, or append a new key. *)
Fixpoint dict_set (d : dict) (k : string) (v : pyval) : dict :=
  match d with
  | [] => [(k, v)]
  | (k', v') :: rest =>
      if (k' =? k)%string then (k', v) :: rest
      else (k', v') :: dict_set rest k v
  end.

Definition dict_has (d : dict) (k : string) : bool :=
  match dict_get d k with Some _ => true | None => false end.

(** [needle in haystack] for strings. *)
Fixpoint str_contains (needle haystack : string) : bool :=
  if String.prefix needle haystack then true
  else match haystack with
       | EmptyString => false
       | String _ rest => str_contains needle rest
       end.

(** [s.replace(old, new)] for a one-character [old]. *)
Fixpoint str_replace_char (old : ascii) (new : string) (s : string) : string :=
  match s with
  | EmptyString => EmptyString
  | String c rest =>
      if Ascii.eqb c old then new ++ str_replace_char old new rest
      else String c (str_replace_char old new rest)
  end.

(** [str(n)] for an int. *)
Definition str_of_int (n : Z) : string := NilZero.string_of_int (Z.to_int n).

(** [k in v] with a string [k]. *)
Definition py_contains (k : string) (v : pyval) : outcome bool :=
  match v with
  | PDict d => Ok (dict_has d k)
  | PList l =>
      Ok (existsb (fun x => match x with PStr s => (s =? k)%string | _ => false end) l)
  | PStr s => Ok (str_contains k s)
  | _ => Raise TypeError
  end.

(** [v.get(k, default)] *)
Definition py_get (v : pyval) (k : string) (default : pyval) : outcome pyval :=
  match v with
  | PDict d => Ok (match dict_get d k with Some x => x | None => default end)
  | _ => Raise AttributeError
  end.

(** [v[k]] with a string [k]. *)
Definition py_getitem (v : pyval) (k : string) : outcome pyval :=
  match v with
  | PDict d => match dict_get d k with Some x => Ok x | None => Raise KeyError end
  | _ => Raise TypeError
  end.

(** [v[k] = x] with a string [k]. *)
Definition py_setitem (v : pyval) (k : string) (x : pyval) : outcome pyval :=
  match v with
  | PDict d => Ok (PDict (dict_set d k x))
  | _ => Raise TypeError
  end.

(** [iter(v)]: the items a [for] loop visits. *)
Definition py_iter (v : pyval) : outcome (list pyval) :=
  match v with
  | PList l => Ok l
  | PDict d => Ok (map (fun kv => PStr (fst kv)) d)
  | PStr s => Ok (map (fun c => PStr (String c EmptyString)) (list_ascii_of_string s))
  | _ => Raise TypeError
  end.

(** [v.replace("Z", "")] *)
Definition py_replace_Z (v : pyval) : outcome string :=
  match v with
  | PStr s => Ok (str_replace_char "Z"%char "" s)
  | _ => Raise AttributeError
  end.

Definition Z_of_bool (b : bool) : Z := if b then 1 else 0.

(** [a + b] *)
Definition py_add (a b : pyval) : outcome pyval :=
  match a, b with
  | PInt x, PInt y => Ok (PInt (x + y))
  | PInt x, PBool y => Ok (PInt (x + Z_of_bool y))
  | PBool x, PInt y => Ok (PInt (Z_of_bool x + y))
  | PBool x, PBool y => Ok (PInt (Z_of_bool x + Z_of_bool y))
  | PFloat x, PFloat y => Ok (PFloat (float_add x y))
  | PFloat x, PInt y => fy <- int_to_float y ;; Ok (PFloat (float_add x fy))
  | PFloat x, PBool y => Ok (PFloat (float_add x (float_of_Z (Z_of_bool y))))
  | PInt x, PFloat y => fx <- int_to_float x ;; Ok (PFloat (float_add fx y))
  | PBool x, PFloat y => Ok (PFloat (float_add (float_of_Z (Z_of_bool x)) y))
  | PStr x, PStr y => Ok (PStr (x ++ y))
  | PList x, PList y => Ok (PList (x ++ y))
  | _, _ => Raise TypeError
  end.

(** [v / 1000] *)
Definition py_div_1000 (v : pyval) : outcome float :=
  match v with
  | PInt z => int_truediv z 1000
  | PBool b => int_truediv (Z_of_bool b) 1000
  | PFloat f => Ok (float_div f (float_of_Z 1000))
  | _ => Raise TypeError
  end.

(* ================================================================== *)
(** ** Constants *)
(* ================================================================== *)

Definition COST_PER_1K_INPUT_TOKENS : float := float_literal 3 100.
Definition COST_PER_1K_OUTPUT_TOKENS : float := float_literal 15 100.

Definition DAILY_LOG_LIMIT : Z := 100.
Definition WEEKLY_LOG_LIMIT : Z := 500.
Definition MONTHLY_LOG_LIMIT : Z := 1000.
Definition SESSION_LOG_LIMIT : Z := 50.

(* ================================================================== *)
(** ** calculate_cost *)
(* ================================================================== *)

Definition calculate_cost (input_tokens output_tokens : pyval) : outcome float :=
  q_in <- py_div_1000 input_tokens ;;
  let input_cost := float_mul q_in COST_PER_1K_INPUT_TOKENS in
  q_out <- py_div_1000 output_tokens ;;
  let output_cost := float_mul q_out COST_PER_1K_OUTPUT_TOKENS in
  Ok (float_add input_cost output_cost).

(** The cost formula in the specification's words, over floats:
    (input_tokens/1000) x rate_in + (output_tokens/1000) x rate_out. *)
Definition cost_formula (input_tokens output_tokens : Z) : float :=
  float_add
    (float_mul (float_div (float_of_Z input_tokens) (float_of_Z 1000))
               (float_literal 3 100))
    (float_mul (float_div (float_of_Z output_tokens) (float_of_Z 1000))
               (float_literal 15 100)).

(* ================================================================== *)
(** ** datetime and timedelta *)
(* ================================================================== *)

(** Microseconds since 0001-01-01T00:00:00 on the wall clock the value
    is expressed in; [dt_tz] is the UTC offset in microseconds of an
    aware datetime and [None] for a naive one. *)
Record datetime : Type := mkdatetime { dt_us : Z; dt_tz : option Z }.

(** A [timedelta] is a signed number of microseconds. *)
Definition timedelta : Type := Z.

Definition US_PER_HOUR : Z := 3600 * 1000000.
Definition US_PER_DAY : Z := 24 * US_PER_HOUR.

(** [datetime.max] is the last microsecond of 9999-12-31, day 3652059. *)
Definition DATETIME_END_US : Z := 3652059 * US_PER_DAY.

(** [timedelta(days=n)]: the magnitude is limited to 999999999 days. *)
Definition timedelta_days (n : Z) : outcome timedelta :=
  if Z.abs n <=? 999999999 then Ok (n * US_PER_DAY) else Raise OverflowError.

(** [timedelta(hours=1)] *)
Definition timedelta_one_hour : timedelta := US_PER_HOUR.

(** [d - delta]: [OverflowError] when the result leaves years 1..9999. *)
Definition datetime_sub (d : datetime) (delta : timedelta) : outcome datetime :=
  let us := dt_us d - delta in
  if (0 <=? us) && (us <? DATETIME_END_US)
  then Ok (mkdatetime us (dt_tz d))
  else Raise OverflowError.

(** [a < b] and [a > b]: a naive and an aware datetime do not compare. *)
Definition datetime_lt (a b : datetime) : outcome bool :=
  match dt_tz a, dt_tz b with
  | None, None => Ok (dt_us a <? dt_us b)
  | Some oa, Some ob => Ok (dt_us a - oa <? dt_us b - ob)
  | _, _ => Raise TypeError
  end.

Definition datetime_gt (a b : datetime) : outcome bool := datetime_lt b a.

(** [a - b] for two datetimes. *)
Definition datetime_diff (a b : datetime) : outcome timedelta :=
  match dt_tz a, dt_tz b with
  | None, None => Ok (dt_us a - dt_us b)
  | Some oa, Some ob => Ok ((dt_us a - oa) - (dt_us b - ob))
  | _, _ => Raise TypeError
  end.

(** [d.replace(hour=0, minute=0, second=0, microsecond=0)] *)
Definition replace_midnight (d : datetime) : datetime :=
  mkdatetime (dt_us d - dt_us d mod US_PER_DAY) (dt_tz d).

(** [d.weekday()]: Monday is 0; 0001-01-01 is a Monday. *)
Definition weekday (d : datetime) : Z := (dt_us d / US_PER_DAY) mod 7.

(** Year, month and day of the day numbered [n] from 0001-01-01 = 0 in
    the proleptic Gregorian calendar (years counted from March inside
    400-year eras). *)
Definition civil_of_day (n : Z) : Z * Z * Z :=
  let z := n + 306 in
  let era := z / 146097 in
  let doe := z mod 146097 in
  let yoe := (doe - doe / 1460 + doe / 36524 - doe / 146096) / 365 in
  let doy := doe - (365 * yoe + yoe / 4 - yoe / 100) in
  let mp := (5 * doy + 2) / 153 in
  let d := doy - (153 * mp + 2) / 5 + 1 in
  let m := if mp <? 10 then mp + 3 else mp - 9 in
  let y := yoe + era * 400 + (if m <=? 2 then 1 else 0) in
  (y, m, d).

Definition day_of_month (n : Z) : Z := snd (civil_of_day n).

(** [d.replace(day=1, hour=0, minute=0, second=0, microsecond=0)] *)
Definition replace_first_of_month (d : datetime) : datetime :=
  let n := dt_us d / US_PER_DAY in
  mkdatetime ((n - (day_of_month n - 1)) * US_PER_DAY) (dt_tz d).

(* ================================================================== *)
(** ** Library interface *)
(* ================================================================== *)

Class PyLib : Type := {
  (** [json.loads]; [None] stands for [JSONDecodeError]. *)
  json_loads : string -> option pyval;
  (** [json.dumps(v, indent=2)] *)
  json_dumps_indent2 : pyval -> string;
  (** [datetime.fromisoformat]; [None] stands for [ValueError]. *)
  fromisoformat : string -> option datetime;
  (** [d.isoformat()] *)
  isoformat : datetime -> string;
  (** [d.strftime("%Y-%m-%d")] *)
  strftime_date : datetime -> string;
  (** [d.strftime('%Y-%m-%d %H:%M:%S')] *)
  strftime_seconds : datetime -> string;
  (** [f"{v:,}"] *)
  format_grouped : pyval -> outcome string;
  (** [f"{v:.2f}"] *)
  format_2f : pyval -> outcome string;
  (** [str(delta)] for a timedelta *)
  str_of_timedelta : timedelta -> string;
  (** [os.path.expanduser] *)
  expanduser : string -> string;
  (** [s.strip()] *)
  str_strip : string -> string;
  (** [s.capitalize()] *)
  str_capitalize : string -> string
}.

(* ================================================================== *)
(** ** The outside world and the program state *)
(* ================================================================== *)

(** What [subprocess.run(command, capture_output=True, text=True)] does:
    the child ran to completion, or the call itself raised (the
    executable is missing or not executable, the output does not
    decode, ...). *)
Inductive proc_result : Type :=
| Completed (returncode : Z) (stdout stderr : string)
| RunRaised (e : exn).

(** Each field is indexed by the number of observations the program has
    made so far, so the world may change between two observations. *)
Record env : Type := {
  env_now : nat -> Z;
  env_run : nat -> list string -> proc_result;
  env_exists : nat -> string -> bool;
  env_read : nat -> string -> outcome string
}.

Record state : Type := mkstate {
  tick : nat;
  printed : list string
}.

Definition M : Type -> Type := St state.

Definition initial_state : state := mkstate 0 [].

Section Program.

Context {lib : PyLib}.
Variable E : env.

Definition observe {A} (f : nat -> A) : M A :=
  fun s => (Ok (f (tick s)), mkstate (S (tick s)) (printed s)).

Definition print (line : string) : M unit :=
  fun s => (Ok tt, mkstate (tick s) (printed s ++ [line])).

(** [datetime.now()]: a naive datetime. *)
Definition datetime_now : M datetime :=
  us <- observe (env_now E) ;;
  ret (mkdatetime us None).

(** [json.loads(text)] *)
Definition loads (text : string) : outcome pyval :=
  match json_loads text with
  | Some v => Ok v
  | None => Raise JSONDecodeError
  end.

(** [datetime.fromisoformat(s)] *)
Definition parse_iso (s : string) : outcome datetime :=
  match fromisoformat s with
  | Some d => Ok d
  | None => Raise ValueError
  end.

(** [subprocess.run(command, capture_output=True, text=True, check=True)]:
    a non-zero exit status becomes [CalledProcessError]. *)
Definition subprocess_run_check (command : list string) : M string :=
  r <- observe (fun n => env_run E n command) ;;
  match r with
  | Completed rc out err =>
      if rc =? 0 then ret out else raise (CalledProcessError rc err)
  | RunRaised e => raise e
  end.

(* ------------------------------------------------------------------ *)
(** *** run_command *)

Definition run_command (command : list string) : M (string * bool) :=
  try_except
    (out <- subprocess_run_check command ;;
     ret (out, true))
    is_CalledProcessError
    (fun e =>
       match e with
       | CalledProcessError _ err => ret ("Error: " ++ err, false)
       | _ => raise e
       end).

(* ------------------------------------------------------------------ *)
(** *** get_claude_version, get_claude_config *)

Definition get_claude_version : M string :=
  '(cmd, success) <- run_command ["claude"; "--version"] ;;
  if (success : bool) then ret (str_strip cmd) else ret "Unknown".

Definition config_paths : list string :=
  [expanduser "~/.config/claude/config.json";
   expanduser "~/.claude/config.json"].

(** The [for] loop of [get_claude_config]; [Some v] is [return v]. *)
Fixpoint read_first_config (paths : list string) : M (option pyval) :=
  match paths with
  | [] => ret None
  | config_path :: rest =>
      present <- observe (fun n => env_exists E n config_path) ;;
      found <-
        (if (present : bool) then
           try_except
             (text <- observe (fun n => env_read E n config_path) ;;
              text <- lift text ;;
              v <- lift (loads text) ;;
              ret (Some v))
             is_Exception
             (fun _ =>
                print ("Error reading Claude config at " ++ config_path) ;;;
                ret None)
         else ret None) ;;
      match found with
      | Some v => ret (Some v)
      | None => read_first_config rest
      end
  end.

Definition get_claude_config : M pyval :=
  found <- read_first_config config_paths ;;
  match found with
  | Some v => ret v
  | None => print "Claude config not found" ;;; ret (PDict [])
  end.

(* ------------------------------------------------------------------ *)
(** *** get_current_session_stats *)

(** The local variables of the log loop of [get_current_session_stats]. *)
Record session_vars : Type := mksession {
  s_input_tokens : pyval;
  s_output_tokens : pyval;
  first_timestamp : option datetime;
  last_timestamp : option datetime
}.

Definition session_vars_init : session_vars :=
  mksession (PInt 0) (PInt 0) None None.

(** Run a block over its own local variables from inside [M]; an
    exception leaving the block propagates. *)
Definition with_locals {S A} (locals : S) (c : St S A) : M (A * S) :=
  match c locals with
  | (Ok a, final) => ret (a, final)
  | (Raise e, _) => raise e
  end.

(** Lines 105-107: [if "tokens" in entry: ...]. *)
Definition session_count_tokens (entry : pyval) : St session_vars unit :=
  has_tokens <- lift (py_contains "tokens" entry) ;;
  if (has_tokens : bool) then
    tokens <- lift (py_get entry "tokens" (PDict [])) ;;
    prompt <- lift (py_get tokens "prompt" (PInt 0)) ;;
    v <- get_state ;;
    sum <- lift (py_add (s_input_tokens v) prompt) ;;
    put_state (mksession sum (s_output_tokens v)
                         (first_timestamp v) (last_timestamp v)) ;;;
    tokens <- lift (py_get entry "tokens" (PDict [])) ;;
    completion <- lift (py_get tokens "completion" (PInt 0)) ;;
    v <- get_state ;;
    sum <- lift (py_add (s_output_tokens v) completion) ;;
    put_state (mksession (s_input_tokens v) sum
                         (first_timestamp v) (last_timestamp v))
  else ret tt.

(** Lines 110-119: the first and last timestamps seen. *)
Definition session_track_timestamp (entry : pyval) : St session_vars unit :=
  timestamp <- lift (py_get entry "timestamp" PNone) ;;
  if truthy timestamp then
    try_except
      (text <- lift (py_replace_Z timestamp) ;;
       entry_time <- lift (parse_iso text) ;;
       v <- get_state ;;
       earlier <- match first_timestamp v with
                  | None => ret true
                  | Some t => lift (datetime_lt entry_time t)
                  end ;;
       (if (earlier : bool) then
          put_state (mksession (s_input_tokens v) (s_output_tokens v)
                               (Some entry_time) (last_timestamp v))
        else ret tt) ;;;
       v <- get_state ;;
       later <- match last_timestamp v with
                | None => ret true
                | Some t => lift (datetime_gt entry_time t)
                end ;;
       (if (later : bool) then
          put_state (mksession (s_input_tokens v) (s_output_tokens v)
                               (first_timestamp v) (Some entry_time))
        else ret tt))
      is_ValueError_or_TypeError
      (fun _ => ret tt)
  else ret tt.

(** The body of [for entry in logs] (lines 104-119). *)
Definition session_entry (entry : pyval) : St session_vars unit :=
  session_count_tokens entry ;;;
  session_track_timestamp entry.

(** Lines 132-140: the zero-valued stats of last resort. *)
Definition session_last_resort : M pyval :=
  now <- datetime_now ;;
  session_start <- lift (datetime_sub now timedelta_one_hour) ;;
  ret (PDict [("input_tokens", PInt 0);
              ("output_tokens", PInt 0);
              ("total_tokens", PInt 0);
              ("session_start", PStr (isoformat session_start))]).

(** Lines 93-130: stats rebuilt from the logs; [None] when the block
    falls through to the last resort. *)
Definition session_from_logs : M (option pyval) :=
  '(cmd, success) <- run_command
     ["claude"; "logs"; "--format"; "json"; "--limit"; str_of_int SESSION_LOG_LIMIT] ;;
  if (success : bool) then
    try_except
      (logs <- lift (loads cmd) ;;
       entries <- lift (py_iter logs) ;;
       '(_, v) <- with_locals session_vars_init (for_each session_entry entries) ;;
       session_start <-
         match first_timestamp v with
         | Some t => ret (isoformat t)
         | None => now <- datetime_now ;; ret (isoformat now)
         end ;;
       total <- lift (py_add (s_input_tokens v) (s_output_tokens v)) ;;
       ret (Some (PDict [("input_tokens", s_input_tokens v);
                         ("output_tokens", s_output_tokens v);
                         ("total_tokens", total);
                         ("session_start", PStr session_start)])))
      is_JSONDecodeError_or_AttributeError
      (fun _ => print "Error processing logs" ;;; ret None)
  else ret None.

(** Lines 80-90: the structured stats query; [None] when the block falls
    through to the logs. *)
Definition session_from_stats : M (option pyval) :=
  '(cmd, success) <- run_command ["claude"; "stats"; "--format"; "json"] ;;
  if (success : bool) then
    try_except
      (stats <- lift (loads cmd) ;;
       has_start <- lift (py_contains "session_start" stats) ;;
       if (has_start : bool) then ret (Some stats)
       else
         now <- datetime_now ;;
         start <- lift (datetime_sub now timedelta_one_hour) ;;
         stats <- lift (py_setitem stats "session_start" (PStr (isoformat start))) ;;
         ret (Some stats))
      is_JSONDecodeError
      (fun _ => print "Error parsing stats data" ;;; ret None)
  else ret None.

Definition get_current_session_stats : M pyval :=
  from_stats <- session_from_stats ;;
  match from_stats with
  | Some stats => ret stats
  | None =>
      from_logs <- session_from_logs ;;
      match from_logs with
      | Some stats => ret stats
      | None => session_last_resort
      end
  end.

(* ------------------------------------------------------------------ *)
(** *** get_time_period_stats *)

(** Lines 199-204: the fields written over a decoded stats reply. *)
Definition fill_period_stats (stats : pyval) (period : string)
    (start_time end_time : datetime) : outcome pyval :=
  stats <- py_setitem stats "period" (PStr period) ;;
  stats <- py_setitem stats "start_time" (PStr (isoformat start_time)) ;;
  stats <- py_setitem stats "end_time" (PStr (isoformat end_time)) ;;
  i <- py_get stats "input_tokens" (PInt 0) ;;
  o <- py_get stats "output_tokens" (PInt 0) ;;
  total <- py_add i o ;;
  stats <- py_setitem stats "total_tokens" total ;;
  i <- py_get stats "input_tokens" (PInt 0) ;;
  o <- py_get stats "output_tokens" (PInt 0) ;;
  cost <- calculate_cost i o ;;
  py_setitem stats "cost" (PFloat cost).

(** One structured stats query (lines 194-206 and 209-221); [None] when
    the block falls through. *)
Definition period_from_stats (command : list string) (period : string)
    (start_time end_time : datetime) : M (option pyval) :=
  '(cmd, success) <- run_command command ;;
  if (success : bool) then
    try_except
      (stats <- lift (loads cmd) ;;
       stats <- lift (fill_period_stats stats period start_time end_time) ;;
       ret (Some stats))
      is_JSONDecodeError
      (fun _ => ret None)
  else ret None.

(** The token totals accumulated by the log loop. *)
Record period_vars : Type := mkperiod {
  p_input_tokens : pyval;
  p_output_tokens : pyval
}.

Definition period_vars_init : period_vars := mkperiod (PInt 0) (PInt 0).

(** The body of [for entry in logs] (lines 243-259).  Leaving the [try]
    block early, normally or through a caught exception, is
    [continue]. *)
Definition period_entry (start_time end_time : datetime) (entry : pyval)
    : St period_vars unit :=
  timestamp <- lift (py_get entry "timestamp" PNone) ;;
  if negb (truthy timestamp) then ret tt
  else
    try_except
      (text <- lift (py_replace_Z timestamp) ;;
       entry_time <- lift (parse_iso text) ;;
       before <- lift (datetime_lt entry_time start_time) ;;
       if (before : bool) then ret tt
       else
         after <- lift (datetime_gt entry_time end_time) ;;
         if (after : bool) then ret tt
         else
           has_tokens <- lift (py_contains "tokens" entry) ;;
           if (has_tokens : bool) then
             tokens <- lift (py_get entry "tokens" (PDict [])) ;;
             prompt <- lift (py_get tokens "prompt" (PInt 0)) ;;
             v <- get_state ;;
             sum <- lift (py_add (p_input_tokens v) prompt) ;;
             put_state (mkperiod sum (p_output_tokens v)) ;;;
             tokens <- lift (py_get entry "tokens" (PDict [])) ;;
             completion <- lift (py_get tokens "completion" (PInt 0)) ;;
             v <- get_state ;;
             sum <- lift (py_add (p_output_tokens v) completion) ;;
             put_state (mkperiod (p_input_tokens v) sum)
           else ret tt)
      is_ValueError_or_TypeError
      (fun _ => ret tt).

(** The aggregation over a decoded log listing. *)
Definition aggregate_logs (start_time end_time : datetime) (entries : list pyval)
    : St period_vars unit :=
  for_each (period_entry start_time end_time) entries.

Definition log_limit (period : string) : Z :=
  if (period =? "monthly")%string then MONTHLY_LOG_LIMIT
  else if (period =? "weekly")%string then WEEKLY_LOG_LIMIT
  else if (period =? "daily")%string then DAILY_LOG_LIMIT
  else SESSION_LOG_LIMIT.

(** Lines 224-261: the log fallback; it returns the two totals.  Only
    [json.loads] can raise [JSONDecodeError] here, so the handler always
    finds the totals at zero. *)
Definition period_from_logs (period : string) (start_time end_time : datetime)
    : M period_vars :=
  '(cmd, success) <- run_command
     ["claude"; "logs"; "--format"; "json"; "--limit"; str_of_int (log_limit period)] ;;
  if (success : bool) then
    try_except
      (logs <- lift (loads cmd) ;;
       entries <- lift (py_iter logs) ;;
       '(_, v) <- with_locals period_vars_init
                    (aggregate_logs start_time end_time entries) ;;
       ret v)
      is_JSONDecodeError
      (fun _ => print "Error processing logs" ;;; ret period_vars_init)
  else ret period_vars_init.

(** Lines 169-186: the window when it is not given. *)
Definition default_start_time (period : string) (now : datetime) : outcome datetime :=
  if (period =? "daily")%string then Ok (replace_midnight now)
  else if (period =? "weekly")%string then
    delta <- timedelta_days (weekday now) ;;
    monday <- datetime_sub now delta ;;
    Ok (replace_midnight monday)
  else if (period =? "monthly")%string then Ok (replace_first_of_month now)
  else
    delta <- timedelta_days 1 ;;
    datetime_sub now delta.

Definition is_named_period (period : string) : bool :=
  existsb (String.eqb period) ["daily"; "weekly"; "monthly"].

(** Lines 188-274: the fallback chain once the window is known. *)
Definition period_stats_in_window (period : string) (start_time end_time : datetime)
    : M pyval :=
  let start_str := strftime_date start_time in
  let end_str := strftime_date end_time in
  direct <-
    (if is_named_period period then
       period_from_stats ["claude"; "stats"; "--period"; period; "--format"; "json"]
                         period start_time end_time
     else ret None) ;;
  match direct with
  | Some stats => ret stats
  | None =>
      ranged <- period_from_stats
                  ["claude"; "stats"; "--from"; start_str; "--to"; end_str;
                   "--format"; "json"]
                  period start_time end_time ;;
      match ranged with
      | Some stats => ret stats
      | None =>
          v <- period_from_logs period start_time end_time ;;
          cost <- lift (calculate_cost (p_input_tokens v) (p_output_tokens v)) ;;
          total <- lift (py_add (p_input_tokens v) (p_output_tokens v)) ;;
          ret (PDict [("period", PStr period);
                      ("input_tokens", p_input_tokens v);
                      ("output_tokens", p_output_tokens v);
                      ("total_tokens", total);
                      ("cost", PFloat cost);
                      ("start_time", PStr (isoformat start_time));
                      ("end_time", PStr (isoformat end_time))])
      end
  end.

(** [if not end_time] and [if not start_time] test for [None]: a
    datetime is always true. *)
Definition get_time_period_stats (period : string)
    (start_time end_time : option datetime) : M pyval :=
  now <- datetime_now ;;
  let end_time := match end_time with Some t => t | None => now end in
  start_time <- match start_time with
                | Some t => ret t
                | None => lift (default_start_time period now)
                end ;;
  period_stats_in_window period start_time end_time.

(* ------------------------------------------------------------------ *)
(** *** print_usage_report *)

Definition nl : string := String (ascii_of_nat 10) EmptyString.

Definition rule50 : string := String.concat "" (repeat "=" 50).

(** [s.capitalize()] on a value. *)
Definition py_capitalize (v : pyval) : outcome string :=
  match v with
  | PStr s => Ok (str_capitalize s)
  | _ => Raise AttributeError
  end.

(** The body of [for stats in [daily_stats, weekly_stats, monthly_stats]]. *)
Definition report_period (stats : pyval) : M unit :=
  label <- lift (py_getitem stats "period") ;;
  period <- lift (py_capitalize label) ;;
  print ("  " ++ period ++ " Usage:") ;;;
  i <- lift (py_getitem stats "input_tokens") ;;
  text <- lift (format_grouped i) ;;
  print ("    Input Tokens:  " ++ text) ;;;
  o <- lift (py_getitem stats "output_tokens") ;;
  text <- lift (format_grouped o) ;;
  print ("    Output Tokens: " ++ text) ;;;
  t <- lift (py_getitem stats "total_tokens") ;;
  text <- lift (format_grouped t) ;;
  print ("    Total Tokens:  " ++ text) ;;;
  c <- lift (py_getitem stats "cost") ;;
  text <- lift (format_2f c) ;;
  print ("    Cost:          $" ++ text) ;;;
  has_start <- lift (py_contains "start_time" stats) ;;
  if (has_start : bool) then
    start <- lift (py_getitem stats "start_time") ;;
    if truthy start then
      try_except
        (start <- lift (py_getitem stats "start_time") ;;
         text <- lift (py_replace_Z start) ;;
         start_time <- lift (parse_iso text) ;;
         print ("    Since:         " ++ strftime_seconds start_time))
        is_ValueError_or_TypeError
        (fun _ => ret tt)
    else ret tt
  else ret tt.

Definition print_usage_report (current_stats daily_stats weekly_stats monthly_stats : pyval)
    : M unit :=
  print (nl ++ rule50) ;;;
  print "CLAUDE CODE USAGE STATISTICS" ;;;
  print rule50 ;;;
  i <- lift (py_get current_stats "input_tokens" (PInt 0)) ;;
  o <- lift (py_get current_stats "output_tokens" (PInt 0)) ;;
  current_cost <- lift (calculate_cost i o) ;;
  print (nl ++ "CURRENT SESSION:") ;;;
  i <- lift (py_get current_stats "input_tokens" (PInt 0)) ;;
  text <- lift (format_grouped i) ;;
  print ("  Input Tokens:  " ++ text) ;;;
  o <- lift (py_get current_stats "output_tokens" (PInt 0)) ;;
  text <- lift (format_grouped o) ;;
  print ("  Output Tokens: " ++ text) ;;;
  i <- lift (py_get current_stats "input_tokens" (PInt 0)) ;;
  o <- lift (py_get current_stats "output_tokens" (PInt 0)) ;;
  total <- lift (py_add i o) ;;
  text <- lift (format_grouped total) ;;
  print ("  Total Tokens:  " ++ text) ;;;
  text <- lift (format_2f (PFloat current_cost)) ;;
  print ("  Cost:          $" ++ text) ;;;
  has_start <- lift (py_contains "session_start" current_stats) ;;
  (if (has_start : bool) then
     try_except
       (start <- lift (py_getitem current_stats "session_start") ;;
        text <- lift (py_replace_Z start) ;;
        start_time <- lift (parse_iso text) ;;
        now <- datetime_now ;;
        duration <- lift (datetime_diff now start_time) ;;
        print ("  Duration:      " ++ str_of_timedelta duration))
       is_ValueError_or_TypeError
       (fun _ => print "  Duration:      Unknown")
   else ret tt) ;;;
  print (nl ++ "USAGE BY TIME PERIOD:") ;;;
  for_each report_period [daily_stats; weekly_stats; monthly_stats] ;;;
  print (nl ++ "NOTE: Costs are estimates based on Claude 3 Opus pricing.") ;;;
  print (rule50 ++ nl).

(* ------------------------------------------------------------------ *)
(** *** main *)

(** The namespace built by [argparse]: [--verbose] is a flag, [--days]
    is an int and [None] when the flag is absent. *)
Record args : Type := mkargs {
  arg_verbose : bool;
  arg_days : option Z
}.

(** Lines 341-344: one custom window ending now, used three times. *)
Definition custom_period_stats (days : Z) : M (pyval * pyval * pyval) :=
  now <- datetime_now ;;
  delta <- lift (timedelta_days days) ;;
  start_time <- lift (datetime_sub now delta) ;;
  period_stats <- get_time_period_stats ("last " ++ str_of_int days ++ " days")
                    (Some start_time) (Some now) ;;
  ret (period_stats, period_stats, period_stats).

(** Lines 347-349. *)
Definition standard_period_stats : M (pyval * pyval * pyval) :=
  daily_stats <- get_time_period_stats "daily" None None ;;
  weekly_stats <- get_time_period_stats "weekly" None None ;;
  monthly_stats <- get_time_period_stats "monthly" None None ;;
  ret (daily_stats, weekly_stats, monthly_stats).

(** Lines 337-349: the four stats objects handed to the report.
    [if args.days:] is false for [None] and for 0. *)
Definition collect_stats (a : args) : M (pyval * (pyval * pyval * pyval)) :=
  current_stats <- get_current_session_stats ;;
  periods <- match arg_days a with
             | Some days =>
                 if days =? 0 then standard_period_stats
                 else custom_period_stats days
             | None => standard_period_stats
             end ;;
  ret (current_stats, periods).

(** Lines 355-358: the configuration as it is about to be shown. *)
Definition redacted_config : M pyval :=
  config <- get_claude_config ;;
  has_key <- lift (py_contains "api_key" config) ;;
  if (has_key : bool) then lift (py_setitem config "api_key" (PStr "********"))
  else ret config.

(** Lines 354-362. *)
Definition verbose_info : M unit :=
  config <- redacted_config ;;
  print "Claude Information:" ;;;
  version <- get_claude_version ;;
  print ("Version: " ++ version) ;;;
  print "Configuration:" ;;;
  print (json_dumps_indent2 config).

Definition main (a : args) : M unit :=
  '(current_stats, (daily_stats, weekly_stats, monthly_stats)) <- collect_stats a ;;
  print_usage_report current_stats daily_stats weekly_stats monthly_stats ;;;
  if arg_verbose a then verbose_info else ret tt.

End Program.

(* ================================================================== *)
(** ** A concrete library and concrete worlds

    An instance of [PyLib] and a few environments, used to run the
    program on explicit inputs.  Dates are rendered and read in the
    layout [YYYY-MM-DDTHH:MM:SS]; JSON replies are decoded through the
    table [replies]. *)
(* ================================================================== *)

Module Sample.

Definition dq : string := String (ascii_of_nat 34) EmptyString.

(** [q s] is [s] between double quotes. *)
Definition q (s : string) : string := dq ++ s ++ dq.

(** *** Dates *)

Definition day_of_civil (y m d : Z) : Z :=
  let y' := if m <=? 2 then y - 1 else y in
  let era := y' / 400 in
  let yoe := y' mod 400 in
  let mp := if 2 <? m then m - 3 else m + 9 in
  let doy := (153 * mp + 2) / 5 + d - 1 in
  let doe := yoe * 365 + yoe / 4 - yoe / 100 + doy in
  era * 146097 + doe - 306.

Definition at_time (y m d hh mm ss : Z) : datetime :=
  mkdatetime (day_of_civil y m d * US_PER_DAY + ((hh * 60 + mm) * 60 + ss) * 1000000)
             None.

Definition pad (width : nat) (n : Z) : string :=
  let digits := str_of_int n in
  String.concat "" (repeat "0" (width - String.length digits)) ++ digits.

Definition iso_date (d : datetime) : string :=
  let '(y, m, dd) := civil_of_day (dt_us d / US_PER_DAY) in
  pad 4 y ++ "-" ++ pad 2 m ++ "-" ++ pad 2 dd.

Definition iso_clock (d : datetime) : string :=
  let secs := (dt_us d mod US_PER_DAY) / 1000000 in
  pad 2 (secs / 3600) ++ ":" ++ pad 2 (secs / 60 mod 60) ++ ":" ++ pad 2 (secs mod 60).

Definition iso_offset (offset : Z) : string :=
  let minutes := Z.abs offset / 60000000 in
  (if offset <? 0 then "-" else "+") ++ pad 2 (minutes / 60) ++ ":" ++ pad 2 (minutes mod 60).

Definition sample_isoformat (d : datetime) : string :=
  iso_date d ++ "T" ++ iso_clock d
  ++ (if dt_us d mod 1000000 =? 0 then "" else "." ++ pad 6 (dt_us d mod 1000000))
  ++ match dt_tz d with Some o => iso_offset o | None => "" end.

Definition digit_of (c : ascii) : option Z :=
  let n := Z.of_nat (nat_of_ascii c) in
  if (48 <=? n) && (n <=? 57) then Some (n - 48) else None.

Fixpoint number_from (acc : Z) (s : string) : option Z :=
  match s with
  | EmptyString => Some acc
  | String c rest =>
      match digit_of c with
      | Some k => number_from (10 * acc + k) rest
      | None => None
      end
  end.

Definition field (s : string) (start len : nat) : option Z :=
  let text := substring start len s in
  if Nat.eqb (String.length text) len then number_from 0 text else None.

Definition separator_at (s : string) (i : nat) (c : string) : bool :=
  (substring i 1 s =? c)%string.

Definition read_date (s : string) : option Z :=
  match field s 0 4, field s 5 2, field s 8 2 with
  | Some y, Some m, Some d =>
      let n := day_of_civil y m d in
      let '(y', m', d') := civil_of_day n in
      if separator_at s 4 "-" && separator_at s 7 "-"
         && (1 <=? y) && (y <=? 9999) && (y' =? y) && (m' =? m) && (d' =? d)
      then Some n else None
  | _, _, _ => None
  end.

Definition read_clock (s : string) : option Z :=
  match field s 11 2, field s 14 2, field s 17 2 with
  | Some hh, Some mm, Some ss =>
      if separator_at s 10 "T" && separator_at s 13 ":" && separator_at s 16 ":"
         && (hh <? 24) && (mm <? 60) && (ss <? 60)
      then Some (((hh * 60 + mm) * 60 + ss) * 1000000) else None
  | _, _, _ => None
  end.

(** Reads [YYYY-MM-DD] and [YYYY-MM-DDTHH:MM:SS]; anything else is
    rejected. *)
Definition sample_fromisoformat (s : string) : option datetime :=
  match String.length s with
  | 10%nat =>
      match read_date s with
      | Some n => Some (mkdatetime (n * US_PER_DAY) None)
      | None => None
      end
  | 19%nat =>
      match read_date s, read_clock s with
      | Some n, Some us => Some (mkdatetime (n * US_PER_DAY + us) None)
      | _, _ => None
      end
  | _ => None
  end.

(** *** Numbers and text *)

(** Decimal digits with a comma every three places. *)
Fixpoint group_digits (fuel : nat) (n : Z) : string :=
  match fuel with
  | O => str_of_int n
  | S fuel' =>
      if n <? 1000 then str_of_int n
      else group_digits fuel' (n / 1000) ++ "," ++ pad 3 (n mod 1000)
  end.

Definition grouped (n : Z) : string :=
  (if n <? 0 then "-" else "") ++ group_digits (Z.to_nat (Z.log2 (Z.abs n))) (Z.abs n).

(** The float rounded to hundredths, ties to even, as [%.2f] prints it. *)
Definition hundredths (m : positive) (e : Z) : Z :=
  let num := Zpos m * 100 in
  if 0 <=? e then num * 2 ^ e
  else
    let den := 2 ^ (- e) in
    let qt := num / den in
    let r := num mod den in
    match 2 * r ?= den with
    | Lt => qt
    | Gt => qt + 1
    | Eq => if Z.even qt then qt else qt + 1
    end.

Definition fixed2 (f : float) : string :=
  match f with
  | S754_zero s => (if s then "-" else "") ++ "0.00"
  | S754_infinity s => (if s then "-" else "") ++ "inf"
  | S754_nan => "nan"
  | S754_finite s m e =>
      let h := hundredths m e in
      (if s then "-" else "") ++ str_of_int (h / 100) ++ "." ++ pad 2 (h mod 100)
  end.

(** Floats are shown with two decimals by this instance. *)
Definition sample_format_grouped (v : pyval) : outcome string :=
  match v with
  | PInt z => Ok (grouped z)
  | PBool b => Ok (grouped (Z_of_bool b))
  | PFloat f => Ok (fixed2 f)
  | PStr _ => Raise ValueError
  | _ => Raise TypeError
  end.

Definition sample_format_2f (v : pyval) : outcome string :=
  match v with
  | PFloat f => Ok (fixed2 f)
  | PInt z => f <- int_to_float z ;; Ok (fixed2 f)
  | PBool b => Ok (fixed2 (float_of_Z (Z_of_bool b)))
  | PStr _ => Raise ValueError
  | _ => Raise TypeError
  end.

Definition sample_str_of_timedelta (delta : timedelta) : string :=
  let days := delta / US_PER_DAY in
  let rest := delta mod US_PER_DAY in
  let secs := rest / 1000000 in
  (if days =? 0 then ""
   else str_of_int days ++ (if Z.abs days =? 1 then " day, " else " days, "))
  ++ str_of_int (secs / 3600) ++ ":" ++ pad 2 (secs / 60 mod 60) ++ ":" ++ pad 2 (secs mod 60)
  ++ (if rest mod 1000000 =? 0 then "" else "." ++ pad 6 (rest mod 1000000)).

Definition sample_expanduser (path : string) : string :=
  match path with
  | String "~"%char rest => "/home/user" ++ rest
  | _ => path
  end.

Definition is_space (c : ascii) : bool :=
  let n := nat_of_ascii c in
  Nat.eqb n 32 || (Nat.leb 9 n && Nat.leb n 13).

Fixpoint strip_left (s : string) : string :=
  match s with
  | String c rest => if is_space c then strip_left rest else s
  | EmptyString => EmptyString
  end.

Definition reverse (s : string) : string :=
  string_of_list_ascii (rev (list_ascii_of_string s)).

Definition sample_strip (s : string) : string :=
  reverse (strip_left (reverse (strip_left s))).

Definition upper (c : ascii) : ascii :=
  let n := nat_of_ascii c in
  if Nat.leb 97 n && Nat.leb n 122 then ascii_of_nat (n - 32) else c.

Definition lower (c : ascii) : ascii :=
  let n := nat_of_ascii c in
  if Nat.leb 65 n && Nat.leb n 90 then ascii_of_nat (n + 32) else c.

Definition sample_capitalize (s : string) : string :=
  match s with
  | EmptyString => EmptyString
  | String c rest =>
      String (upper c) (string_of_list_ascii (map lower (list_ascii_of_string rest)))
  end.

(** *** JSON *)

Definition spaces (n : nat) : string := String.concat "" (repeat " " n).

(** [json.dumps(v, indent=2)] without string escapes; floats with two
    decimals. *)
Fixpoint dumps (depth : nat) (v : pyval) {struct v} : string :=
  match v with
  | PNone => "null"
  | PBool b => if b then "true" else "false"
  | PInt z => str_of_int z
  | PFloat f => fixed2 f
  | PStr s => q s
  | PList [] => "[]"
  | PList l =>
      "[" ++ nl
      ++ String.concat ("," ++ nl)
           (map (fun x => spaces (2 * S depth) ++ dumps (S depth) x) l)
      ++ nl ++ spaces (2 * depth) ++ "]"
  | PDict [] => "{}"
  | PDict d =>
      "{" ++ nl
      ++ String.concat ("," ++ nl)
           (map (fun kv => spaces (2 * S depth) ++ q (fst kv) ++ ": "
                           ++ dumps (S depth) (snd kv)) d)
      ++ nl ++ spaces (2 * depth) ++ "}"
  end.

Definition tokens (prompt completion : Z) : pyval :=
  PDict [("prompt", PInt prompt); ("completion", PInt completion)].

(** A stats reply whose total disagrees with its two counts. *)
Definition stats_text : string :=
  "{" ++ q "input_tokens" ++ ": 10, " ++ q "output_tokens" ++ ": 5, "
      ++ q "total_tokens" ++ ": 99, "
      ++ q "session_start" ++ ": " ++ q "2026-11-04T09:00:00" ++ "}".

Definition stats_value : pyval :=
  PDict [("input_tokens", PInt 10); ("output_tokens", PInt 5);
         ("total_tokens", PInt 99);
         ("session_start", PStr "2026-11-04T09:00:00")].

(** A log listing whose first entry carries a numeric timestamp. *)
Definition epoch_logs_text : string :=
  "[{" ++ q "timestamp" ++ ": 1700000000, " ++ q "tokens" ++ ": {"
       ++ q "prompt" ++ ": 5, " ++ q "completion" ++ ": 7}}, {"
       ++ q "timestamp" ++ ": " ++ q "2026-11-04T10:00:00Z" ++ ", " ++ q "tokens" ++ ": {"
       ++ q "prompt" ++ ": 3, " ++ q "completion" ++ ": 4}}]".

Definition epoch_logs_value : pyval :=
  PList [PDict [("timestamp", PInt 1700000000); ("tokens", tokens 5 7)];
         PDict [("timestamp", PStr "2026-11-04T10:00:00Z"); ("tokens", tokens 3 4)]].

(** A log listing with one entry inside today's window, one before it
    and one that does not parse. *)
Definition day_logs_text : string :=
  "[{" ++ q "timestamp" ++ ": " ++ q "2026-11-04T10:00:00Z" ++ ", " ++ q "tokens" ++ ": {"
       ++ q "prompt" ++ ": 3, " ++ q "completion" ++ ": 4}}, {"
       ++ q "timestamp" ++ ": " ++ q "2026-11-03T23:00:00Z" ++ ", " ++ q "tokens" ++ ": {"
       ++ q "prompt" ++ ": 100, " ++ q "completion" ++ ": 200}}, {"
       ++ q "timestamp" ++ ": " ++ q "yesterday" ++ ", " ++ q "tokens" ++ ": {"
       ++ q "prompt" ++ ": 1000, " ++ q "completion" ++ ": 2000}}]".

Definition day_logs_value : pyval :=
  PList [PDict [("timestamp", PStr "2026-11-04T10:00:00Z"); ("tokens", tokens 3 4)];
         PDict [("timestamp", PStr "2026-11-03T23:00:00Z"); ("tokens", tokens 100 200)];
         PDict [("timestamp", PStr "yesterday"); ("tokens", tokens 1000 2000)]].

Definition config_text : string := "{" ++ q "api_key" ++ ": " ++ q "secret" ++ "}".

Definition config_value : pyval := PDict [("api_key", PStr "secret")].

(** The JSON texts used below, with the values [json.loads] gives them. *)
Definition replies : list (string * pyval) :=
  [(stats_text, stats_value);
   (epoch_logs_text, epoch_logs_value);
   (day_logs_text, day_logs_value);
   (config_text, config_value)].

Fixpoint lookup_reply (table : list (string * pyval)) (text : string) : option pyval :=
  match table with
  | [] => None
  | (t, v) :: rest => if (t =? text)%string then Some v else lookup_reply rest text
  end.

Definition sample_json_loads (text : string) : option pyval :=
  lookup_reply replies text.

#[global] Instance sample_lib : PyLib := {
  json_loads := sample_json_loads;
  json_dumps_indent2 := dumps 0;
  fromisoformat := sample_fromisoformat;
  isoformat := sample_isoformat;
  strftime_date := iso_date;
  strftime_seconds := fun d => iso_date d ++ " " ++ iso_clock d;
  format_grouped := sample_format_grouped;
  format_2f := sample_format_2f;
  str_of_timedelta := sample_str_of_timedelta;
  expanduser := sample_expanduser;
  str_strip := sample_strip;
  str_capitalize := sample_capitalize
}.

(** *** Worlds *)

(** Noon on 2026-11-04 (a Wednesday); the clock advances one second per
    observation. *)
Definition noon : Z := dt_us (at_time 2026 11 4 12 0 0).

Definition clock (n : nat) : Z := noon + Z.of_nat n * 1000000.

Definition subcommand (command : list string) : string := nth 1 command "".

Definition exit_1 : proc_result := Completed 1 "" "claude: not logged in".

(** The tool is installed but every call exits with status 1. *)
Definition env_failing : env := {|
  env_now := clock;
  env_run := fun _ _ => exit_1;
  env_exists := fun _ _ => false;
  env_read := fun _ _ => Raise FileNotFoundError
|}.

(** The tool is not installed. *)
Definition env_not_installed : env := {|
  env_now := clock;
  env_run := fun _ _ => RunRaised FileNotFoundError;
  env_exists := fun _ _ => false;
  env_read := fun _ _ => Raise FileNotFoundError
|}.

(** [claude stats] answers [stats_text]; [claude logs] fails. *)
Definition env_stats_reply : env := {|
  env_now := clock;
  env_run := fun _ command =>
    if (subcommand command =? "stats")%string then Completed 0 stats_text "" else exit_1;
  env_exists := fun _ _ => false;
  env_read := fun _ _ => Raise FileNotFoundError
|}.

(** [claude stats] fails; [claude logs] answers [text]. *)
Definition env_logs_reply (text : string) : env := {|
  env_now := clock;
  env_run := fun _ command =>
    if (subcommand command =? "logs")%string then Completed 0 text "" else exit_1;
  env_exists := fun _ _ => false;
  env_read := fun _ _ => Raise FileNotFoundError
|}.

(** Every stats and logs call fails; [~/.claude/config.json] holds
    [config_text] and [claude --version] answers. *)
Definition env_with_config : env := {|
  env_now := clock;
  env_run := fun _ command =>
    if (subcommand command =? "--version")%string
    then Completed 0 ("1.0.0" ++ nl) "" else exit_1;
  env_exists := fun _ path => (path =? "/home/user/.claude/config.json")%string;
  env_read := fun _ path =>
    if (path =? "/home/user/.claude/config.json")%string then Ok config_text
    else Raise FileNotFoundError
|}.

End Sample.

(* ================================================================== *)
(** ** Vocabulary of the properties *)
(* ================================================================== *)

(** The state after one observation of the world. *)
Definition next (s : state) : state := mkstate (S (tick s)) (printed s).

(** A float that is not negative-signed (NaN has no sign). *)
Definition nonneg_float (f : float) : Prop :=
  match f with
  | S754_zero s | S754_infinity s | S754_finite s _ _ => s = false
  | S754_nan => True
  end.

(** [stats.get(k, 0)] on a dict. *)
Definition get0 (d : dict) (k : string) : pyval :=
  match dict_get d k with Some v => v | None => PInt 0 end.

(** The invariant of a stats mapping: [total_tokens] is present and is
    the Python sum of the two counts. *)
Definition total_is_sum (stats : pyval) : Prop :=
  exists d total,
    stats = PDict d
    /\ dict_get d "total_tokens" = Some total
    /\ py_add (get0 d "input_tokens") (get0 d "output_tokens") = Ok total.

(** Two different fields of the mapping hold text. *)
Definition has_timestamp_pair (stats : pyval) : Prop :=
  exists d k1 k2 t1 t2,
    stats = PDict d /\ k1 <> k2
    /\ dict_get d k1 = Some (PStr t1)
    /\ dict_get d k2 = Some (PStr t2).

(** The zero-valued stats of the two fetchers. *)
Definition zero_period_stats {lib : PyLib} (period : string)
    (start_time end_time : datetime) : pyval :=
  PDict [("period", PStr period);
         ("input_tokens", PInt 0);
         ("output_tokens", PInt 0);
         ("total_tokens", PInt 0);
         ("cost", PFloat float_zero);
         ("start_time", PStr (isoformat start_time));
         ("end_time", PStr (isoformat end_time))].

Definition zero_session_stats {lib : PyLib} (session_start : datetime) : pyval :=
  PDict [("input_tokens", PInt 0);
         ("output_tokens", PInt 0);
         ("total_tokens", PInt 0);
         ("session_start", PStr (isoformat session_start))].

(** A call that gives the fetchers nothing to use: [run_command] returns
    a false flag, or the text it returns is not JSON. *)
Definition reply_unusable {lib : PyLib} (r : proc_result) : Prop :=
  match r with
  | Completed rc out _ => rc <> 0 \/ json_loads out = None
  | RunRaised e => is_CalledProcessError e = true
  end.

(** The timestamp of a log entry as the aggregation reads it:
    [datetime.fromisoformat(timestamp.replace("Z", ""))]. *)
Definition entry_time {lib : PyLib} (timestamp : string) : option datetime :=
  fromisoformat (str_replace_char "Z"%char "" timestamp).

(** [start_time <= t <= end_time], as the two comparisons of the loop
    decide it. *)
Definition in_window (start_time end_time t : datetime) : Prop :=
  datetime_lt t start_time = Ok false /\ datetime_gt t end_time = Ok false.

(** An entry the window filter rejects: its timestamp parses and lies
    strictly before the start or strictly after the end. *)
Definition outside_window {lib : PyLib} (start_time end_time : datetime)
    (entry : pyval) : Prop :=
  exists d text t,
    entry = PDict d
    /\ dict_get d "timestamp" = Some (PStr text)
    /\ entry_time text = Some t
    /\ dt_tz t = None /\ dt_tz start_time = None /\ dt_tz end_time = None
    /\ (dt_us t < dt_us start_time \/ dt_us end_time < dt_us t).

(** An entry with a text timestamp that does not parse. *)
Definition malformed_timestamp {lib : PyLib} (entry : pyval) : Prop :=
  exists d text,
    entry = PDict d
    /\ dict_get d "timestamp" = Some (PStr text)
    /\ entry_time text = None.

(* ================================================================== *)
(** ** Vocabulary of the float properties *)
(* ================================================================== *)

(** The finite float [m * 2^e] of sign [s], or the infinity when the
    exponent is beyond the format. *)
Definition finite_or_infinity (s : bool) (m e : Z) : float :=
  match m with
  | Zpos p => if e <=? emax - prec then S754_finite s p e else S754_infinity s
  | Z0 => S754_zero s
  | Zneg _ => S754_nan
  end.

(** The first stage of [binary_round_aux]: the mantissa shifted to [prec]
    bits and rounded to nearest, ties to even, with its exponent. *)
Definition first_round (m e : Z) (l : location) : Z * Z :=
  let '(mrs, e1) := shr_fexp prec emax m e l in
  (round_nearest_even (shr_m mrs) (loc_of_shr_record mrs), e1).

(** The smallest quotient that rounds to the infinity: half a unit in the
    last place above the largest finite float, [(2^53 - 1/2) * 2^971]. *)
Definition QUOTIENT_LIMIT : Z := 2 ^ 1024 - 2 ^ 970.

(** The smallest magnitude of a count whose quotient by 1000 is beyond
    the floats, about 1.8e311. *)
Definition COUNT_LIMIT : Z := 1000 * QUOTIENT_LIMIT.

(** Python's [a / 1000] on an int when it does not raise: the float
    nearest to the rational a/1000, ties to even. *)
Definition nearest_quotient (a : Z) : float :=
  float_div (exact_of_Z a) (exact_of_Z 1000).

(** The scaling [SFdiv] gives an integer before dividing it by 1000, so
    that the quotient has at least 53 bits. *)
Definition quotient_shift (a : Z) : Z := Z.max (63 - Zdigits2 a) 0.

(** [2^e] as a real number, for any integer [e]. *)
Definition pow2 (e : Z) : R := powerRZ 2 e.

(** The real number a float stands for; 0 for the zeros, and for the
    infinities and NaN, which have none. *)
Definition float_value (f : float) : R :=
  match f with
  | S754_finite s m e => ((if s then -1 else 1) * IZR (Zpos m) * pow2 e)%R
  | _ => 0%R
  end.

(** The real [x] lies in the interval [m * 2^e, (m + 1) * 2^e) at the
    place [l] says: on its lower end, below, at or above its middle. *)
Definition located (m e : Z) (l : location) (x : R) : Prop :=
  match l with
  | loc_Exact => x = (IZR m * pow2 e)%R
  | loc_Inexact Lt => (IZR m * pow2 e < x < (IZR m + / 2) * pow2 e)%R
  | loc_Inexact Eq => x = ((IZR m + / 2) * pow2 e)%R
  | loc_Inexact Gt => ((IZR m + / 2) * pow2 e < x < (IZR m + 1) * pow2 e)%R
  end.

(** Half a unit in the last place of a float, relative to its value:
    2^-53, the unit roundoff of binary64. *)
Definition unit_roundoff : R := pow2 (-53).

(** [f] is a positive float with a mantissa of 53 bits and stands for the
    real [v]. *)
Definition normal_float (f : float) (v : R) : Prop :=
  exists p e,
    f = S754_finite false p e
    /\ 2 ^ 52 <= Zpos p < 2 ^ 53
    /\ v = (IZR (Zpos p) * pow2 e)%R.

(** [f] is [+0.0] or a positive normal float, and stands for [v]. *)
Definition nonneg_normal (f : float) (v : R) : Prop :=
  (f = S754_zero false /\ v = 0%R) \/ normal_float f v.

(** [v] is [x] up to a relative error of [k] unit roundoffs. *)
Definition close (k : R) (v x : R) : Prop :=
  (Rabs (v - x) <= k * unit_roundoff * x)%R.

(** The cost of the specification in exact arithmetic:
    (a/1000) x 0.03 + (b/1000) x 0.15. *)
Definition ideal_cost (a b : Z) : R :=
  (IZR a / 1000 * (3 / 100) + IZR b / 1000 * (15 / 100))%R.

(** The cost formula of the specification in binary64 arithmetic, the
    division of a count by 1000 being Python's: the float nearest to
    the exact quotient. *)
Definition cost_in_floats (input_tokens output_tokens : Z) : float :=
  float_add
    (float_mul (nearest_quotient input_tokens) COST_PER_1K_INPUT_TOKENS)
    (float_mul (nearest_quotient output_tokens) COST_PER_1K_OUTPUT_TOKENS).

(** Neither an infinity nor NaN. *)
Definition float_is_finite (f : float) : bool :=
  match f with
  | S754_zero _ | S754_finite _ _ _ => true
  | S754_infinity _ | S754_nan => false
  end.

(* ================================================================== *)
(** ** Vocabulary of the further properties *)
(* ================================================================== *)

(** The invariant of a period mapping: [cost] is present and is
    [calculate_cost] of the two counts. *)
Definition cost_is_computed (stats : pyval) : Prop :=
  exists d cost,
    stats = PDict d
    /\ dict_get d "cost" = Some (PFloat cost)
    /\ calculate_cost (get0 d "input_tokens") (get0 d "output_tokens") = Ok cost.

(** The label [main] gives to the custom window. *)
Definition days_label (days : Z) : string := "last " ++ str_of_int days ++ " days".

(** A log entry of the documented shape: a text timestamp and integer
    prompt and completion counts. *)
Record log_record : Type := mklog {
  log_text : string;
  log_prompt : Z;
  log_completion : Z
}.

Definition log_entry (r : log_record) : pyval :=
  PDict [("timestamp", PStr (log_text r));
         ("tokens", PDict [("prompt", PInt (log_prompt r));
                           ("completion", PInt (log_completion r))])].

(** The entry is counted by the period loop: its timestamp is not empty,
    parses, and both comparisons answer False. *)
Definition counted {lib : PyLib} (start_time end_time : datetime) (r : log_record) : bool :=
  negb (log_text r =? "")%string
  && match entry_time (log_text r) with
     | Some t =>
         match datetime_lt t start_time, datetime_gt t end_time with
         | Ok false, Ok false => true
         | _, _ => false
         end
     | None => false
     end.

Definition Zsum (l : list Z) : Z := fold_right Z.add 0 l.

(** The timestamp of an entry as the session loop tracks it, when it is
    a naive datetime. *)
Definition naive_time {lib : PyLib} (r : log_record) (us : Z) : Prop :=
  log_text r <> "" /\ entry_time (log_text r) = Some (mkdatetime us None).

(** The earliest and the latest of a list of naive times. *)
Definition earliest (times : list Z) : option datetime :=
  match times with
  | [] => None
  | t :: rest => Some (mkdatetime (fold_left Z.min rest t) None)
  end.

Definition latest (times : list Z) : option datetime :=
  match times with
  | [] => None
  | t :: rest => Some (mkdatetime (fold_left Z.max rest t) None)
  end.


(** *** Further concrete worlds *)

Module More.

Definition nested_config_text : string :=
  "{" ++ Sample.q "auth" ++ ": {" ++ Sample.q "api_key" ++ ": "
      ++ Sample.q "secret" ++ "}}".

Definition nested_config_value : pyval :=
  PDict [("auth", PDict [("api_key", PStr "secret")])].

(** A stats reply without [session_start] and with a field of its own. *)
Definition bare_stats_text : string :=
  "{" ++ Sample.q "input_tokens" ++ ": 10, " ++ Sample.q "output_tokens" ++ ": 5, "
      ++ Sample.q "model" ++ ": " ++ Sample.q "opus" ++ "}".

Definition bare_stats_value : pyval :=
  PDict [("input_tokens", PInt 10); ("output_tokens", PInt 5); ("model", PStr "opus")].

(** A stats reply that is valid JSON but not an object. *)
Definition list_text : string := "[]".

(** A stats reply with no counts at all. *)
Definition empty_object_text : string := "{}".

(** A log entry whose completion count is text. *)
Definition mixed_logs_text : string :=
  "[{" ++ Sample.q "timestamp" ++ ": " ++ Sample.q "2026-11-04T10:00:00Z" ++ ", "
       ++ Sample.q "tokens" ++ ": {" ++ Sample.q "prompt" ++ ": 3, "
       ++ Sample.q "completion" ++ ": " ++ Sample.q "many" ++ "}}]".

Definition mixed_logs_value : pyval :=
  PList [PDict [("timestamp", PStr "2026-11-04T10:00:00Z");
                ("tokens", PDict [("prompt", PInt 3); ("completion", PStr "many")])]].

(** A configuration with secrets under other names than a top-level
    [api_key]. *)
Definition secrets_config_text : string :=
  "{" ++ Sample.q "password" ++ ": " ++ Sample.q "hunter2" ++ ", "
      ++ Sample.q "api_secret" ++ ": " ++ Sample.q "s3cr3t" ++ ", "
      ++ Sample.q "API_KEY" ++ ": " ++ Sample.q "k-123" ++ ", "
      ++ Sample.q "auth" ++ ": {" ++ Sample.q "api_key" ++ ": "
      ++ Sample.q "nested" ++ "}}".

Definition secrets_config_value : pyval :=
  PDict [("password", PStr "hunter2");
         ("api_secret", PStr "s3cr3t");
         ("API_KEY", PStr "k-123");
         ("auth", PDict [("api_key", PStr "nested")])].

(** A stats reply whose input count is text. *)
Definition text_count_text : string :=
  "{" ++ Sample.q "input_tokens" ++ ": " ++ Sample.q "many" ++ "}".

Definition text_count_value : pyval := PDict [("input_tokens", PStr "many")].

(** A logs reply that is an object, not a list. *)
Definition object_logs_text : string :=
  "{" ++ Sample.q "entries" ++ ": []}".

Definition object_logs_value : pyval := PDict [("entries", PList [])].

Definition replies : list (string * pyval) :=
  [(secrets_config_text, secrets_config_value);
   (object_logs_text, object_logs_value);
   (text_count_text, text_count_value);
   (nested_config_text, nested_config_value);
   (bare_stats_text, bare_stats_value);
   (list_text, PList []);
   (empty_object_text, PDict []);
   (mixed_logs_text, mixed_logs_value)]
  ++ Sample.replies.

(** The library of [Sample] with the larger table of JSON texts. *)
Definition more_lib : PyLib := {|
  json_loads := Sample.lookup_reply replies;
  json_dumps_indent2 := Sample.dumps 0;
  fromisoformat := Sample.sample_fromisoformat;
  isoformat := Sample.sample_isoformat;
  strftime_date := Sample.iso_date;
  strftime_seconds := fun d => Sample.iso_date d ++ " " ++ Sample.iso_clock d;
  format_grouped := Sample.sample_format_grouped;
  format_2f := Sample.sample_format_2f;
  str_of_timedelta := Sample.sample_str_of_timedelta;
  expanduser := Sample.sample_expanduser;
  str_strip := Sample.sample_strip;
  str_capitalize := Sample.sample_capitalize
|}.

(** Reads, besides the layouts of [Sample], a timestamp that ends with
    the offset +00:00, as an aware datetime. *)
Definition offset_fromisoformat (s : string) : option datetime :=
  if (substring 19 6 s =? "+00:00")%string then
    match Sample.sample_fromisoformat (substring 0 19 s) with
    | Some d => Some (mkdatetime (dt_us d) (Some 0))
    | None => None
    end
  else Sample.sample_fromisoformat s.

Definition offset_lib : PyLib := {|
  json_loads := Sample.lookup_reply replies;
  json_dumps_indent2 := Sample.dumps 0;
  fromisoformat := offset_fromisoformat;
  isoformat := Sample.sample_isoformat;
  strftime_date := Sample.iso_date;
  strftime_seconds := fun d => Sample.iso_date d ++ " " ++ Sample.iso_clock d;
  format_grouped := Sample.sample_format_grouped;
  format_2f := Sample.sample_format_2f;
  str_of_timedelta := Sample.sample_str_of_timedelta;
  expanduser := Sample.sample_expanduser;
  str_strip := Sample.sample_strip;
  str_capitalize := Sample.sample_capitalize
|}.

(** Every command exits with status 0 and prints [text]. *)
Definition env_always (text : string) : env := {|
  env_now := Sample.clock;
  env_run := fun _ _ => Completed 0 text "";
  env_exists := fun _ _ => false;
  env_read := fun _ _ => Raise FileNotFoundError
|}.


(** Both configuration files exist; the first cannot be decoded, the
    second holds [text]. *)
Definition env_two_configs (text : string) : env := {|
  env_now := Sample.clock;
  env_run := fun _ _ => Sample.exit_1;
  env_exists := fun _ _ => true;
  env_read := fun _ path =>
    if (path =? "/home/user/.config/claude/config.json")%string then Ok "not json"
    else Ok text
|}.

(** Only the first configuration file exists and holds [text]. *)
Definition env_first_config (text : string) : env := {|
  env_now := Sample.clock;
  env_run := fun _ _ => Sample.exit_1;
  env_exists := fun _ path => (path =? "/home/user/.config/claude/config.json")%string;
  env_read := fun _ _ => Ok text
|}.

End More.

(* ================================================================== *)
(** * Properties *)
(* ================================================================== *)

(** ** Floats: signs *)

Lemma binary_round_aux_sign (sx : bool) (mx ex : Z) (lx : location) :
  match binary_round_aux prec emax sx mx ex lx with
  | S754_zero s | S754_infinity s | S754_finite s _ _ => s = sx
  | S754_nan => True
  end.
Proof.
  unfold binary_round_aux.
  destruct (shr_fexp prec emax mx ex lx) as [mrs' e'].
  destruct (shr_fexp prec emax _ e' loc_Exact) as [mrs'' e''].
  destruct (shr_m mrs'') as [|m|m]; [reflexivity| |exact I].
  destruct (e'' <=? emax - prec); reflexivity.
Qed.

Lemma binary_round_aux_nonneg (mx ex : Z) (lx : location) :
  nonneg_float (binary_round_aux prec emax false mx ex lx).
Proof.
  pose proof (binary_round_aux_sign false mx ex lx) as H.
  unfold nonneg_float.
  destruct (binary_round_aux prec emax false mx ex lx); auto.
Qed.

Lemma binary_round_nonneg (m : positive) (e : Z) :
  nonneg_float (binary_round prec emax false m e).
Proof.
  unfold binary_round.
  destruct (shl_align m e _) as [mz ez].
  apply binary_round_aux_nonneg.
Qed.

Lemma float_of_Z_nonneg (z : Z) : 0 <= z -> nonneg_float (float_of_Z z).
Proof.
  intros Hz. unfold float_of_Z, binary_normalize.
  destruct z as [|p|p]; [reflexivity | apply binary_round_nonneg | lia].
Qed.

Lemma exact_of_Z_nonneg (z : Z) : 0 <= z -> nonneg_float (exact_of_Z z).
Proof. intros Hz. destruct z; simpl; auto; lia. Qed.

Lemma float_div_nonneg (x y : float) :
  nonneg_float x -> nonneg_float y -> nonneg_float (float_div x y).
Proof.
  unfold float_div, SFdiv.
  destruct x as [sx|sx| |sx mx ex], y as [sy|sy| |sy my ey]; simpl;
    intros Hx Hy; subst; simpl; auto.
  destruct (SFdiv_core_binary prec emax (Z.pos mx) ex (Z.pos my) ey) as [[mz ez] lz].
  apply binary_round_aux_nonneg.
Qed.

Lemma float_mul_nonneg (x y : float) :
  nonneg_float x -> nonneg_float y -> nonneg_float (float_mul x y).
Proof.
  unfold float_mul, SFmul.
  destruct x as [sx|sx| |sx mx ex], y as [sy|sy| |sy my ey]; simpl;
    intros Hx Hy; subst; simpl; auto.
  apply binary_round_aux_nonneg.
Qed.

Lemma float_add_nonneg (x y : float) :
  nonneg_float x -> nonneg_float y -> nonneg_float (float_add x y).
Proof.
  unfold float_add, SFadd.
  destruct x as [sx|sx| |sx mx ex], y as [sy|sy| |sy my ey]; simpl;
    intros Hx Hy; subst; simpl; auto.
  apply binary_round_nonneg.
Qed.

(** Adding [+0.0] changes nothing but the sign of [-0.0]. *)
Lemma float_add_zero_r (x : float) :
  nonneg_float x -> float_add x float_zero = x.
Proof. destruct x as [s|s| |s m e]; simpl; intros H; subst; reflexivity. Qed.

Lemma float_add_zero_l (x : float) :
  nonneg_float x -> float_add float_zero x = x.
Proof. destruct x as [s|s| |s m e]; simpl; intros H; subst; reflexivity. Qed.

Lemma float_1000_nonneg : nonneg_float (float_of_Z 1000).
Proof. apply float_of_Z_nonneg. lia. Qed.

Lemma rates_nonneg :
  nonneg_float COST_PER_1K_INPUT_TOKENS /\ nonneg_float COST_PER_1K_OUTPUT_TOKENS.
Proof. split; vm_compute; reflexivity. Qed.

Lemma int_truediv_1000_nonneg (a : Z) (q : float) :
  0 <= a -> int_truediv a 1000 = Ok q -> nonneg_float q.
Proof.
  intros Ha. unfold int_truediv.
  change (1000 =? 0) with false. cbv iota.
  destruct ((Z.abs a <? 2 ^ 53) && (Z.abs 1000 <? 2 ^ 53)).
  - intros [= <-]. apply float_div_nonneg;
      [apply float_of_Z_nonneg; lia | apply float_1000_nonneg].
  - destruct (is_infinite _); [discriminate|].
    intros [= <-]. apply float_div_nonneg;
      [apply exact_of_Z_nonneg; lia | reflexivity].
Qed.

Lemma calculate_cost_nonneg (a b : Z) (x : float) :
  0 <= a -> 0 <= b -> calculate_cost (PInt a) (PInt b) = Ok x -> nonneg_float x.
Proof.
  intros Ha Hb. unfold calculate_cost. cbn [py_div_1000 bind Monad_outcome outcome_bind].
  destruct (int_truediv a 1000) as [qa|e] eqn:Hqa; [|discriminate].
  destruct (int_truediv b 1000) as [qb|e] eqn:Hqb; [|discriminate].
  intros [= <-].
  apply float_add_nonneg; apply float_mul_nonneg;
    eauto using int_truediv_1000_nonneg; apply rates_nonneg.
Qed.

(** ** calculate_cost *)

Lemma int_truediv_small (a : Z) :
  Z.abs a < 2 ^ 53 ->
  int_truediv a 1000 = Ok (float_div (float_of_Z a) (float_of_Z 1000)).
Proof.
  intros Ha. unfold int_truediv.
  change (1000 =? 0) with false. cbv iota.
  replace (Z.abs a <? 2 ^ 53) with true by (symmetry; apply Z.ltb_lt; exact Ha).
  reflexivity.
Qed.

Lemma int_truediv_1000_cases (a : Z) :
  (exists q, int_truediv a 1000 = Ok q) \/ int_truediv a 1000 = Raise OverflowError.
Proof.
  unfold int_truediv. change (1000 =? 0) with false. cbv iota.
  destruct (_ && _); [eauto|].
  destruct (is_infinite _); eauto.
Qed.

(** ** Floats: digits and shifts *)

Lemma Zdigits2_log2 (p : positive) : Zdigits2 (Zpos p) = Z.log2 (Zpos p) + 1.
Proof.
  cbn [Zdigits2].
  assert (H : forall q, Zpos (digits2_pos q) = Zpos (Pos.size q)).
  { induction q as [q IH|q IH|]; cbn [digits2_pos Pos.size]; [| |reflexivity];
      rewrite !Pos2Z.inj_succ, IH; reflexivity. }
  rewrite H. destruct p; cbn [Z.log2 Pos.size]; rewrite ?Pos2Z.inj_succ; lia.
Qed.

Lemma Zdigits2_bounds (m : Z) :
  0 < m -> 2 ^ (Zdigits2 m - 1) <= m < 2 ^ Zdigits2 m.
Proof.
  intros Hm. destruct m as [|p|p]; try lia.
  rewrite Zdigits2_log2.
  pose proof (Z.log2_spec (Zpos p) Hm) as H.
  replace (Z.log2 (Z.pos p) + 1 - 1) with (Z.log2 (Z.pos p)) by lia.
  replace (Z.log2 (Z.pos p) + 1) with (Z.succ (Z.log2 (Z.pos p))) by lia.
  exact H.
Qed.

Lemma Zdigits2_pos (m : Z) : 0 < m -> 0 < Zdigits2 m.
Proof. destruct m; cbn; lia. Qed.

(** [Zdigits2 m] is the only [d] with [2^(d-1) <= m < 2^d]. *)
Lemma Zdigits2_unique (m d : Z) :
  2 ^ (d - 1) <= m < 2 ^ d -> 0 < m -> Zdigits2 m = d.
Proof.
  intros H Hm. destruct m as [|p|p]; try lia.
  rewrite Zdigits2_log2.
  assert (Hd : 0 < d).
  { destruct (Z.ltb_spec 0 d) as [|Hd]; [assumption|].
    rewrite (Z.pow_neg_r 2 (d - 1)) in H by lia.
    destruct (Z.eq_dec d 0) as [->|]; [cbn in H; lia|].
    rewrite Z.pow_neg_r in H by lia. lia. }
  assert (Z.log2 (Z.pos p) = d - 1); [|lia].
  apply Z.log2_unique; [lia|]. replace (Z.succ (d - 1)) with d by lia. exact H.
Qed.

Lemma iter_pos_nat {A} (f : A -> A) (p : positive) (x : A) :
  SpecFloat.iter_pos f p x = Nat.iter (Pos.to_nat p) f x.
Proof.
  revert x. induction p as [p IH|p IH|]; intros x; cbn [SpecFloat.iter_pos].
  - rewrite !IH, Pos2Nat.inj_xI. cbn [Nat.mul].
    rewrite Nat.add_0_r, <- Nat.iter_add, <- Nat.iter_succ_r. reflexivity.
  - rewrite !IH, Pos2Nat.inj_xO. cbn [Nat.mul].
    rewrite Nat.add_0_r, <- Nat.iter_add. reflexivity.
  - reflexivity.
Qed.

Lemma shr_1_m (mrs : shr_record) :
  0 <= shr_m mrs -> shr_m (shr_1 mrs) = shr_m mrs / 2.
Proof.
  destruct mrs as [m r s]. cbn [shr_m]. intros Hm.
  destruct m as [|[p|p|]|p]; cbn [shr_1 shr_m]; try lia.
  - reflexivity.
  - apply Z.div_unique with 1; lia.
  - apply Z.div_unique with 0; lia.
  - reflexivity.
Qed.

Lemma shr_1_r (mrs : shr_record) :
  0 <= shr_m mrs -> shr_r (shr_1 mrs) = Z.odd (shr_m mrs).
Proof.
  destruct mrs as [m r s]. cbn [shr_m]. intros Hm.
  destruct m as [|[p|p|]|p]; cbn [shr_1 shr_r]; try reflexivity; lia.
Qed.

Lemma shr_iter_m (n : nat) (mrs : shr_record) :
  0 <= shr_m mrs ->
  shr_m (Nat.iter n shr_1 mrs) = shr_m mrs / 2 ^ Z.of_nat n.
Proof.
  intros Hm. induction n as [|n IH].
  - cbn. rewrite Z.div_1_r. reflexivity.
  - rewrite Nat.iter_succ, shr_1_m.
    + rewrite IH, Nat2Z.inj_succ, Z.pow_succ_r by lia.
      rewrite Z.div_div by lia. f_equal. lia.
    + rewrite IH. apply Z.div_pos; lia.
Qed.

Lemma shr_iter_r (n : nat) (mrs : shr_record) :
  0 <= shr_m mrs ->
  shr_r (Nat.iter (S n) shr_1 mrs) = Z.odd (shr_m mrs / 2 ^ Z.of_nat n).
Proof.
  intros Hm. rewrite Nat.iter_succ, shr_1_r.
  - rewrite shr_iter_m by exact Hm. reflexivity.
  - rewrite shr_iter_m by exact Hm. apply Z.div_pos; lia.
Qed.

(** ** Floats: the two stages of rounding *)

Lemma fexp_normal (x : Z) : emin prec emax <= x - prec -> fexp prec emax x = x - prec.
Proof. unfold fexp. lia. Qed.

Lemma emin_value : emin prec emax = -1074.
Proof. reflexivity. Qed.

Lemma pow2_52_53 : 2 ^ 52 = 4503599627370496 /\ 2 ^ 53 = 9007199254740992.
Proof. split; reflexivity. Qed.

(** The second stage of [binary_round_aux] on a mantissa of [prec] bits,
    or on [2^prec] after a carry. *)
Lemma second_round (s : bool) (m2 e1 : Z) :
  2 ^ 52 <= m2 <= 2 ^ 53 -> -1074 <= e1 ->
  (let '(mrs, e2) := shr_fexp prec emax m2 e1 loc_Exact in
   match shr_m mrs with
   | Z0 => S754_zero s
   | Zpos m => if e2 <=? emax - prec then S754_finite s m e2 else S754_infinity s
   | Zneg _ => S754_nan
   end)
  = if m2 =? 2 ^ 53 then finite_or_infinity s (2 ^ 52) (e1 + 1)
    else finite_or_infinity s m2 e1.
Proof.
  intros Hm He.
  destruct (Z.eqb_spec m2 (2 ^ 53)) as [->|Hne].
  - unfold shr_fexp.
    replace (Zdigits2 (2 ^ 53)) with 54 by reflexivity.
    rewrite fexp_normal by (rewrite emin_value; unfold prec; lia).
    replace (54 + e1 - prec - e1) with 1 by (unfold prec; lia).
    reflexivity.
  - unfold shr_fexp.
    rewrite (Zdigits2_unique m2 53) by (change (53 - 1) with 52; lia).
    rewrite fexp_normal by (rewrite emin_value; unfold prec; lia).
    replace (53 + e1 - prec - e1) with 0 by (unfold prec; lia).
    cbn [shr shr_record_of_loc shr_m].
    destruct m2 as [|p|p]; try (rewrite (proj1 pow2_52_53) in Hm; lia).
    reflexivity.
Qed.

Lemma binary_round_aux_stages (s : bool) (m e : Z) (l : location) :
  binary_round_aux prec emax s m e l
  = let '(m2, e1) := first_round m e l in
    let '(mrs, e2) := shr_fexp prec emax m2 e1 loc_Exact in
    match shr_m mrs with
    | Z0 => S754_zero s
    | Zpos m => if e2 <=? emax - prec then S754_finite s m e2 else S754_infinity s
    | Zneg _ => S754_nan
    end.
Proof.
  unfold binary_round_aux, first_round.
  destruct (shr_fexp prec emax m e l) as [mrs e1]. reflexivity.
Qed.

Lemma round_nearest_even_bounds (m : Z) (l : location) :
  m <= round_nearest_even m l <= m + 1.
Proof.
  destruct l as [|[| |]]; cbn [round_nearest_even]; try lia.
  destruct (Z.even m); lia.
Qed.

Lemma loc_of_shr_record_of_loc (m : Z) (l : location) :
  loc_of_shr_record (shr_record_of_loc m l) = l.
Proof. destruct l as [|[| |]]; reflexivity. Qed.

Lemma shr_m_record_of_loc (m : Z) (l : location) :
  shr_m (shr_record_of_loc m l) = m.
Proof. destruct l as [|[| |]]; reflexivity. Qed.

(** The first stage on a mantissa of at least [prec] bits, away from the
    subnormal range. *)
Lemma first_round_spec (m e : Z) (l : location) :
  let d := Zdigits2 m in
  let m1 := m / 2 ^ (d - 53) in
  0 < m -> 53 <= d -> -1074 <= d + e - 53 ->
  exists m2,
    first_round m e l = (m2, e + (d - 53))
    /\ m1 <= m2 <= m1 + 1
    /\ 2 ^ 52 <= m1 < 2 ^ 53
    /\ (53 < d -> Z.odd (m / 2 ^ (d - 54)) = false -> m2 = m1)
    /\ (53 < d -> Z.odd (m / 2 ^ (d - 54)) = true -> Z.odd m1 = true -> m2 = m1 + 1).
Proof.
  intros d m1 Hm Hd He.
  pose proof (Zdigits2_bounds m Hm) as Hb. fold d in Hb.
  assert (Hm1 : 2 ^ 52 <= m1 < 2 ^ 53).
  { unfold m1.
    assert (Hp : 0 < 2 ^ (d - 53)) by (apply Z.pow_pos_nonneg; lia).
    replace (2 ^ (d - 1)) with (2 ^ 52 * 2 ^ (d - 53)) in Hb
      by (rewrite <- Z.pow_add_r by lia; f_equal; lia).
    replace (2 ^ d) with (2 ^ 53 * 2 ^ (d - 53)) in Hb
      by (rewrite <- Z.pow_add_r by lia; f_equal; lia).
    split.
    - apply Z.div_le_lower_bound; lia.
    - apply Z.div_lt_upper_bound; lia. }
  unfold first_round, shr_fexp. fold d.
  rewrite fexp_normal by (rewrite emin_value; unfold prec; lia).
  replace (d + e - prec - e) with (d - 53) by (unfold prec; lia).
  destruct (Z.eq_dec d 53) as [Hd53|Hd53].
  - assert (Hn : d - 53 = 0) by lia. rewrite Hn. cbn [shr].
    rewrite shr_m_record_of_loc, loc_of_shr_record_of_loc.
    exists (round_nearest_even m l).
    assert (Hm1' : m1 = m).
    { unfold m1. rewrite Hn. apply Z.div_1_r. }
    rewrite Hm1' in *. rewrite Z.add_0_r.
    split; [reflexivity|]. split; [apply round_nearest_even_bounds|].
    split; [exact Hm1|]. split; intros; lia.
  - destruct (d - 53) as [|n|n] eqn:Hn; try lia.
    cbn [shr]. rewrite iter_pos_nat.
    set (rec := Nat.iter (Pos.to_nat n) shr_1 (shr_record_of_loc m l)).
    assert (Hrm : shr_m rec = m1).
    { unfold rec. rewrite shr_iter_m by (rewrite shr_m_record_of_loc; lia).
      rewrite shr_m_record_of_loc, positive_nat_Z. reflexivity. }
    assert (Hrr : shr_r rec = Z.odd (m / 2 ^ (d - 54))).
    { unfold rec.
      destruct (Pos.to_nat n) as [|k] eqn:Hk; [pose proof (Pos2Nat.is_pos n); lia|].
      rewrite shr_iter_r by (rewrite shr_m_record_of_loc; lia).
      rewrite shr_m_record_of_loc. do 3 f_equal.
      assert (Z.of_nat (S k) = Z.pos n) by (rewrite <- Hk; apply positive_nat_Z).
      lia. }
    exists (round_nearest_even (shr_m rec) (loc_of_shr_record rec)).
    split; [reflexivity|]. rewrite Hrm.
    split; [apply round_nearest_even_bounds|].
    split; [exact Hm1|].
    destruct rec as [rm rr rs]. cbn [shr_m shr_r] in Hrm, Hrr. subst rm.
    split.
    + intros _ Hodd. rewrite Hodd in Hrr. subst rr.
      destruct rs; reflexivity.
    + intros _ Hodd Hodd1. rewrite Hodd in Hrr. subst rr.
      destruct rs; cbn [loc_of_shr_record round_nearest_even]; [reflexivity|].
      rewrite <- Z.negb_odd, Hodd1. reflexivity.
Qed.

(** [binary_round_aux] on a mantissa of at least [prec] bits, away from
    the subnormal range: round to [prec] bits, renormalise after a
    carry, and overflow past the largest exponent. *)
Lemma binary_round_aux_normal (s : bool) (m e : Z) (l : location) :
  let d := Zdigits2 m in
  0 < m -> 53 <= d -> -1074 <= d + e - 53 ->
  exists m2,
    first_round m e l = (m2, e + (d - 53))
    /\ binary_round_aux prec emax s m e l
       = if m2 =? 2 ^ 53 then finite_or_infinity s (2 ^ 52) (e + (d - 53) + 1)
         else finite_or_infinity s m2 (e + (d - 53)).
Proof.
  intros d Hm Hd He.
  destruct (first_round_spec m e l Hm Hd He) as (m2 & Hfirst & Hm2 & Hm1 & _).
  exists m2. split; [exact Hfirst|].
  rewrite binary_round_aux_stages. fold d in Hfirst. rewrite Hfirst.
  apply second_round; lia.
Qed.

(** ** Floats: overflow of the rounding of an integer *)

Lemma is_infinite_finite_or_infinity (s : bool) (m e : Z) :
  0 < m -> is_infinite (finite_or_infinity s m e) = (971 <? e).
Proof.
  intros Hm. destruct m as [|p|p]; try lia. cbn [finite_or_infinity].
  change (emax - prec) with 971.
  destruct (Z.leb_spec e 971), (Z.ltb_spec 971 e); try lia; reflexivity.
Qed.

(** Overflow of the rounding of an integer of at least 53 bits: exactly
    from [QUOTIENT_LIMIT] on. *)
Lemma round_integer_overflow (s : bool) (q : Z) (l : location) :
  2 ^ 52 <= q ->
  is_infinite (binary_round_aux prec emax s q 0 l) = (QUOTIENT_LIMIT <=? q).
Proof.
  intros Hq.
  assert (Hpos : 0 < q) by lia.
  pose proof (Zdigits2_bounds q Hpos) as Hb.
  set (d := Zdigits2 q) in *.
  assert (Hd : 53 <= d).
  { destruct (Z.le_gt_cases 53 d) as [|Hlt]; [assumption|].
    assert (2 ^ d <= 2 ^ 52) by (apply Z.pow_le_mono_r; lia). lia. }
  destruct (first_round_spec q 0 l Hpos Hd ltac:(fold d; lia))
    as (m2 & Hfirst & Hm2 & Hm1 & Hdown & Hup).
  fold d in Hfirst, Hm2, Hm1, Hdown, Hup.
  rewrite binary_round_aux_stages, Hfirst, second_round by lia.
  clearbody d.
  remember (q / 2 ^ (d - 53)) as m1 eqn:Em1.
  remember (2 ^ 970) as P eqn:HP.
  assert (HPpos : 0 < P) by (subst P; reflexivity).
  assert (H1024 : 2 ^ 1024 = 18014398509481984 * P) by (subst P; reflexivity).
  assert (H1023 : 2 ^ 1023 = 9007199254740992 * P) by (subst P; reflexivity).
  assert (H971 : 2 ^ 971 = 2 * P) by (subst P; reflexivity).
  unfold QUOTIENT_LIMIT. rewrite <- HP, H1024.
  destruct (Z.lt_trichotomy d 1024) as [Hlow|[Heq|Hhigh]].
  - (* fewer than 1024 bits: no overflow *)
    assert (Hlt : q < 2 ^ 1023).
    { assert (2 ^ d <= 2 ^ 1023) by (apply Z.pow_le_mono_r; lia). lia. }
    rewrite H1023 in Hlt.
    destruct (m2 =? 2 ^ 53); rewrite is_infinite_finite_or_infinity by lia;
      destruct (Z.ltb_spec 971 (0 + (d - 53) + 1)), (Z.ltb_spec 971 (0 + (d - 53)));
      destruct (Z.leb_spec (18014398509481984 * P - P) q); try lia; reflexivity.
  - (* exactly 1024 bits: overflow when the 53 leading bits are ones and
       the next bit is set *)
    subst d.
    change (1024 - 1) with 1023 in Hb. rewrite H1023, H1024 in Hb.
    change (1024 - 53) with 971 in *. change (1024 - 54) with 970 in *.
    rewrite H971 in Em1. rewrite <- HP in Hup, Hdown.
    change (0 + 971 + 1) with 972. change (0 + 971) with 971.
    destruct (Z.leb_spec (18014398509481984 * P - P) q) as [Hge|Hlt].
    + assert (Hbit : q / P = 18014398509481983).
      { apply Z.le_antisymm.
        - assert (q / P < 18014398509481984); [|lia].
          apply Z.div_lt_upper_bound; lia.
        - apply Z.div_le_lower_bound; lia. }
      assert (Hm1v : m1 = 9007199254740991).
      { rewrite Em1. apply Z.le_antisymm.
        - assert (q / (2 * P) < 9007199254740992); [|lia].
          apply Z.div_lt_upper_bound; lia.
        - apply Z.div_le_lower_bound; lia. }
      rewrite (Hup ltac:(lia) ltac:(rewrite Hbit; reflexivity)
                 ltac:(rewrite Hm1v; reflexivity)).
      rewrite Hm1v. reflexivity.
    + assert (Hne : m2 <> 2 ^ 53).
      { destruct (Z.eq_dec m1 9007199254740991) as [Hm1v|Hm1v].
        - assert (Hbit : q / P = 18014398509481982).
          { assert (Hlow : 9007199254740991 * (2 * P) <= q).
            { rewrite <- Hm1v, Em1.
              rewrite Z.mul_comm. apply Z.mul_div_le. lia. }
            apply Z.le_antisymm.
            - assert (q / P < 18014398509481983); [|lia].
              apply Z.div_lt_upper_bound; lia.
            - apply Z.div_le_lower_bound; lia. }
          rewrite (Hdown ltac:(lia) ltac:(rewrite Hbit; reflexivity)).
          rewrite Hm1v. discriminate.
        - rewrite (proj2 pow2_52_53) in *. lia. }
      apply Z.eqb_neq in Hne. rewrite Hne.
      rewrite is_infinite_finite_or_infinity by lia. reflexivity.
  - (* more than 1024 bits: overflow *)
    assert (Hge : 2 ^ 1024 <= q).
    { assert (2 ^ 1024 <= 2 ^ (d - 1)) by (apply Z.pow_le_mono_r; lia). lia. }
    rewrite H1024 in Hge.
    destruct (m2 =? 2 ^ 53); rewrite is_infinite_finite_or_infinity by lia;
      destruct (Z.ltb_spec 971 (0 + (d - 53) + 1)), (Z.ltb_spec 971 (0 + (d - 53)));
      destruct (Z.leb_spec (18014398509481984 * P - P) q); try lia; reflexivity.
Qed.

(** ** Floats: the quotient of an integer by 1000 *)

(** The integer division inside [SFdiv] for an integer over 1000. *)
Lemma div_core_1000 (a : Z) :
  0 < a ->
  let s := quotient_shift a in
  SFdiv_core_binary prec emax a 0 1000 0
  = (a * 2 ^ s / 1000, - s, new_location 1000 ((a * 2 ^ s) mod 1000)).
Proof.
  intros Ha s. unfold SFdiv_core_binary.
  pose proof (Zdigits2_pos a Ha) as Hd.
  change (Zdigits2 1000) with 10.
  rewrite fexp_normal by (rewrite emin_value; unfold prec; lia).
  replace (Z.min (Zdigits2 a + 0 - (10 + 0) - prec) (0 - 0)) with (- s)
    by (unfold s, quotient_shift, prec; lia).
  replace (0 - 0 - - s) with s by lia.
  assert (Hshift : match s with
                   | 0 => a
                   | Z.pos _ => Z.shiftl a s
                   | Z.neg _ => 0
                   end = a * 2 ^ s).
  { assert (Hs : 0 <= s) by (unfold s, quotient_shift; lia).
    destruct s as [|n|n]; [rewrite Z.mul_1_r; reflexivity | | lia].
    apply Z.shiftl_mul_pow2. lia. }
  rewrite Hshift.
  unfold Z.div, Z.modulo.
  destruct (Z.div_eucl (a * 2 ^ s) 1000) as [q r]. reflexivity.
Qed.

Lemma quotient_lower_bound (a : Z) :
  0 < a -> 2 ^ 62 <= a * 2 ^ quotient_shift a.
Proof.
  intros Ha. pose proof (Zdigits2_bounds a Ha) as Hb.
  pose proof (Zdigits2_pos a Ha) as Hd.
  unfold quotient_shift.
  destruct (Z.max_spec (63 - Zdigits2 a) 0) as [[Hlt ->]|[Hge ->]].
  - rewrite Z.mul_1_r.
    assert (2 ^ 62 <= 2 ^ (Zdigits2 a - 1)) by (apply Z.pow_le_mono_r; lia). lia.
  - assert (Heq : 2 ^ 62 = 2 ^ (Zdigits2 a - 1) * 2 ^ (63 - Zdigits2 a)).
    { rewrite <- Z.pow_add_r by lia. f_equal. lia. }
    rewrite Heq. apply Z.mul_le_mono_nonneg_r; [apply Z.pow_nonneg|]; lia.
Qed.

Lemma quotient_has_53_bits (a : Z) :
  0 < a -> 2 ^ 52 <= a * 2 ^ quotient_shift a / 1000.
Proof.
  intros Ha. pose proof (quotient_lower_bound a Ha) as H.
  apply Z.div_le_lower_bound; [lia|].
  change (2 ^ 62) with 4611686018427387904 in H.
  change (2 ^ 52) with 4503599627370496. lia.
Qed.

(** [nearest_quotient] on a non-zero integer is the rounding of the
    scaled integer quotient. *)
Lemma float_div_1000_finite (sg : bool) (p : positive) :
  let s := quotient_shift (Zpos p) in
  float_div (S754_finite sg p 0) (exact_of_Z 1000)
  = binary_round_aux prec emax sg (Zpos p * 2 ^ s / 1000) (- s)
      (new_location 1000 ((Zpos p * 2 ^ s) mod 1000)).
Proof.
  intros s. unfold float_div. cbn [exact_of_Z SFdiv].
  pose proof (div_core_1000 (Zpos p) ltac:(lia)) as H. cbv zeta in H.
  fold s in H. rewrite H. rewrite xorb_false_r. reflexivity.
Qed.

Lemma float_div_1000_overflow (sg : bool) (p : positive) :
  is_infinite (float_div (S754_finite sg p 0) (exact_of_Z 1000))
  = (COUNT_LIMIT <=? Zpos p).
Proof.
  rewrite float_div_1000_finite.
  pose proof (quotient_has_53_bits (Zpos p) ltac:(lia)) as Hq.
  pose proof (Zdigits2_bounds (Zpos p) ltac:(lia)) as Hb.
  pose proof (Zdigits2_pos (Zpos p) ltac:(lia)) as Hd.
  unfold quotient_shift in *.
  destruct (Z.max_spec (63 - Zdigits2 (Zpos p)) 0) as [[Hlt Hs]|[Hge Hs]];
    rewrite Hs in *.
  - (* no scaling: the integer has more than 63 bits *)
    rewrite Z.mul_1_r in *. change (- 0) with 0.
    rewrite round_integer_overflow by exact Hq.
    unfold COUNT_LIMIT.
    assert (0 < QUOTIENT_LIMIT) by reflexivity.
    destruct (Z.leb_spec QUOTIENT_LIMIT (Zpos p / 1000)) as [H1|H1],
             (Z.leb_spec (1000 * QUOTIENT_LIMIT) (Zpos p)) as [H2|H2];
      try reflexivity; exfalso.
    + assert (QUOTIENT_LIMIT * 1000 <= Zpos p); [|lia].
      apply Z.le_trans with (Zpos p / 1000 * 1000); [lia|].
      rewrite Z.mul_comm. apply Z.mul_div_le. lia.
    + assert (QUOTIENT_LIMIT <= Zpos p / 1000); [|lia].
      apply Z.div_le_lower_bound; lia.
  - (* scaled: the integer is below 2^63 and the quotient below 2^54 *)
    remember (63 - Zdigits2 (Zpos p)) as s eqn:Hsdef.
    remember (Zpos p * 2 ^ s / 1000) as q eqn:Hqdef.
    assert (Hpos : 0 < q) by (change (2 ^ 52) with 4503599627370496 in Hq; lia).
    assert (Hupper : q < 2 ^ 54).
    { rewrite Hqdef. apply Z.div_lt_upper_bound; [lia|].
      assert (Zpos p * 2 ^ s < 2 ^ 63); [|change (2 ^ 54) with 18014398509481984;
                                          change (2 ^ 63) with 9223372036854775808 in *; lia].
      replace (2 ^ 63) with (2 ^ Zdigits2 (Zpos p) * 2 ^ s)
        by (rewrite <- Z.pow_add_r by lia; f_equal; lia).
      apply Z.mul_lt_mono_pos_r; [apply Z.pow_pos_nonneg; lia | lia]. }
    pose proof (Zdigits2_bounds q Hpos) as Hbq.
    assert (Hdq : 53 <= Zdigits2 q <= 54).
    { split.
      - destruct (Z.le_gt_cases 53 (Zdigits2 q)) as [|Hc]; [assumption|].
        assert (2 ^ Zdigits2 q <= 2 ^ 52) by (apply Z.pow_le_mono_r; lia). lia.
      - destruct (Z.le_gt_cases (Zdigits2 q) 54) as [|Hc]; [assumption|].
        assert (2 ^ 54 <= 2 ^ (Zdigits2 q - 1)) by (apply Z.pow_le_mono_r; lia). lia. }
    destruct (binary_round_aux_normal sg q (- s) (new_location 1000 ((Zpos p * 2 ^ s) mod 1000))
                Hpos ltac:(lia) ltac:(lia)) as (m2 & Hfirst & ->).
    destruct (first_round_spec q (- s) (new_location 1000 ((Zpos p * 2 ^ s) mod 1000))
                Hpos ltac:(lia) ltac:(lia)) as (m2' & Hfirst' & Hm2 & Hm1 & _).
    rewrite Hfirst in Hfirst'. injection Hfirst' as <-.
    assert (Hsmall : Zpos p < COUNT_LIMIT).
    { assert (Zpos p < 2 ^ 63); [|apply Z.lt_trans with (2 ^ 63); [assumption|reflexivity]].
      assert (2 ^ Zdigits2 (Zpos p) <= 2 ^ 63) by (apply Z.pow_le_mono_r; lia). lia. }
    destruct (Z.leb_spec COUNT_LIMIT (Zpos p)); [lia|].
    change (2 ^ 52) with 4503599627370496 in *.
    destruct (m2 =? 2 ^ 53); rewrite is_infinite_finite_or_infinity by lia;
      apply Z.ltb_ge; lia.
Qed.

(** Overflow of Python's [a / 1000] on integers past 53 bits: exactly
    from [COUNT_LIMIT] on. *)
Lemma nearest_quotient_overflow (a : Z) :
  is_infinite (nearest_quotient a) = (COUNT_LIMIT <=? Z.abs a).
Proof.
  unfold nearest_quotient. destruct a as [|p|p].
  - reflexivity.
  - apply (float_div_1000_overflow false p).
  - apply (float_div_1000_overflow true p).
Qed.

(** ** Floats: integers below 2^53 *)

Lemma pos_iter_xO (p : positive) (n : positive) :
  Zpos (Pos.iter xO p n) = Zpos p * 2 ^ Zpos n.
Proof.
  rewrite Pos2Nat.inj_iter, <- (positive_nat_Z n).
  generalize (Pos.to_nat n). intros k.
  induction k as [|k IH].
  - cbn. lia.
  - cbn [nat_rect]. rewrite Pos2Z.inj_xO, IH, Nat2Z.inj_succ, Z.pow_succ_r by lia. lia.
Qed.

Lemma first_round_exact_53 (m e : Z) :
  Zdigits2 m = 53 -> -1074 <= e -> first_round m e loc_Exact = (m, e).
Proof.
  intros Hd He. unfold first_round, shr_fexp. rewrite Hd.
  rewrite fexp_normal by (rewrite emin_value; unfold prec; lia).
  replace (53 + e - prec - e) with 0 by (unfold prec; lia).
  reflexivity.
Qed.

(** [float(a)] for an integer below 2^53 is exact: the integer shifted to
    53 bits. *)
Lemma binary_round_small (sg : bool) (p : positive) :
  Zpos p < 2 ^ 53 ->
  let k := 53 - Zdigits2 (Zpos p) in
  binary_round prec emax sg p 0 = S754_finite sg (Z.to_pos (Zpos p * 2 ^ k)) (- k).
Proof.
  intros Hp k.
  pose proof (Zdigits2_bounds (Zpos p) ltac:(lia)) as Hb.
  pose proof (Zdigits2_pos (Zpos p) ltac:(lia)) as Hd.
  assert (Hk : 0 <= k).
  { unfold k. destruct (Z.le_gt_cases (Zdigits2 (Zpos p)) 53) as [|Hc]; [lia|].
    assert (2 ^ 53 <= 2 ^ (Zdigits2 (Zpos p) - 1)) by (apply Z.pow_le_mono_r; lia). lia. }
  unfold binary_round.
  change (Zpos (digits2_pos p)) with (Zdigits2 (Zpos p)).
  rewrite fexp_normal by (rewrite emin_value; unfold prec; lia).
  assert (Halign : shl_align p 0 (Zdigits2 (Zpos p) + 0 - prec)
                   = (Z.to_pos (Zpos p * 2 ^ k), - k)).
  { unfold shl_align.
    replace (Zdigits2 (Zpos p) + 0 - prec - 0) with (- k) by (unfold k, prec; lia).
    replace (Zdigits2 (Zpos p) + 0 - prec) with (- k) by (unfold k, prec; lia).
    destruct k as [|n|n]; [| |lia].
    - cbn [Z.opp]. rewrite Z.mul_1_r. reflexivity.
    - cbn [Z.opp]. rewrite <- pos_iter_xO. reflexivity. }
  rewrite Halign.
  set (m := Zpos p * 2 ^ k).
  assert (Hm : 2 ^ 52 <= m < 2 ^ 53).
  { unfold m.
    replace (2 ^ 52) with (2 ^ (Zdigits2 (Zpos p) - 1) * 2 ^ k)
      by (rewrite <- Z.pow_add_r by lia; f_equal; unfold k; lia).
    replace (2 ^ 53) with (2 ^ Zdigits2 (Zpos p) * 2 ^ k)
      by (rewrite <- Z.pow_add_r by lia; f_equal; unfold k; lia).
    assert (0 < 2 ^ k) by (apply Z.pow_pos_nonneg; lia).
    split; [apply Z.mul_le_mono_nonneg_r | apply Z.mul_lt_mono_pos_r]; lia. }
  assert (Hmpos : 0 < m) by (change (2 ^ 52) with 4503599627370496 in Hm; lia).
  rewrite Z2Pos.id by exact Hmpos.
  rewrite binary_round_aux_stages.
  rewrite first_round_exact_53
    by (try (apply Zdigits2_unique; [exact Hm | exact Hmpos]);
        pose proof (Zdigits2_pos (Zpos p)); unfold k; lia).
  rewrite second_round by (unfold k; lia).
  destruct (Z.eqb_spec m (2 ^ 53)) as [Heq|_]; [lia|].
  unfold finite_or_infinity. destruct m as [|mp|mp]; try lia.
  replace (- k <=? emax - prec) with true
    by (symmetry; apply Z.leb_le; unfold emax, prec; lia).
  reflexivity.
Qed.

Lemma float_of_Z_1000 :
  float_of_Z 1000 = S754_finite false 8796093022208000 (-43).
Proof. reflexivity. Qed.

Lemma new_location_scale (n r c : Z) :
  0 < c -> Z.even n = true ->
  new_location (n * c) (r * c) = new_location n r.
Proof.
  intros Hc Hn. unfold new_location.
  rewrite Z.even_mul, Hn. cbn [orb]. unfold new_location_even.
  replace (r * c =? 0) with (r =? 0)
    by (destruct (Z.eqb_spec r 0), (Z.eqb_spec (r * c) 0); try reflexivity; nia).
  destruct (r =? 0); [reflexivity|]. f_equal.
  rewrite Z.mul_assoc.
  destruct (Z.compare_spec (2 * r) n), (Z.compare_spec (2 * r * c) (n * c));
    try reflexivity; nia.
Qed.

(** Dividing two floats that hold integers below 2^53 exactly gives the
    float nearest to the quotient of the integers. *)
Lemma float_div_small (sg : bool) (p : positive) :
  Zpos p < 2 ^ 53 ->
  float_div (binary_round prec emax sg p 0) (float_of_Z 1000)
  = float_div (S754_finite sg p 0) (exact_of_Z 1000).
Proof.
  intros Hp.
  pose proof (Zdigits2_bounds (Zpos p) ltac:(lia)) as Hb.
  pose proof (Zdigits2_pos (Zpos p) ltac:(lia)) as Hd.
  rewrite float_div_1000_finite, binary_round_small, float_of_Z_1000 by exact Hp.
  remember (53 - Zdigits2 (Zpos p)) as k eqn:Hkdef.
  assert (Hk : 0 <= k).
  { destruct (Z.le_gt_cases (Zdigits2 (Zpos p)) 53) as [|Hc]; [lia|].
    assert (2 ^ 53 <= 2 ^ (Zdigits2 (Zpos p) - 1)) by (apply Z.pow_le_mono_r; lia). lia. }
  assert (Hs : quotient_shift (Zpos p) = 10 + k) by (unfold quotient_shift; lia).
  rewrite Hs.
  set (m := Zpos p * 2 ^ k).
  assert (H2k : 0 < 2 ^ k) by (apply Z.pow_pos_nonneg; lia).
  assert (Hm : 2 ^ 52 <= m < 2 ^ 53).
  { unfold m.
    replace (2 ^ 52) with (2 ^ (Zdigits2 (Zpos p) - 1) * 2 ^ k)
      by (rewrite <- Z.pow_add_r by lia; f_equal; lia).
    replace (2 ^ 53) with (2 ^ Zdigits2 (Zpos p) * 2 ^ k)
      by (rewrite <- Z.pow_add_r by lia; f_equal; lia).
    split; [apply Z.mul_le_mono_nonneg_r | apply Z.mul_lt_mono_pos_r]; lia. }
  assert (Hmpos : 0 < m) by (change (2 ^ 52) with 4503599627370496 in Hm; lia).
  unfold float_div. cbn [SFdiv]. rewrite xorb_false_r.
  rewrite Z2Pos.id by exact Hmpos.
  unfold SFdiv_core_binary.
  rewrite (Zdigits2_unique m 53) by (change (53 - 1) with 52; lia).
  change (Zdigits2 8796093022208000) with 53.
  rewrite fexp_normal by (rewrite emin_value; unfold prec; lia).
  replace (Z.min (53 + - k - (53 + -43) - prec) (- k - -43)) with (- (10 + k))
    by (unfold prec; lia).
  replace (- k - -43 - - (10 + k)) with 53 by lia.
  cbv iota.
  rewrite Z.shiftl_mul_pow2 by lia.
  assert (Hnum : m * 2 ^ 53 = (Zpos p * 2 ^ (10 + k)) * 2 ^ 43).
  { unfold m. rewrite Z.pow_add_r by lia.
    change (2 ^ 53) with (2 ^ 10 * 2 ^ 43). ring. }
  change 8796093022208000 with (1000 * 2 ^ 43).
  rewrite Hnum.
  set (n := Zpos p * 2 ^ (10 + k)).
  assert (Hdm : Z.div_eucl (n * 2 ^ 43) (1000 * 2 ^ 43)
                = (n / 1000, n mod 1000 * 2 ^ 43)).
  { pose proof (Z.div_mul_cancel_r n 1000 (2 ^ 43) ltac:(lia) ltac:(lia)) as Hq.
    pose proof (Z.mul_mod_distr_r n 1000 (2 ^ 43) ltac:(lia) ltac:(lia)) as Hr.
    unfold Z.div, Z.modulo in Hq, Hr |- *.
    destruct (Z.div_eucl (n * 2 ^ 43) (1000 * 2 ^ 43)) as [q1 r1].
    destruct (Z.div_eucl n 1000) as [q r]. cbn [fst snd] in *. congruence. }
  rewrite Hdm.
  rewrite new_location_scale by reflexivity. reflexivity.
Qed.

(** Python's [a / 1000] on an int, in one piece. *)
Lemma int_truediv_1000 (a : Z) :
  int_truediv a 1000
  = if COUNT_LIMIT <=? Z.abs a then Raise OverflowError else Ok (nearest_quotient a).
Proof.
  unfold int_truediv. change (1000 =? 0) with false. cbv iota.
  change (Z.abs 1000 <? 2 ^ 53) with true. rewrite andb_true_r.
  destruct (Z.ltb_spec (Z.abs a) (2 ^ 53)) as [Hsmall|Hbig].
  - assert (Hlim : Z.abs a < COUNT_LIMIT).
    { apply Z.lt_trans with (2 ^ 53); [exact Hsmall | reflexivity]. }
    destruct (Z.leb_spec COUNT_LIMIT (Z.abs a)); [lia|].
    f_equal. unfold nearest_quotient. destruct a as [|p|p].
    + reflexivity.
    + apply (float_div_small false p). exact Hsmall.
    + apply (float_div_small true p). exact Hsmall.
  - fold (nearest_quotient a). rewrite nearest_quotient_overflow.
    destruct (COUNT_LIMIT <=? Z.abs a); reflexivity.
Qed.

(** ** Floats: the real number a float stands for *)

Lemma pow2_pos (e : Z) : (0 < pow2 e)%R.
Proof. apply powerRZ_lt. lra. Qed.

Lemma pow2_add (a b : Z) : pow2 (a + b) = (pow2 a * pow2 b)%R.
Proof. apply powerRZ_add. lra. Qed.

Lemma pow2_succ (e : Z) : pow2 (e + 1) = (2 * pow2 e)%R.
Proof. rewrite pow2_add. unfold pow2 at 2. rewrite powerRZ_1. lra. Qed.

Lemma pow2_IZR (n : Z) : 0 <= n -> pow2 n = IZR (2 ^ n).
Proof.
  intros Hn. unfold pow2.
  rewrite <- (Z2Nat.id n Hn), <- pow_powerRZ, <- pow_IZR. reflexivity.
Qed.

Lemma pow2_le (a b : Z) : a <= b -> (pow2 a <= pow2 b)%R.
Proof.
  intros Hab. replace b with (a + (b - a)) by lia. rewrite pow2_add.
  rewrite (pow2_IZR (b - a)) by lia.
  assert (H1 : (1 <= IZR (2 ^ (b - a)))%R).
  { apply IZR_le. pose proof (Z.pow_pos_nonneg 2 (b - a)). lia. }
  pose proof (pow2_pos a). nra.
Qed.

Lemma pow2_lt_inv (a b : Z) : (pow2 a < pow2 b)%R -> a < b.
Proof.
  intros H. destruct (Z.lt_ge_cases a b) as [|Hge]; [assumption|].
  pose proof (pow2_le b a Hge). lra.
Qed.

Lemma pow2_opp (e : Z) : pow2 (- e) = (/ pow2 e)%R.
Proof. apply powerRZ_neg'. Qed.

(** One step of [shr] keeps the place of the real. *)
Lemma located_shr_1 (mrs : shr_record) (e : Z) (x : R) :
  0 <= shr_m mrs ->
  located (shr_m mrs) e (loc_of_shr_record mrs) x ->
  located (shr_m (shr_1 mrs)) (e + 1) (loc_of_shr_record (shr_1 mrs)) x.
Proof.
  destruct mrs as [m r s]. cbn [shr_m]. intros Hm.
  pose proof (pow2_pos e) as Hp.
  destruct m as [|[p|p|]|p]; try lia;
    destruct r, s; cbn [shr_1 shr_m loc_of_shr_record located orb];
    rewrite pow2_succ; try rewrite (IZR_POS_xI p); try rewrite (IZR_POS_xO p);
    intros H; lra.
Qed.

Lemma located_shr_iter (n : nat) (mrs : shr_record) (e : Z) (x : R) :
  0 <= shr_m mrs ->
  located (shr_m mrs) e (loc_of_shr_record mrs) x ->
  located (shr_m (Nat.iter n shr_1 mrs)) (e + Z.of_nat n)
          (loc_of_shr_record (Nat.iter n shr_1 mrs)) x.
Proof.
  intros Hm H. induction n as [|n IH].
  - cbn [Nat.iter nat_rect Z.of_nat]. rewrite Z.add_0_r. exact H.
  - rewrite Nat.iter_succ, Nat2Z.inj_succ.
    replace (e + Z.succ (Z.of_nat n)) with (e + Z.of_nat n + 1) by lia.
    apply located_shr_1; [|exact IH].
    rewrite shr_iter_m by exact Hm. apply Z.div_pos; lia.
Qed.

Lemma located_shr_fexp (m e : Z) (l : location) (x : R) :
  0 <= m -> located m e l x ->
  let '(mrs, e1) := shr_fexp prec emax m e l in
  located (shr_m mrs) e1 (loc_of_shr_record mrs) x.
Proof.
  intros Hm H. unfold shr_fexp, shr.
  destruct (fexp prec emax (Zdigits2 m + e) - e) as [|n|n];
    rewrite ?shr_m_record_of_loc, ?loc_of_shr_record_of_loc; try exact H.
  rewrite iter_pos_nat, <- (positive_nat_Z n).
  apply located_shr_iter;
    rewrite ?shr_m_record_of_loc, ?loc_of_shr_record_of_loc; assumption.
Qed.

(** Rounding to nearest moves the real by half a unit at most. *)
Lemma round_nearest_even_error (m e : Z) (l : location) (x : R) :
  located m e l x ->
  (Rabs (IZR (round_nearest_even m l) * pow2 e - x) <= / 2 * pow2 e)%R
  /\ (IZR m * pow2 e <= x)%R.
Proof.
  pose proof (pow2_pos e) as Hp.
  destruct l as [|[| |]]; cbn [located round_nearest_even]; intros H.
  - subst x. split; [|lra].
    replace (IZR m * pow2 e - IZR m * pow2 e)%R with 0%R by lra.
    rewrite Rabs_R0. lra.
  - subst x. split; [|lra]. destruct (Z.even m).
    + rewrite Rabs_left by lra. lra.
    + rewrite plus_IZR, Rabs_right by lra. lra.
  - split; [|lra]. rewrite Rabs_left by lra. lra.
  - split; [|lra]. rewrite plus_IZR, Rabs_right by lra. lra.
Qed.

Lemma first_round_error (m e : Z) (l : location) (x : R) :
  0 <= m -> located m e l x ->
  (Rabs (IZR (fst (first_round m e l)) * pow2 (snd (first_round m e l)) - x)
   <= / 2 * pow2 (snd (first_round m e l)))%R
  /\ (IZR (fst (first_round m e l) - 1) * pow2 (snd (first_round m e l)) <= x)%R.
Proof.
  intros Hm H. unfold first_round.
  pose proof (located_shr_fexp m e l x Hm H) as Hloc.
  destruct (shr_fexp prec emax m e l) as [mrs e1]. cbn [fst snd].
  destruct (round_nearest_even_error _ _ _ _ Hloc) as [Herr Hlow].
  split; [exact Herr|].
  pose proof (round_nearest_even_bounds (shr_m mrs) (loc_of_shr_record mrs)) as Hb.
  pose proof (pow2_pos e1).
  assert (IZR (round_nearest_even (shr_m mrs) (loc_of_shr_record mrs) - 1)
          <= IZR (shr_m mrs))%R by (apply IZR_le; lia).
  nra.
Qed.

(** ** Floats: accuracy of rounding, product and sum *)

Lemma located_bounds (m e : Z) (l : location) (x : R) :
  located m e l x -> (IZR m * pow2 e <= x < (IZR m + 1) * pow2 e)%R.
Proof.
  pose proof (pow2_pos e) as Hp.
  destruct l as [|[| |]]; cbn [located]; intros H; try lra.
Qed.

Lemma digits_at_least (m k : Z) : 0 < m -> 2 ^ (k - 1) <= m -> k <= Zdigits2 m.
Proof.
  intros Hm Hk. pose proof (Zdigits2_bounds m Hm) as Hb.
  destruct (Z.le_gt_cases k (Zdigits2 m)) as [|Hc]; [assumption|].
  assert (2 ^ Zdigits2 m <= 2 ^ (k - 1)).
  { apply Z.pow_le_mono_r; [lia|]. lia. }
  lia.
Qed.

(** Rounding a real located by a mantissa of at least 53 bits, away from
    the subnormal range: the result is the infinity or a normal float
    within one unit roundoff of the real. *)
Lemma round_normal (s : bool) (m e : Z) (l : location) (x : R) :
  0 < m -> 53 <= Zdigits2 m -> (pow2 (-1021) <= x)%R -> located m e l x ->
  exists p ef,
    binary_round_aux prec emax s m e l
    = (if ef <=? 971 then S754_finite s p ef else S754_infinity s)
    /\ 2 ^ 52 <= Zpos p < 2 ^ 53
    /\ (Rabs (IZR (Zpos p) * pow2 ef - x) <= unit_roundoff * x)%R
    /\ ((x < pow2 1023)%R -> ef <= 971).
Proof.
  intros Hm Hd Hx Hloc.
  pose proof (Zdigits2_bounds m Hm) as Hb.
  pose proof (located_bounds m e l x Hloc) as [Hlow Hupp].
  set (d := Zdigits2 m) in *.
  pose proof (pow2_pos e) as Hpe.
  assert (Hmd : (IZR m + 1 <= pow2 d)%R).
  { rewrite pow2_IZR by lia. rewrite <- plus_IZR. apply IZR_le. lia. }
  assert (Hdm : (pow2 (d - 1) <= IZR m)%R).
  { rewrite pow2_IZR by lia. apply IZR_le. lia. }
  assert (Hxlow : (pow2 (d - 1 + e) <= x)%R).
  { rewrite pow2_add. nra. }
  assert (Hxupp : (x < pow2 (d + e))%R).
  { rewrite pow2_add. nra. }
  assert (Hemin : -1074 <= d + e - 53).
  { assert (-1021 < d + e) by (apply pow2_lt_inv; lra). lia. }
  destruct (binary_round_aux_normal s m e l Hm Hd Hemin) as (m2 & Hfirst & Hres).
  destruct (first_round_spec m e l Hm Hd Hemin) as (m2' & Hfirst' & Hm2 & Hm1 & _).
  rewrite Hfirst in Hfirst'. injection Hfirst' as <-.
  fold d in Hfirst, Hres, Hm2, Hm1.
  destruct (first_round_error m e l x ltac:(lia) Hloc) as [Herr _].
  rewrite Hfirst in Herr. cbn [fst snd] in Herr.
  set (e1 := e + (d - 53)) in *.
  assert (Hhalf : (/ 2 * pow2 e1 <= unit_roundoff * x)%R).
  { unfold unit_roundoff.
    replace (d - 1 + e) with (52 + e1) in Hxlow by (unfold e1; lia).
    rewrite pow2_add in Hxlow.
    assert (H53 : (pow2 (-53) * pow2 52 = / 2)%R).
    { rewrite <- pow2_add. change (-53 + 52) with (- (1)).
      rewrite pow2_opp, (pow2_IZR 1) by lia. reflexivity. }
    pose proof (pow2_pos (-53)) as Hu.
    pose proof (Rmult_le_compat_l _ _ _ (Rlt_le _ _ Hu) Hxlow) as Hmul.
    rewrite <- Rmult_assoc, H53 in Hmul. exact Hmul. }
  assert (Hfin : (x < pow2 1023)%R -> e1 + 1 <= 971).
  { intros Hlt. assert (d - 1 + e < 1023) by (apply pow2_lt_inv; lra).
    unfold e1. lia. }
  rewrite (proj1 pow2_52_53), (proj2 pow2_52_53) in *.
  destruct (Z.eqb_spec m2 9007199254740992) as [Heq|Hne].
  - exists 4503599627370496%positive, (e1 + 1).
    split; [rewrite Hres; reflexivity|].
    split; [lia|]. split.
    + rewrite pow2_succ. subst m2.
      replace (IZR 4503599627370496 * (2 * pow2 e1))%R
        with (IZR 9007199254740992 * pow2 e1)%R by lra.
      lra.
    + exact Hfin.
  - destruct m2 as [|p|p]; try lia.
    exists p, e1. split; [rewrite Hres; reflexivity|].
    split; [lia|]. split; [lra|].
    intros Hlt. specialize (Hfin Hlt). lia.
Qed.

Lemma normal_float_range (f : float) (v : R) :
  normal_float f v -> (0 < v)%R.
Proof.
  intros (p & e & -> & Hp & ->).
  pose proof (pow2_pos e). assert (0 < IZR (Zpos p))%R by (apply IZR_lt; lia). nra.
Qed.

(** The product of two normal floats. *)
Lemma float_mul_normal (f1 f2 : float) (v1 v2 : R) :
  normal_float f1 v1 -> normal_float f2 v2 ->
  (pow2 (-1021) <= v1 * v2 < pow2 1023)%R ->
  exists v, normal_float (float_mul f1 f2) v /\ close 1 v (v1 * v2).
Proof.
  intros (p1 & e1 & -> & Hp1 & ->) (p2 & e2 & -> & Hp2 & ->) [Hlow Hupp].
  unfold float_mul. cbn [SFmul xorb].
  rewrite (proj1 pow2_52_53), (proj2 pow2_52_53) in *.
  assert (Hm : 0 < Zpos (p1 * p2)) by lia.
  assert (Hd : 53 <= Zdigits2 (Zpos (p1 * p2))).
  { apply digits_at_least; [lia|]. change (2 ^ (53 - 1)) with 4503599627370496.
    rewrite Pos2Z.inj_mul. nia. }
  assert (Hloc : located (Zpos (p1 * p2)) (e1 + e2) loc_Exact
                   (IZR (Zpos p1) * pow2 e1 * (IZR (Zpos p2) * pow2 e2))).
  { cbn [located]. rewrite Pos2Z.inj_mul, mult_IZR, pow2_add. ring. }
  destruct (round_normal false _ _ _ _ Hm Hd Hlow Hloc) as (p & ef & Hres & Hp & Herr & Hfin).
  specialize (Hfin Hupp).
  rewrite Hres. replace (ef <=? 971) with true by (symmetry; apply Z.leb_le; exact Hfin).
  eexists. split.
  - exists p, ef. rewrite (proj1 pow2_52_53), (proj2 pow2_52_53). repeat split; lia.
  - unfold close. lra.
Qed.

Lemma shl_align_value (p : positive) (e ez : Z) :
  ez <= e -> Zpos (fst (shl_align p e ez)) = Zpos p * 2 ^ (e - ez).
Proof.
  intros H. unfold shl_align.
  destruct (ez - e) as [|n|n] eqn:Hn; cbn [fst]; try lia.
  - replace (e - ez) with 0 by lia. lia.
  - rewrite pos_iter_xO. f_equal. f_equal. lia.
Qed.

(** The sum of two normal floats. *)
Lemma float_add_normal (f1 f2 : float) (v1 v2 : R) :
  normal_float f1 v1 -> normal_float f2 v2 ->
  (pow2 (-1021) <= v1 + v2 < pow2 1023)%R ->
  exists v, normal_float (float_add f1 f2) v /\ close 1 v (v1 + v2).
Proof.
  intros (p1 & e1 & -> & Hp1 & ->) (p2 & e2 & -> & Hp2 & ->) [Hlow Hupp].
  unfold float_add. cbn [SFadd cond_Zopp].
  rewrite (proj1 pow2_52_53), (proj2 pow2_52_53) in *.
  set (ez := Z.min e1 e2).
  rewrite !shl_align_value by (unfold ez; lia).
  set (M := Zpos p1 * 2 ^ (e1 - ez) + Zpos p2 * 2 ^ (e2 - ez)).
  assert (H1 : 1 <= 2 ^ (e1 - ez)).
  { pose proof (Z.pow_pos_nonneg 2 (e1 - ez) ltac:(lia) ltac:(unfold ez; lia)). lia. }
  assert (H2 : 1 <= 2 ^ (e2 - ez)).
  { pose proof (Z.pow_pos_nonneg 2 (e2 - ez) ltac:(lia) ltac:(unfold ez; lia)). lia. }
  assert (HM : 4503599627370496 <= M) by (unfold M; nia).
  assert (Hd : 53 <= Zdigits2 M).
  { apply digits_at_least; [lia|]. change (2 ^ (53 - 1)) with 4503599627370496. lia. }
  assert (Hloc : located M ez loc_Exact
                   (IZR (Zpos p1) * pow2 e1 + IZR (Zpos p2) * pow2 e2)).
  { cbn [located]. unfold M.
    rewrite plus_IZR, !mult_IZR, <- !pow2_IZR by (unfold ez; lia).
    rewrite Rmult_plus_distr_r, !Rmult_assoc, <- !pow2_add.
    replace (e1 - ez + ez) with e1 by lia. replace (e2 - ez + ez) with e2 by lia.
    reflexivity. }
  destruct M as [|Mp|Mp] eqn:HMp; try lia.
  cbn [binary_normalize]. unfold binary_round.
  change (Zpos (digits2_pos Mp)) with (Zdigits2 (Zpos Mp)).
  assert (Hemin : -1074 <= Zdigits2 (Zpos Mp) + ez - 53).
  { pose proof (located_bounds _ _ _ _ Hloc) as [_ Hu].
    pose proof (Zdigits2_bounds (Zpos Mp) ltac:(lia)) as Hb.
    assert (IZR (Zpos Mp) + 1 <= pow2 (Zdigits2 (Zpos Mp)))%R.
    { rewrite pow2_IZR by lia. rewrite <- plus_IZR. apply IZR_le. lia. }
    pose proof (pow2_pos ez).
    assert (-1021 < Zdigits2 (Zpos Mp) + ez).
    { apply pow2_lt_inv. rewrite (pow2_add (Zdigits2 (Zpos Mp))). nra. }
    lia. }
  rewrite fexp_normal by (rewrite emin_value; unfold prec; lia).
  assert (Halign : shl_align Mp ez (Zdigits2 (Zpos Mp) + ez - prec) = (Mp, ez)).
  { unfold shl_align.
    destruct (Zdigits2 (Zpos Mp) + ez - prec - ez) as [|n|n] eqn:Hn;
      try reflexivity.
    unfold prec in Hn. lia. }
  rewrite Halign.
  destruct (round_normal false _ _ _ _ (Pos2Z.pos_is_pos Mp) Hd Hlow Hloc)
    as (p & ef & Hres & Hp & Herr & Hfin).
  specialize (Hfin Hupp).
  rewrite Hres. replace (ef <=? 971) with true by (symmetry; apply Z.leb_le; exact Hfin).
  eexists. split.
  - exists p, ef. rewrite (proj1 pow2_52_53), (proj2 pow2_52_53). repeat split; lia.
  - unfold close. lra.
Qed.

(** ** Floats: accuracy of the quotient by 1000 *)

Lemma unit_roundoff_value : unit_roundoff = (/ 9007199254740992)%R.
Proof.
  unfold unit_roundoff. change (-53) with (- (53)).
  rewrite pow2_opp, pow2_IZR by lia. reflexivity.
Qed.

Lemma Rabs_le_bounds (a b : R) : (Rabs a <= b)%R -> (- b <= a <= b)%R.
Proof.
  intros H. pose proof (Rle_abs a) as H1. pose proof (Rle_abs (- a)) as H2.
  rewrite Rabs_Ropp in H2. lra.
Qed.

Lemma close_bounds (k v x : R) :
  close k v x <-> (- (k * unit_roundoff * x) <= v - x <= k * unit_roundoff * x)%R.
Proof.
  unfold close. split.
  - intros H. apply Rabs_le_bounds in H. exact H.
  - intros H. apply Rabs_le. exact H.
Qed.

Lemma nonneg_normal_value (f : float) (v : R) :
  nonneg_normal f v -> float_value f = v /\ (0 <= v)%R.
Proof.
  intros [[-> ->]|H].
  - split; [reflexivity | lra].
  - pose proof (normal_float_range f v H) as Hpos.
    destruct H as (p & e & -> & Hp & ->). split; [cbn [float_value]; lra | lra].
Qed.

Lemma pow2_small (e : Z) : e <= -20 -> (pow2 e <= / 1048576)%R.
Proof.
  intros He. apply Rle_trans with (pow2 (-20)); [apply pow2_le; exact He|].
  change (-20) with (- (20)). rewrite pow2_opp, pow2_IZR by lia.
  change (2 ^ 20) with 1048576. lra.
Qed.

Lemma pow2_1023 : pow2 1023 = (pow2 1024 / 2)%R.
Proof. change 1024 with (1023 + 1). rewrite pow2_succ. lra. Qed.

Lemma count_below_limit (a : Z) :
  a < COUNT_LIMIT -> (IZR a / 1000 < pow2 1024)%R.
Proof.
  intros Ha. apply IZR_lt in Ha.
  unfold COUNT_LIMIT, QUOTIENT_LIMIT in Ha.
  rewrite mult_IZR, minus_IZR, <- !pow2_IZR in Ha by lia.
  pose proof (pow2_pos 970). lra.
Qed.

(** The place of a/1000 given by the integer division of [SFdiv]. *)
Lemma located_quotient (a s : Z) :
  0 <= s ->
  located (a * 2 ^ s / 1000) (- s) (new_location 1000 ((a * 2 ^ s) mod 1000))
          (IZR a / 1000).
Proof.
  intros Hs.
  set (n := a * 2 ^ s).
  pose proof (Z.div_mod n 1000 ltac:(lia)) as Hdm.
  pose proof (Z.mod_pos_bound n 1000 ltac:(lia)) as Hr.
  set (q := n / 1000) in *. set (r := n mod 1000) in *.
  assert (Hn : (IZR a = IZR n * pow2 (- s))%R).
  { unfold n. rewrite mult_IZR, <- pow2_IZR, Rmult_assoc, <- pow2_add by lia.
    replace (s + - s) with 0 by lia. unfold pow2. rewrite powerRZ_O. lra. }
  assert (Hnq : (IZR n = 1000 * IZR q + IZR r)%R).
  { rewrite Hdm at 1. rewrite plus_IZR, mult_IZR. lra. }
  assert (Hr0 : (0 <= IZR r < 1000)%R).
  { split; [apply (IZR_le 0) | apply (IZR_lt r 1000)]; lia. }
  pose proof (pow2_pos (- s)) as Hp.
  unfold new_location. change (Z.even 1000) with true. cbv iota.
  unfold new_location_even.
  destruct (Z.eqb_spec r 0) as [Hz|Hnz].
  - cbn [located]. rewrite Hn, Hnq, Hz. lra.
  - assert (Hrpos : (1 <= IZR r)%R) by (apply (IZR_le 1); lia).
    destruct (Z.compare_spec (2 * r) 1000) as [Hc|Hc|Hc]; cbn [located];
      rewrite Hn, Hnq.
    + assert (r = 500) by lia. subst r. replace (n mod 1000) with 500 by lia.
      lra.
    + apply IZR_lt in Hc. rewrite mult_IZR in Hc. nra.
    + apply IZR_lt in Hc. rewrite mult_IZR in Hc. nra.
Qed.

(** Python's [a / 1000] on a positive int below the limit is a normal
    float within one unit roundoff of the quotient. *)
Lemma nearest_quotient_normal (a : Z) :
  0 < a -> a < COUNT_LIMIT ->
  exists v, normal_float (nearest_quotient a) v /\ close 1 v (IZR a / 1000).
Proof.
  intros Hpos Hlim. destruct a as [|p|p]; try lia.
  pose proof (nearest_quotient_overflow (Zpos p)) as Hinf.
  unfold nearest_quotient in *. cbn [exact_of_Z] in *.
  change (exact_of_Z 1000) with (S754_finite false 1000 0) in *.
  change (S754_finite false 1000 0) with (exact_of_Z 1000) in *.
  rewrite float_div_1000_finite in *.
  cbn [Z.abs] in Hinf.
  destruct (Z.leb_spec COUNT_LIMIT (Zpos p)) as [|_]; [lia|].
  set (s := quotient_shift (Zpos p)) in *.
  assert (Hs : 0 <= s) by (unfold s, quotient_shift; lia).
  pose proof (located_quotient (Zpos p) s Hs) as Hloc.
  pose proof (quotient_has_53_bits (Zpos p) ltac:(lia)) as Hq. fold s in Hq.
  assert (Hqpos : 0 < Zpos p * 2 ^ s / 1000).
  { change (2 ^ 52) with 4503599627370496 in Hq. lia. }
  assert (Hd : 53 <= Zdigits2 (Zpos p * 2 ^ s / 1000)).
  { apply digits_at_least; [exact Hqpos | exact Hq]. }
  assert (Hx : (pow2 (-1021) <= IZR (Zpos p) / 1000)%R).
  { pose proof (pow2_small (-1021) ltac:(lia)).
    assert (1 <= IZR (Zpos p))%R by (apply (IZR_le 1); lia). lra. }
  destruct (round_normal false _ _ _ _ Hqpos Hd Hx Hloc)
    as (m & ef & Hres & Hm & Herr & _).
  rewrite Hres in Hinf |- *.
  destruct (Z.leb_spec ef 971) as [Hef|Hef]; [|discriminate].
  eexists. split.
  - exists m, ef. repeat split; lia.
  - unfold close. lra.
Qed.

Lemma nearest_quotient_nonneg_normal (a : Z) :
  0 <= a -> a < COUNT_LIMIT ->
  exists v, nonneg_normal (nearest_quotient a) v /\ close 1 v (IZR a / 1000).
Proof.
  intros Hpos Hlim. destruct (Z.eq_dec a 0) as [->|Hne].
  - exists 0%R. split; [left; split; reflexivity|].
    unfold close. replace (0 - 0 / 1000)%R with 0%R by lra. rewrite Rabs_R0. lra.
  - destruct (nearest_quotient_normal a ltac:(lia) Hlim) as (v & Hn & Hc).
    exists v. split; [right; exact Hn | exact Hc].
Qed.

(** The two rates are normal floats within one unit roundoff of 0.03
    and of 0.15. *)
Lemma rate_in_normal :
  normal_float COST_PER_1K_INPUT_TOKENS (IZR 8646911284551352 * pow2 (-58))
  /\ (IZR 8646911284551352 * pow2 (-58) = 8646911284551352 / 288230376151711744)%R.
Proof.
  split.
  - exists 8646911284551352%positive, (-58). repeat split; reflexivity || lia.
  - change (-58) with (- (58)). rewrite pow2_opp, pow2_IZR by lia.
    change (2 ^ 58) with 288230376151711744. lra.
Qed.

Lemma rate_out_normal :
  normal_float COST_PER_1K_OUTPUT_TOKENS (IZR 5404319552844595 * pow2 (-55))
  /\ (IZR 5404319552844595 * pow2 (-55) = 5404319552844595 / 36028797018963968)%R.
Proof.
  split.
  - exists 5404319552844595%positive, (-55). repeat split; reflexivity || lia.
  - change (-55) with (- (55)). rewrite pow2_opp, pow2_IZR by lia.
    change (2 ^ 55) with 36028797018963968. lra.
Qed.

(** The product of a quotient, zero or normal, by a rate. *)
Lemma float_mul_nonneg_normal (f1 f2 : float) (v1 v2 : R) :
  nonneg_normal f1 v1 -> normal_float f2 v2 ->
  (v1 = 0 \/ pow2 (-1021) <= v1 * v2)%R -> (v1 * v2 < pow2 1023)%R ->
  exists v, nonneg_normal (float_mul f1 f2) v /\ close 1 v (v1 * v2).
Proof.
  intros [[-> ->]|H1] H2 Hlow Hupp.
  - exists 0%R. split.
    + left. destruct H2 as (p & e & -> & _). split; reflexivity.
    + unfold close. replace (0 - 0 * v2)%R with 0%R by lra. rewrite Rabs_R0. lra.
  - pose proof (normal_float_range _ _ H1).
    destruct Hlow as [Hz|Hlow]; [lra|].
    destruct (float_mul_normal f1 f2 v1 v2 H1 H2 (conj Hlow Hupp)) as (v & Hn & Hc).
    exists v. split; [right; exact Hn | exact Hc].
Qed.

(** The sum of two costs, each zero or normal. *)
Lemma float_add_nonneg_normal (f1 f2 : float) (v1 v2 : R) :
  nonneg_normal f1 v1 -> nonneg_normal f2 v2 ->
  (v1 + v2 = 0 \/ pow2 (-1021) <= v1 + v2)%R -> (v1 + v2 < pow2 1023)%R ->
  exists v, nonneg_normal (float_add f1 f2) v /\ close 1 v (v1 + v2).
Proof.
  intros [[-> ->]|H1] [[-> ->]|H2] Hlow Hupp.
  - exists 0%R. split; [left; split; reflexivity|].
    unfold close. replace (0 - (0 + 0))%R with 0%R by lra. rewrite Rabs_R0. lra.
  - exists v2. split.
    + right. destruct H2 as (p & e & -> & H2). exists p, e. split; [reflexivity | exact H2].
    + pose proof (normal_float_range _ _ H2). pose proof (pow2_pos (-53)).
      unfold close, unit_roundoff.
      replace (v2 - (0 + v2))%R with 0%R by lra. rewrite Rabs_R0. nra.
  - exists v1. split.
    + right. destruct H1 as (p & e & -> & H1). exists p, e. split; [reflexivity | exact H1].
    + pose proof (normal_float_range _ _ H1). pose proof (pow2_pos (-53)).
      unfold close, unit_roundoff.
      replace (v1 - (v1 + 0))%R with 0%R by lra. rewrite Rabs_R0. nra.
  - pose proof (normal_float_range _ _ H1). pose proof (normal_float_range _ _ H2).
    destruct Hlow as [Hz|Hlow]; [lra|].
    destruct (float_add_normal f1 f2 v1 v2 H1 H2 (conj Hlow Hupp)) as (v & Hn & Hc).
    exists v. split; [right; exact Hn | exact Hc].
Qed.

(** ** calculate_cost on integers *)

(** [calculate_cost] on two ints, in one piece. *)
Lemma calculate_cost_int (i o : Z) :
  calculate_cost (PInt i) (PInt o)
  = if (COUNT_LIMIT <=? Z.abs i) || (COUNT_LIMIT <=? Z.abs o)
    then Raise OverflowError
    else Ok (cost_in_floats i o).
Proof.
  unfold calculate_cost. cbn [py_div_1000 bind Monad_outcome outcome_bind].
  rewrite !int_truediv_1000.
  destruct (COUNT_LIMIT <=? Z.abs i); [reflexivity|].
  cbn [outcome_bind orb].
  destruct (COUNT_LIMIT <=? Z.abs o); reflexivity.
Qed.

(** One term of the cost: the quotient of a count by 1000 times a rate. *)
Lemma term_accurate (a : Z) (rate : float) (r r0 : R) :
  0 <= a -> a < COUNT_LIMIT ->
  normal_float rate r ->
  (/ 100 <= r0 <= / 4)%R ->
  close 1 r r0 ->
  exists v,
    nonneg_normal (float_mul (nearest_quotient a) rate) v
    /\ close 4 v (IZR a / 1000 * r0).
Proof.
  intros Ha Hlim Hrate Hr0 Hr.
  destruct (nearest_quotient_nonneg_normal a Ha Hlim) as (va & Hqa & Hca).
  pose proof (count_below_limit a Hlim) as Hxa.
  pose proof (pow2_pos 1024) as HP.
  apply close_bounds in Hca, Hr. rewrite unit_roundoff_value in Hca, Hr.
  assert (Hx0 : (0 <= IZR a / 1000)%R).
  { assert (0 <= IZR a)%R by (apply (IZR_le 0); exact Ha). lra. }
  assert (Hrange : (va = 0 \/ pow2 (-1021) <= va * r)%R).
  { destruct (Z.eq_dec a 0) as [->|Hne].
    - left. replace (0 / 1000)%R with 0%R in Hca by lra. lra.
    - right. pose proof (pow2_small (-1021) ltac:(lia)).
      assert (1 <= IZR a)%R by (apply (IZR_le 1); lia).
      assert (/ 1001 <= va)%R by lra.
      assert (/ 101 <= r)%R by lra.
      nra. }
  assert (Hupper : (va * r < pow2 1023)%R).
  { rewrite pow2_1023.
    assert (va <= 1.0001 * pow2 1024)%R by lra.
    assert (r <= 0.2501)%R by lra.
    assert (0 <= va)%R by lra.
    nra. }
  destruct (float_mul_nonneg_normal _ _ _ _ Hqa Hrate Hrange Hupper) as (v & Hv & Hc).
  exists v. split; [exact Hv|].
  apply close_bounds in Hc. apply close_bounds.
  rewrite unit_roundoff_value in *.
  set (x := (IZR a / 1000)%R) in *.
  assert (Hva : (0 <= va)%R) by lra.
  assert (Hr1 : (0 <= r)%R) by lra.
  (* bounds of the product of the two approximations *)
  assert (Hp1 : (va * r <= x * r0 * (1 + 2.0001 / 9007199254740992))%R).
  { apply Rle_trans with (x * (1 + / 9007199254740992) * (r0 * (1 + / 9007199254740992)))%R.
    - apply Rmult_le_compat; lra.
    - assert (0 <= x * r0)%R by nra. nra. }
  assert (Hp2 : (x * r0 * (1 - 2 / 9007199254740992) <= va * r)%R).
  { apply Rle_trans with (x * (1 - / 9007199254740992) * (r0 * (1 - / 9007199254740992)))%R.
    - assert (0 <= x * r0)%R by nra. nra.
    - apply Rmult_le_compat; lra. }
  assert (Hxr : (0 <= x * r0)%R) by nra.
  split; nra.
Qed.

(** ** calculate_cost: accuracy and additivity up to rounding *)

Lemma ideal_cost_nonneg (a b : Z) : 0 <= a -> 0 <= b -> (0 <= ideal_cost a b)%R.
Proof.
  intros Ha Hb. apply (IZR_le 0) in Ha, Hb. unfold ideal_cost. lra.
Qed.

Lemma ideal_cost_additive (a b c d : Z) :
  ideal_cost (a + c) (b + d) = (ideal_cost a b + ideal_cost c d)%R.
Proof. unfold ideal_cost. rewrite !plus_IZR. lra. Qed.

Lemma ideal_cost_bounds (a b : Z) :
  0 <= a -> 0 <= b -> a < COUNT_LIMIT -> b < COUNT_LIMIT ->
  (ideal_cost a b < 0.18 * pow2 1024)%R
  /\ (ideal_cost a b = 0 \/ 3 / 100000 <= ideal_cost a b)%R.
Proof.
  intros Ha Hb Hla Hlb.
  pose proof (count_below_limit a Hla). pose proof (count_below_limit b Hlb).
  unfold ideal_cost. split; [lra|].
  destruct (Z.eq_dec a 0) as [->|Hna], (Z.eq_dec b 0) as [->|Hnb].
  - left. lra.
  - right. assert (1 <= IZR b)%R by (apply (IZR_le 1); lia). lra.
  - right. assert (1 <= IZR a)%R by (apply (IZR_le 1); lia). lra.
  - right. assert (1 <= IZR a)%R by (apply (IZR_le 1); lia).
    assert (1 <= IZR b)%R by (apply (IZR_le 1); lia). lra.
Qed.

(** The cost of two counts below the limit is zero or a normal float
    within six unit roundoffs of the exact cost. *)
Lemma cost_in_floats_accurate (a b : Z) :
  0 <= a -> 0 <= b -> a < COUNT_LIMIT -> b < COUNT_LIMIT ->
  exists v,
    nonneg_normal (cost_in_floats a b) v /\ close 6 v (ideal_cost a b).
Proof.
  intros Ha Hb Hla Hlb.
  destruct rate_in_normal as [Hin Hinv]. destruct rate_out_normal as [Hout Houtv].
  destruct (term_accurate a _ _ (3 / 100) Ha Hla Hin ltac:(lra)) as (pa & Hpa & Hca).
  { rewrite Hinv. apply close_bounds. rewrite unit_roundoff_value. lra. }
  destruct (term_accurate b _ _ (15 / 100) Hb Hlb Hout ltac:(lra)) as (pb & Hpb & Hcb).
  { rewrite Houtv. apply close_bounds. rewrite unit_roundoff_value. lra. }
  pose proof (count_below_limit a Hla) as Hxa.
  pose proof (count_below_limit b Hlb) as Hxb.
  pose proof (pow2_pos 1024) as HP.
  apply close_bounds in Hca, Hcb. rewrite unit_roundoff_value in Hca, Hcb.
  assert (Hx0 : (0 <= IZR a / 1000)%R).
  { assert (0 <= IZR a)%R by (apply (IZR_le 0); exact Ha). lra. }
  assert (Hy0 : (0 <= IZR b / 1000)%R).
  { assert (0 <= IZR b)%R by (apply (IZR_le 0); exact Hb). lra. }
  destruct (ideal_cost_bounds a b Ha Hb Hla Hlb) as [Hiu Hil].
  unfold ideal_cost in *.
  set (x := (IZR a / 1000 * (3 / 100))%R) in *.
  set (y := (IZR b / 1000 * (15 / 100))%R) in *.
  assert (Hx : (0 <= x)%R) by (unfold x; lra).
  assert (Hy : (0 <= y)%R) by (unfold y; lra).
  assert (Hrange : (pa + pb = 0 \/ pow2 (-1021) <= pa + pb)%R).
  { destruct Hil as [Hz|Hnz].
    - left. assert (x = 0)%R by lra. assert (y = 0)%R by lra. lra.
    - right. pose proof (pow2_small (-1021) ltac:(lia)). lra. }
  assert (Hupper : (pa + pb < pow2 1023)%R) by (rewrite pow2_1023; lra).
  unfold cost_in_floats.
  destruct (float_add_nonneg_normal _ _ _ _ Hpa Hpb Hrange Hupper) as (v & Hv & Hc).
  exists v. split; [exact Hv|].
  apply close_bounds in Hc. apply close_bounds.
  rewrite unit_roundoff_value in *. lra.
Qed.

(** Additivity up to rounding. *)
Lemma cost_in_floats_additive (a b c d : Z) :
  0 <= a -> 0 <= b -> 0 <= c -> 0 <= d ->
  a + c < COUNT_LIMIT -> b + d < COUNT_LIMIT ->
  exists vx vy vz vw,
    nonneg_normal (cost_in_floats a b) vx
    /\ nonneg_normal (cost_in_floats c d) vy
    /\ nonneg_normal (cost_in_floats (a + c) (b + d)) vz
    /\ nonneg_normal (float_add (cost_in_floats a b) (cost_in_floats c d)) vw
    /\ close 6 vz (ideal_cost (a + c) (b + d))
    /\ (Rabs (vz - vw) <= 14 * unit_roundoff * ideal_cost (a + c) (b + d))%R
    /\ (Rabs (vz - vw) <= 16 * unit_roundoff * vz)%R.
Proof.
  intros Ha Hb Hc Hd Hac Hbd.
  destruct (cost_in_floats_accurate a b Ha Hb ltac:(lia) ltac:(lia)) as (vx & Hx & Hcx).
  destruct (cost_in_floats_accurate c d Hc Hd ltac:(lia) ltac:(lia)) as (vy & Hy & Hcy).
  destruct (cost_in_floats_accurate (a + c) (b + d) ltac:(lia) ltac:(lia) Hac Hbd)
    as (vz & Hz & Hcz).
  destruct (ideal_cost_bounds a b Ha Hb ltac:(lia) ltac:(lia)) as [_ Hlab].
  destruct (ideal_cost_bounds c d Hc Hd ltac:(lia) ltac:(lia)) as [_ Hlcd].
  destruct (ideal_cost_bounds (a + c) (b + d) ltac:(lia) ltac:(lia) Hac Hbd) as [Hupp _].
  pose proof (ideal_cost_nonneg a b Ha Hb) as H0ab.
  pose proof (ideal_cost_nonneg c d Hc Hd) as H0cd.
  pose proof (pow2_pos 1024) as HP.
  pose proof (Hcz) as Hcz'.
  rewrite ideal_cost_additive in *.
  apply close_bounds in Hcx, Hcy, Hcz. rewrite unit_roundoff_value in Hcx, Hcy, Hcz.
  set (i1 := ideal_cost a b) in *. set (i2 := ideal_cost c d) in *.
  assert (Hrange : (vx + vy = 0 \/ pow2 (-1021) <= vx + vy)%R).
  { pose proof (pow2_small (-1021) ltac:(lia)).
    destruct Hlab as [Hz1|Hn1], Hlcd as [Hz2|Hn2]; [left|right|right|right]; lra. }
  assert (Hupper : (vx + vy < pow2 1023)%R) by (rewrite pow2_1023; lra).
  destruct (float_add_nonneg_normal _ _ _ _ Hx Hy Hrange Hupper) as (vw & Hw & Hcw).
  exists vx, vy, vz, vw.
  split; [exact Hx|]. split; [exact Hy|]. split; [exact Hz|]. split; [exact Hw|].
  split; [exact Hcz'|].
  apply close_bounds in Hcw. rewrite unit_roundoff_value in *.
  split; apply Rabs_le; lra.
Qed.

(** ** calculate_cost: the two claims *)

Lemma binary_round_aux_opp (m e : Z) (l : location) :
  binary_round_aux prec emax true m e l
  = SFopp (binary_round_aux prec emax false m e l).
Proof.
  unfold binary_round_aux.
  destruct (shr_fexp prec emax m e l) as [mrs1 e1].
  destruct (shr_fexp prec emax _ e1 loc_Exact) as [mrs2 e2].
  destruct (shr_m mrs2); [reflexivity| |reflexivity].
  destruct (e2 <=? emax - prec); reflexivity.
Qed.

Lemma nearest_quotient_opp (p : positive) :
  nearest_quotient (Zneg p) = SFopp (nearest_quotient (Zpos p)).
Proof.
  unfold nearest_quotient. cbn [exact_of_Z].
  change (S754_finite false 1000 0) with (exact_of_Z 1000).
  rewrite !float_div_1000_finite. apply binary_round_aux_opp.
Qed.

Lemma float_value_opp (f : float) : float_value (SFopp f) = (- float_value f)%R.
Proof. destruct f as [s|s| |[|] m e]; cbn [SFopp float_value negb]; lra. Qed.

Lemma float_is_finite_opp (f : float) : float_is_finite (SFopp f) = float_is_finite f.
Proof. destruct f; reflexivity. Qed.

Lemma nonneg_normal_finite (f : float) (v : R) :
  nonneg_normal f v -> float_is_finite f = true /\ nonneg_float f.
Proof.
  intros [[-> _]|(p & e & -> & _)]; split; reflexivity.
Qed.

(** Python's [a / 1000] on an int below the limit in magnitude is a
    float within one unit roundoff of the exact quotient. *)
Lemma nearest_quotient_accurate (a : Z) :
  Z.abs a < COUNT_LIMIT ->
  float_is_finite (nearest_quotient a) = true
  /\ (Rabs (float_value (nearest_quotient a) - IZR a / 1000)
      <= unit_roundoff * Rabs (IZR a / 1000))%R.
Proof.
  intros Ha.
  assert (Hpos : forall b, 0 <= b -> b < COUNT_LIMIT ->
            float_is_finite (nearest_quotient b) = true
            /\ (Rabs (float_value (nearest_quotient b) - IZR b / 1000)
                <= unit_roundoff * Rabs (IZR b / 1000))%R).
  { intros b Hb Hlim.
    destruct (nearest_quotient_nonneg_normal b Hb Hlim) as (v & Hn & Hc).
    destruct (nonneg_normal_value _ _ Hn) as [-> _].
    split; [apply (nonneg_normal_finite _ _ Hn)|].
    assert (0 <= IZR b / 1000)%R.
    { assert (0 <= IZR b)%R by (apply (IZR_le 0); exact Hb). lra. }
    rewrite (Rabs_pos_eq (IZR b / 1000)) by assumption.
    unfold close in Hc. lra. }
  destruct a as [|p|p].
  - apply Hpos; [lia | reflexivity].
  - apply Hpos; [lia | exact Ha].
  - rewrite nearest_quotient_opp, float_is_finite_opp, float_value_opp.
    destruct (Hpos (Zpos p) ltac:(lia) Ha) as [Hf Hacc]. split; [exact Hf|].
    change (Zneg p) with (- Zpos p). rewrite opp_IZR.
    replace (- float_value (nearest_quotient (Zpos p)) - - IZR (Zpos p) / 1000)%R
      with (- (float_value (nearest_quotient (Zpos p)) - IZR (Zpos p) / 1000))%R by lra.
    replace (- IZR (Zpos p) / 1000)%R with (- (IZR (Zpos p) / 1000))%R by lra.
    rewrite !Rabs_Ropp. exact Hacc.
Qed.

(** Below 2^53 the nearest quotient is the quotient of the count and of
    1000 converted to floats. *)
Lemma nearest_quotient_small (a : Z) :
  Z.abs a < 2 ^ 53 ->
  nearest_quotient a = float_div (float_of_Z a) (float_of_Z 1000).
Proof.
  intros Ha. unfold nearest_quotient. destruct a as [|p|p].
  - reflexivity.
  - symmetry. apply (float_div_small false p). exact Ha.
  - symmetry. apply (float_div_small true p). exact Ha.
Qed.

(** C5, as amended.  For integer token counts below [COUNT_LIMIT] =
    1000 x (2^1024 - 2^970), about 1.8e311, in magnitude,
    [calculate_cost] returns, without raising, the float
    (input_tokens/1000) x 0.03 + (output_tokens/1000) x 0.15, the
    operations being those of binary64 and each quotient the float
    nearest to the exact one (within one unit roundoff, 2^-53, of it);
    from that magnitude on, for either count, it raises
    [OverflowError], which is its only error on integers; below 2^53
    the quotient is that of the count and of 1000 as floats; and the
    cost of (0, 0) is 0.0.  The function is a pure expression: equal
    arguments give equal results and its result type carries no
    state. *)
Theorem calculate_cost_spec :
  (forall i o : Z,
      Z.abs i < COUNT_LIMIT -> Z.abs o < COUNT_LIMIT ->
      calculate_cost (PInt i) (PInt o) = Ok (cost_in_floats i o))
  /\ (forall i o : Z,
         COUNT_LIMIT <= Z.abs i \/ COUNT_LIMIT <= Z.abs o ->
         calculate_cost (PInt i) (PInt o) = Raise OverflowError)
  /\ (forall a : Z,
         Z.abs a < COUNT_LIMIT ->
         float_is_finite (nearest_quotient a) = true
         /\ (Rabs (float_value (nearest_quotient a) - IZR a / 1000)
             <= unit_roundoff * Rabs (IZR a / 1000))%R)
  /\ (forall i o : Z,
         Z.abs i < 2 ^ 53 -> Z.abs o < 2 ^ 53 ->
         cost_in_floats i o = cost_formula i o)
  /\ calculate_cost (PInt 0) (PInt 0) = Ok float_zero.
Proof.
  split; [|split; [|split; [|split]]].
  - intros i o Hi Ho. rewrite calculate_cost_int.
    destruct (Z.leb_spec COUNT_LIMIT (Z.abs i)); [lia|].
    destruct (Z.leb_spec COUNT_LIMIT (Z.abs o)); [lia|]. reflexivity.
  - intros i o H. rewrite calculate_cost_int.
    destruct (Z.leb_spec COUNT_LIMIT (Z.abs i)); [reflexivity|].
    destruct (Z.leb_spec COUNT_LIMIT (Z.abs o)); [reflexivity|]. lia.
  - exact nearest_quotient_accurate.
  - intros i o Hi Ho. unfold cost_in_floats, cost_formula.
    rewrite !nearest_quotient_small by assumption. reflexivity.
  - vm_compute. reflexivity.
Qed.

(** Witness of C5: 10^300 input and 2^60 output tokens, both past 2^53. *)
Lemma calculate_cost_spec_witness :
  calculate_cost (PInt (10 ^ 300)) (PInt (2 ^ 60))
  = Ok (cost_in_floats (10 ^ 300) (2 ^ 60)).
Proof.
  apply (proj1 calculate_cost_spec (10 ^ 300) (2 ^ 60)); vm_compute; reflexivity.
Defined.

(** C5 as stated fails: a token count of 10^400 makes the division by
    1000 raise [OverflowError]. *)
Lemma calculate_cost_overflow :
  calculate_cost (PInt (10 ^ 400)) (PInt 0) = Raise OverflowError.
Proof. vm_compute. reflexivity. Qed.

(** C6 as stated fails: in binary64 the cost of 1 + 2 input tokens is
    one unit in the last place below the sum of the costs of 1 and of 2
    input tokens. *)
Lemma calculate_cost_not_additive :
  calculate_cost (PInt 1) (PInt 0) = Ok (S754_finite false 8854437155380585 (-68))
  /\ calculate_cost (PInt 2) (PInt 0) = Ok (S754_finite false 8854437155380585 (-67))
  /\ float_add (S754_finite false 8854437155380585 (-68))
               (S754_finite false 8854437155380585 (-67))
     = S754_finite false 6640827866535439 (-66)
  /\ calculate_cost (PInt (1 + 2)) (PInt (0 + 0))
     = Ok (S754_finite false 6640827866535438 (-66))
  /\ S754_finite false 6640827866535438 (-66) <> S754_finite false 6640827866535439 (-66).
Proof. repeat split; try (vm_compute; reflexivity). discriminate. Qed.

(** C6, as amended.  The cost of (0, 0) is 0.0, and [calculate_cost] is
    additive up to rounding: for non-negative integer counts a, b, c, d
    with a + c and b + d below [COUNT_LIMIT], the three costs are
    defined and finite, the cost of (a + c, b + d) is within six unit
    roundoffs (6 x 2^-53) of the exact value
    ((a + c)/1000) x 0.03 + ((b + d)/1000) x 0.15, and it differs from
    the float sum cost(a, b) + cost(c, d) by at most 14 unit roundoffs
    of that exact value and 16 unit roundoffs (2^-49) of itself.  The
    two sides are equal when one of the pairs is (0, 0). *)
Theorem calculate_cost_additive_up_to_rounding :
  calculate_cost (PInt 0) (PInt 0) = Ok float_zero
  /\ (forall a b c d : Z,
         0 <= a -> 0 <= b -> 0 <= c -> 0 <= d ->
         a + c < COUNT_LIMIT -> b + d < COUNT_LIMIT ->
         exists x y z : float,
           calculate_cost (PInt a) (PInt b) = Ok x
           /\ calculate_cost (PInt c) (PInt d) = Ok y
           /\ calculate_cost (PInt (a + c)) (PInt (b + d)) = Ok z
           /\ float_is_finite z = true
           /\ float_is_finite (float_add x y) = true
           /\ (Rabs (float_value z - ideal_cost (a + c) (b + d))
               <= 6 * unit_roundoff * ideal_cost (a + c) (b + d))%R
           /\ (Rabs (float_value z - float_value (float_add x y))
               <= 14 * unit_roundoff * ideal_cost (a + c) (b + d))%R
           /\ (Rabs (float_value z - float_value (float_add x y))
               <= 16 * unit_roundoff * float_value z)%R)
  /\ (forall (a b : Z) (x : float),
         0 <= a -> 0 <= b ->
         calculate_cost (PInt a) (PInt b) = Ok x ->
         calculate_cost (PInt (a + 0)) (PInt (b + 0)) = Ok (float_add x float_zero)
         /\ calculate_cost (PInt (0 + a)) (PInt (0 + b)) = Ok (float_add float_zero x)).
Proof.
  split; [vm_compute; reflexivity|]. split.
  - intros a b c d Ha Hb Hc Hd Hac Hbd.
    exists (cost_in_floats a b), (cost_in_floats c d), (cost_in_floats (a + c) (b + d)).
    rewrite !calculate_cost_int.
    rewrite !Z.abs_eq by lia.
    destruct (Z.leb_spec COUNT_LIMIT a); [lia|].
    destruct (Z.leb_spec COUNT_LIMIT b); [lia|].
    destruct (Z.leb_spec COUNT_LIMIT c); [lia|].
    destruct (Z.leb_spec COUNT_LIMIT d); [lia|].
    destruct (Z.leb_spec COUNT_LIMIT (a + c)); [lia|].
    destruct (Z.leb_spec COUNT_LIMIT (b + d)); [lia|].
    cbn [orb].
    destruct (cost_in_floats_additive a b c d Ha Hb Hc Hd Hac Hbd)
      as (vx & vy & vz & vw & Hx & Hy & Hz & Hw & Hcz & H14 & H16).
    destruct (nonneg_normal_value _ _ Hz) as [-> _].
    destruct (nonneg_normal_value _ _ Hw) as [-> _].
    repeat split; try reflexivity.
    + apply (nonneg_normal_finite _ _ Hz).
    + apply (nonneg_normal_finite _ _ Hw).
    + exact Hcz.
    + exact H14.
    + exact H16.
  - intros a b x Ha Hb Hx.
    pose proof (calculate_cost_nonneg a b x Ha Hb Hx) as Hsign.
    rewrite !Z.add_0_r, !Z.add_0_l, float_add_zero_r, float_add_zero_l by exact Hsign.
    split; exact Hx.
Qed.

(** Witness of C6: 1 + 2 input tokens, the pairs of the counterexample. *)
Lemma calculate_cost_additive_up_to_rounding_witness :
  exists x y z : float,
    calculate_cost (PInt 1) (PInt 0) = Ok x
    /\ calculate_cost (PInt 2) (PInt 0) = Ok y
    /\ calculate_cost (PInt (1 + 2)) (PInt (0 + 0)) = Ok z
    /\ float_is_finite z = true
    /\ float_is_finite (float_add x y) = true
    /\ (Rabs (float_value z - ideal_cost (1 + 2) (0 + 0))
        <= 6 * unit_roundoff * ideal_cost (1 + 2) (0 + 0))%R
    /\ (Rabs (float_value z - float_value (float_add x y))
        <= 14 * unit_roundoff * ideal_cost (1 + 2) (0 + 0))%R
    /\ (Rabs (float_value z - float_value (float_add x y))
        <= 16 * unit_roundoff * float_value z)%R.
Proof.
  apply (proj1 (proj2 calculate_cost_additive_up_to_rounding) 1 0 2 0);
    try lia; vm_compute; reflexivity.
Defined.

(* ================================================================== *)
(** ** run_command *)
(* ================================================================== *)

Section Fetchers.

Context {lib : PyLib}.
Variable E : env.

(** What [run_command] returns, by the outcome of the child process. *)
Lemma run_command_spec (command : list string) (s : state) :
  run_command E command s =
  (match env_run E (tick s) command with
   | Completed rc out err =>
       if rc =? 0 then Ok (out, true) else Ok ("Error: " ++ err, false)
   | RunRaised (CalledProcessError _ err) => Ok ("Error: " ++ err, false)
   | RunRaised e => Raise e
   end, next s).
Proof.
  cbv [run_command try_except subprocess_run_check observe next
       bind ret Monad_St St_bind St_ret raise].
  destruct (env_run E (tick s) command) as [rc out err|e].
  - destruct (rc =? 0); reflexivity.
  - destruct e; reflexivity.
Qed.

(** A non-zero exit status is turned into an error text and a false
    flag. *)
Lemma run_command_nonzero_exit (command : list string) (s : state) rc out err :
  env_run E (tick s) command = Completed rc out err -> rc <> 0 ->
  run_command E command s = (Ok ("Error: " ++ err, false), next s).
Proof.
  intros H Hrc. rewrite run_command_spec, H.
  destruct (Z.eqb_spec rc 0); [contradiction | reflexivity].
Qed.

(** Any exception of [subprocess.run] other than [CalledProcessError]
    leaves [run_command]. *)
Lemma run_command_propagates (command : list string) (s : state) (e : exn) :
  env_run E (tick s) command = RunRaised e ->
  is_CalledProcessError e = false ->
  run_command E command s = (Raise e, next s).
Proof.
  intros H He. rewrite run_command_spec, H.
  destruct e; try reflexivity; discriminate.
Qed.

(** A call with an unusable reply: either the flag is false, or the text
    does not decode. *)
Lemma run_command_unusable (command : list string) (s : state) :
  reply_unusable (env_run E (tick s) command) ->
  exists text ok,
    run_command E command s = (Ok (text, ok), next s)
    /\ (ok = true -> json_loads text = None).
Proof.
  intros H. rewrite run_command_spec.
  destruct (env_run E (tick s) command) as [rc out err|e]; simpl in H.
  - destruct (Z.eqb_spec rc 0) as [->|Hrc].
    + destruct H as [H|H]; [contradiction|]. exists out, true. auto.
    + exists ("Error: " ++ err), false. split; [reflexivity | discriminate].
  - destruct e; try discriminate.
    exists ("Error: " ++ stderr), false. split; [reflexivity | discriminate].
Qed.

(* ================================================================== *)
(** ** Dictionaries *)
(* ================================================================== *)

Lemma dict_get_set_same (d : dict) (k : string) (v : pyval) :
  dict_get (dict_set d k v) k = Some v.
Proof.
  induction d as [|[k' v'] d IH]; simpl.
  - rewrite String.eqb_refl. reflexivity.
  - destruct (String.eqb_spec k' k) as [->|Hne]; simpl.
    + rewrite String.eqb_refl. reflexivity.
    + destruct (String.eqb_spec k' k); [contradiction | exact IH].
Qed.

Lemma dict_get_set_other (d : dict) (k k' : string) (v : pyval) :
  k <> k' -> dict_get (dict_set d k v) k' = dict_get d k'.
Proof.
  intros Hne. induction d as [|[k0 v0] d IH]; simpl.
  - destruct (String.eqb_spec k k'); [contradiction | reflexivity].
  - destruct (String.eqb_spec k0 k) as [->|Hk]; simpl.
    + destruct (String.eqb_spec k k'); [contradiction | reflexivity].
    + destruct (String.eqb_spec k0 k'); [reflexivity | exact IH].
Qed.

Lemma get0_set_other (d : dict) (k k' : string) (v : pyval) :
  k <> k' -> get0 (dict_set d k v) k' = get0 d k'.
Proof. intros H. unfold get0. rewrite dict_get_set_other by exact H. reflexivity. Qed.

(* ================================================================== *)
(** ** The invariant total_tokens = input_tokens + output_tokens *)
(* ================================================================== *)

(** The fields written over a decoded reply restore the invariant. *)
Lemma fill_period_stats_total (stats : pyval) (period : string)
    (start_time end_time : datetime) (r : pyval) :
  fill_period_stats stats period start_time end_time = Ok r -> total_is_sum r.
Proof.
  unfold fill_period_stats.
  destruct stats as [| | | | | |d]; try discriminate.
  cbn [py_setitem py_get bind Monad_outcome outcome_bind].
  set (d3 := dict_set (dict_set (dict_set d "period" _) "start_time" _) "end_time" _).
  fold (get0 d3 "input_tokens"). fold (get0 d3 "output_tokens").
  destruct (py_add (get0 d3 "input_tokens") (get0 d3 "output_tokens"))
    as [total|e] eqn:Hsum; [|discriminate].
  cbn [outcome_bind].
  destruct (calculate_cost _ _) as [cost|e]; [|discriminate].
  cbn [outcome_bind]. intros [= <-].
  exists (dict_set (dict_set d3 "total_tokens" total) "cost" (PFloat cost)), total.
  split; [reflexivity|]. split.
  - rewrite dict_get_set_other by discriminate. apply dict_get_set_same.
  - rewrite !get0_set_other by discriminate. exact Hsum.
Qed.

Lemma period_from_stats_total (command : list string) (period : string)
    (start_time end_time : datetime) (s s' : state) (r : pyval) :
  period_from_stats E command period start_time end_time s = (Ok (Some r), s') ->
  total_is_sum r.
Proof.
  unfold period_from_stats.
  cbv [bind ret Monad_St St_bind St_ret try_except lift].
  rewrite run_command_spec.
  destruct (env_run E (tick s) command) as [rc out err|e].
  - destruct (rc =? 0); [|discriminate].
    unfold loads. destruct (json_loads out) as [v|]; [|discriminate].
    destruct (fill_period_stats v period start_time end_time) as [r'|e] eqn:Hfill.
    + intros [= <- _]. eapply fill_period_stats_total; eassumption.
    + destruct (is_JSONDecodeError e); discriminate.
  - destruct e; discriminate.
Qed.

Lemma period_stats_in_window_total (period : string)
    (start_time end_time : datetime) (s s' : state) (r : pyval) :
  period_stats_in_window E period start_time end_time s = (Ok r, s') ->
  total_is_sum r.
Proof.
  unfold period_stats_in_window.
  cbv [bind ret Monad_St St_bind St_ret lift].
  destruct (if is_named_period period then _ else _) as [[[direct|]|e] s2] eqn:Hdirect;
    [| |discriminate].
  - intros [= <- _].
    destruct (is_named_period period); [|discriminate].
    eapply period_from_stats_total; eassumption.
  - destruct (period_from_stats E _ period start_time end_time s2)
      as [[[ranged|]|e] s3] eqn:Hranged; [| |discriminate].
    + intros [= <- _]. eapply period_from_stats_total; eassumption.
    + destruct (period_from_logs E period start_time end_time s3) as [[v|e] s4];
        [|discriminate].
      destruct (calculate_cost _ _) as [cost|e]; [|discriminate].
      destruct (py_add _ _) as [total|e] eqn:Hsum; [|discriminate].
      intros [= <- _].
      eexists _, total. split; [reflexivity|]. split; [reflexivity | exact Hsum].
Qed.

(** Every mapping returned by [get_time_period_stats] satisfies the
    invariant, on each of its three return paths. *)
Lemma get_time_period_stats_total (period : string)
    (start_time end_time : option datetime) (s s' : state) (r : pyval) :
  get_time_period_stats E period start_time end_time s = (Ok r, s') ->
  total_is_sum r.
Proof.
  unfold get_time_period_stats.
  cbv [bind ret Monad_St St_bind St_ret lift datetime_now observe].
  destruct (match start_time with
            | Some t => _
            | None => _
            end) as [[st|e] s1] eqn:Hst; [|discriminate].
  apply period_stats_in_window_total.
Qed.

(** In [get_current_session_stats] the invariant holds on the log path
    and on the last resort. *)
Lemma session_from_logs_total (s s' : state) (r : pyval) :
  session_from_logs E s = (Ok (Some r), s') -> total_is_sum r.
Proof.
  unfold session_from_logs.
  cbv [bind ret Monad_St St_bind St_ret lift try_except].
  rewrite run_command_spec.
  destruct (match env_run E (tick s) _ with
            | Completed _ _ _ => _
            | RunRaised _ => _
            end) as [[cmd [|]]|e]; [| discriminate | discriminate].
  destruct (loads cmd) as [logs|e]; [|destruct (is_JSONDecodeError_or_AttributeError e); discriminate].
  destruct (py_iter logs) as [entries|e];
    [|destruct (is_JSONDecodeError_or_AttributeError e); discriminate].
  unfold with_locals.
  destruct (for_each session_entry entries session_vars_init) as [[[]|e] v];
    cbv [ret Monad_St St_ret raise];
    [|destruct (is_JSONDecodeError_or_AttributeError e); discriminate].
  destruct (match first_timestamp v with Some _ => _ | None => _ end)
    as [[start|e] s1]; [|destruct (is_JSONDecodeError_or_AttributeError e); discriminate].
  destruct (py_add (s_input_tokens v) (s_output_tokens v)) as [total|e] eqn:Hsum;
    [|destruct (is_JSONDecodeError_or_AttributeError e); discriminate].
  intros [= <- _].
  eexists _, total. split; [reflexivity|]. split; [reflexivity | exact Hsum].
Qed.

Lemma session_last_resort_total (s s' : state) (r : pyval) :
  session_last_resort E s = (Ok r, s') -> total_is_sum r.
Proof.
  unfold session_last_resort.
  cbv [bind ret Monad_St St_bind St_ret lift datetime_now observe].
  destruct (datetime_sub _ _) as [start|e]; [|discriminate].
  intros [= <- _].
  eexists _, (PInt 0). split; [reflexivity|]. split; reflexivity.
Qed.

(** So the invariant can only fail on the path that returns the decoded
    reply of [claude stats --format json]. *)
Lemma get_current_session_stats_total (s s1 s' : state) (r : pyval) :
  session_from_stats E s = (Ok None, s1) ->
  get_current_session_stats E s = (Ok r, s') ->
  total_is_sum r.
Proof.
  intros Hstats. unfold get_current_session_stats.
  cbv [bind ret Monad_St St_bind St_ret]. rewrite Hstats.
  destruct (session_from_logs E s1) as [[[from_logs|]|e] s2] eqn:Hlogs; [| |discriminate].
  - intros [= <- _]. eapply session_from_logs_total; eassumption.
  - apply session_last_resort_total.
Qed.

(* ================================================================== *)
(** ** Total failure: the zero-valued stats *)
(* ================================================================== *)

Lemma loads_undecodable (text : string) :
  json_loads text = None -> loads text = Raise JSONDecodeError.
Proof. unfold loads. intros ->. reflexivity. Qed.

Lemma period_from_stats_unusable (command : list string) (period : string)
    (start_time end_time : datetime) (s : state) :
  reply_unusable (env_run E (tick s) command) ->
  period_from_stats E command period start_time end_time s = (Ok None, next s).
Proof.
  intros H. destruct (run_command_unusable command s H) as (text & ok & Hrun & Hok).
  unfold period_from_stats.
  cbv [bind ret Monad_St St_bind St_ret lift try_except].
  rewrite Hrun. destruct ok; [|reflexivity].
  rewrite (loads_undecodable text (Hok eq_refl)). reflexivity.
Qed.

Lemma period_from_logs_unusable (period : string) (start_time end_time : datetime)
    (s : state) :
  (forall command, reply_unusable (env_run E (tick s) command)) ->
  exists out,
    period_from_logs E period start_time end_time s
    = (Ok period_vars_init, mkstate (S (tick s)) (printed s ++ out)).
Proof.
  intros H. unfold period_from_logs.
  destruct (run_command_unusable
              ["claude"; "logs"; "--format"; "json"; "--limit"; str_of_int (log_limit period)] s (H _))
    as (text & ok & Hrun & Hok).
  cbv [bind ret Monad_St St_bind St_ret lift try_except].
  rewrite Hrun. destruct ok.
  - rewrite (loads_undecodable text (Hok eq_refl)).
    exists ["Error processing logs"]. reflexivity.
  - exists []. unfold next. rewrite app_nil_r. reflexivity.
Qed.

Lemma session_from_stats_unusable (s : state) :
  (forall command, reply_unusable (env_run E (tick s) command)) ->
  exists out,
    session_from_stats E s = (Ok None, mkstate (S (tick s)) (printed s ++ out)).
Proof.
  intros H. unfold session_from_stats.
  destruct (run_command_unusable
              ["claude"; "stats"; "--format"; "json"] s (H _))
    as (text & ok & Hrun & Hok).
  cbv [bind ret Monad_St St_bind St_ret lift try_except].
  rewrite Hrun. destruct ok.
  - rewrite (loads_undecodable text (Hok eq_refl)).
    exists ["Error parsing stats data"]. reflexivity.
  - exists []. unfold next. rewrite app_nil_r. reflexivity.
Qed.

Lemma session_from_logs_unusable (s : state) :
  (forall command, reply_unusable (env_run E (tick s) command)) ->
  exists out,
    session_from_logs E s = (Ok None, mkstate (S (tick s)) (printed s ++ out)).
Proof.
  intros H. unfold session_from_logs.
  destruct (run_command_unusable
              ["claude"; "logs"; "--format"; "json"; "--limit"; str_of_int SESSION_LOG_LIMIT] s (H _))
    as (text & ok & Hrun & Hok).
  cbv [bind ret Monad_St St_bind St_ret lift try_except].
  rewrite Hrun. destruct ok.
  - rewrite (loads_undecodable text (Hok eq_refl)).
    exists ["Error processing logs"]. reflexivity.
  - exists []. unfold next. rewrite app_nil_r. reflexivity.
Qed.

Lemma datetime_sub_in_range (d : datetime) (delta : timedelta) :
  0 <= dt_us d - delta < DATETIME_END_US ->
  datetime_sub d delta = Ok (mkdatetime (dt_us d - delta) (dt_tz d)).
Proof.
  intros [Hlo Hhi]. unfold datetime_sub.
  apply Z.leb_le in Hlo. apply Z.ltb_lt in Hhi.
  rewrite Hlo, Hhi. reflexivity.
Qed.

Lemma session_last_resort_spec (s : state) :
  US_PER_HOUR <= env_now E (tick s) < DATETIME_END_US + US_PER_HOUR ->
  session_last_resort E s
  = (Ok (zero_session_stats (mkdatetime (env_now E (tick s) - US_PER_HOUR) None)),
     next s).
Proof.
  intros Hnow. unfold session_last_resort.
  cbv [bind ret Monad_St St_bind St_ret lift datetime_now observe].
  rewrite datetime_sub_in_range by (cbn [dt_us]; unfold timedelta_one_hour; lia).
  reflexivity.
Qed.

(** With a clock inside years 1..9999 and at least one day after the
    first representable instant, the default window always resolves. *)
Lemma default_start_time_resolves (period : string) (now : datetime) :
  US_PER_DAY <= dt_us now < DATETIME_END_US ->
  exists st, default_start_time period now = Ok st.
Proof.
  intros Hnow. unfold default_start_time.
  destruct (period =? "daily")%string; [eauto|].
  destruct (period =? "weekly")%string.
  - unfold timedelta_days, weekday.
    assert (Hday : 0 < US_PER_DAY) by reflexivity.
    assert (Hq : 0 <= dt_us now / US_PER_DAY) by (apply Z.div_pos; lia).
    pose proof (Z.mod_pos_bound (dt_us now / US_PER_DAY) 7 ltac:(lia)) as Hwd.
    pose proof (Z.mod_le (dt_us now / US_PER_DAY) 7 Hq ltac:(lia)) as Hle.
    pose proof (Z.mul_div_le (dt_us now) US_PER_DAY Hday) as Hmul.
    replace (Z.abs _ <=? 999999999) with true by (symmetry; apply Z.leb_le; lia).
    cbn [bind Monad_outcome outcome_bind].
    rewrite datetime_sub_in_range by nia.
    cbn [outcome_bind]. eauto.
  - destruct (period =? "monthly")%string; [eauto|].
    change (timedelta_days 1) with (Ok US_PER_DAY : outcome timedelta).
    cbn [bind Monad_outcome outcome_bind].
    assert (Hday : 0 < US_PER_DAY) by reflexivity.
    rewrite datetime_sub_in_range by lia. cbn [outcome_bind]. eauto.
Qed.

(** The session mapping of last resort holds one timestamp only. *)
Lemma zero_session_stats_single_timestamp (start : datetime) :
  ~ has_timestamp_pair (zero_session_stats start).
Proof.
  intros (d & k1 & k2 & t1 & t2 & Hd & Hne & H1 & H2).
  unfold zero_session_stats in Hd. injection Hd as <-.
  assert (Hkey : forall k t,
             dict_get [("input_tokens", PInt 0); ("output_tokens", PInt 0);
                       ("total_tokens", PInt 0);
                       ("session_start", PStr (isoformat start))] k = Some (PStr t) ->
             k = "session_start").
  { intros k t. cbn [dict_get].
    destruct ("input_tokens" =? k)%string; [discriminate|].
    destruct ("output_tokens" =? k)%string; [discriminate|].
    destruct ("total_tokens" =? k)%string; [discriminate|].
    destruct (String.eqb_spec "session_start" k); [auto | discriminate]. }
  apply Hne. rewrite (Hkey _ _ H1), (Hkey _ _ H2). reflexivity.
Qed.

Lemma period_stats_in_window_unusable
    (Hfail : forall n command, reply_unusable (env_run E n command))
    (period : string) (start_time end_time : datetime) (s : state) :
  exists s',
    period_stats_in_window E period start_time end_time s
    = (Ok (zero_period_stats period start_time end_time), s').
Proof.
  unfold period_stats_in_window.
  cbv [bind ret Monad_St St_bind St_ret lift].
  assert (Hdirect : exists s1,
             (if is_named_period period
              then period_from_stats E
                     ["claude"; "stats"; "--period"; period; "--format"; "json"]
                     period start_time end_time
              else fun s0 : state => (Ok None, s0)) s
             = (Ok None, s1)).
  { destruct (is_named_period period).
    - rewrite period_from_stats_unusable by apply Hfail. eauto.
    - eauto. }
  destruct Hdirect as (s1 & ->).
  rewrite period_from_stats_unusable by apply Hfail.
  destruct (period_from_logs_unusable period start_time end_time (next s1)
              (fun c => Hfail _ c)) as (out & ->).
  eexists. reflexivity.
Qed.

Lemma get_current_session_stats_unusable
    (Hfail : forall n command, reply_unusable (env_run E n command)) (s : state) :
  US_PER_HOUR <= env_now E (S (S (tick s))) < DATETIME_END_US + US_PER_HOUR ->
  exists out,
    get_current_session_stats E s
    = (Ok (zero_session_stats
             (mkdatetime (env_now E (S (S (tick s))) - US_PER_HOUR) None)),
       mkstate (S (S (S (tick s)))) (printed s ++ out)).
Proof.
  intros Hclock.
  unfold get_current_session_stats.
  cbv [bind ret Monad_St St_bind St_ret].
  destruct (session_from_stats_unusable s (fun c => Hfail _ c)) as (out1 & ->).
  destruct (session_from_logs_unusable (mkstate (S (tick s)) (printed s ++ out1))
              (fun c => Hfail _ c)) as (out2 & ->).
  rewrite session_last_resort_spec by exact Hclock.
  exists (out1 ++ out2)%list. unfold next. cbn [tick printed].
  rewrite app_assoc. reflexivity.
Qed.

(** C3, as amended.  When every call of the external tool fails (a false
    success flag, or text that is not JSON): [get_time_period_stats]
    returns input_tokens = output_tokens = total_tokens = 0 with both
    [start_time] and [end_time] set to the ISO text of the resolved
    window; [get_current_session_stats] returns the three counts at 0 and
    one timestamp, [session_start], the ISO text of the clock reading minus
    one hour; it stores no end of the window.  The clock is assumed to lie
    inside the representable range, one day (one hour for the session)
    after its first instant. *)
Theorem zero_stats_when_every_call_fails :
  (forall n command, reply_unusable (env_run E n command)) ->
  (forall period start_time end_time s,
      US_PER_DAY <= env_now E (tick s) < DATETIME_END_US ->
      let now := mkdatetime (env_now E (tick s)) None in
      exists st s',
        match start_time with
        | Some t => Ok t
        | None => default_start_time period now
        end = Ok st
        /\ get_time_period_stats E period start_time end_time s
           = (Ok (zero_period_stats period st
                    match end_time with Some t => t | None => now end), s'))
  /\ (forall s,
         let reading := env_now E (S (S (tick s))) in
         US_PER_HOUR <= reading < DATETIME_END_US + US_PER_HOUR ->
         exists s',
           get_current_session_stats E s
           = (Ok (zero_session_stats (mkdatetime (reading - US_PER_HOUR) None)), s')
           /\ ~ has_timestamp_pair
                  (zero_session_stats (mkdatetime (reading - US_PER_HOUR) None))).
Proof.
  intros Hfail. split.
  - intros period start_time end_time s Hclock now.
    assert (Hst : exists st,
               match start_time with
               | Some t => Ok t
               | None => default_start_time period now
               end = Ok st).
    { destruct start_time as [t|]; [eauto|].
      apply default_start_time_resolves. exact Hclock. }
    destruct Hst as [st Hst]. exists st.
    destruct (period_stats_in_window_unusable Hfail period st
                match end_time with Some t => t | None => now end (next s))
      as [s' Hs'].
    exists s'. split; [exact Hst|].
    unfold get_time_period_stats.
    cbv [bind ret Monad_St St_bind St_ret lift datetime_now observe].
    fold now. fold (next s).
    destruct start_time as [t|].
    + injection Hst as ->. exact Hs'.
    + rewrite Hst. exact Hs'.
  - intros s reading Hclock.
    destruct (get_current_session_stats_unusable Hfail s Hclock) as (out & ->).
    eexists. split; [reflexivity | apply zero_session_stats_single_timestamp].
Qed.

(* ================================================================== *)
(** ** Log aggregation: the window filter *)
(* ================================================================== *)

Lemma datetime_lt_naive (a b : datetime) :
  dt_tz a = None -> dt_tz b = None ->
  datetime_lt a b = Ok (dt_us a <? dt_us b).
Proof. intros Ha Hb. unfold datetime_lt. rewrite Ha, Hb. reflexivity. Qed.

(** Against a naive bound, a comparison that succeeds has a naive left
    operand. *)
Lemma datetime_lt_ok_naive_r (a b : datetime) (r : bool) :
  dt_tz b = None -> datetime_lt a b = Ok r ->
  dt_tz a = None /\ r = (dt_us a <? dt_us b).
Proof.
  unfold datetime_lt. intros ->.
  destruct (dt_tz a); [discriminate|]. intros [= <-]. auto.
Qed.

Lemma datetime_lt_ok_naive_l (a b : datetime) (r : bool) :
  dt_tz a = None -> datetime_lt a b = Ok r ->
  dt_tz b = None /\ r = (dt_us a <? dt_us b).
Proof.
  unfold datetime_lt. intros ->.
  destruct (dt_tz b); [discriminate|]. intros [= <-]. auto.
Qed.

(** For naive datetimes the window test is [start <= t <= end]. *)
Lemma in_window_naive (start_time end_time t : datetime) :
  dt_tz start_time = None -> dt_tz end_time = None ->
  in_window start_time end_time t ->
  dt_tz t = None /\ dt_us start_time <= dt_us t <= dt_us end_time.
Proof.
  intros Hs He [Hlt Hgt]. unfold datetime_gt in Hgt.
  destruct (datetime_lt_ok_naive_r _ _ _ Hs Hlt) as [Ht Hlo].
  destruct (datetime_lt_ok_naive_l _ _ _ He Hgt) as [_ Hhi].
  symmetry in Hlo, Hhi. apply Z.ltb_ge in Hlo, Hhi. auto.
Qed.

(** An entry strictly outside the window leaves the totals alone and
    the loop goes on to the next entry. *)
Lemma period_entry_outside (start_time end_time : datetime) (entry : pyval)
    (v : period_vars) :
  outside_window start_time end_time entry ->
  period_entry start_time end_time entry v = (Ok tt, v).
Proof.
  intros (d & text & t & -> & Hts & Ht & Htz & Hsz & Hez & Hout).
  unfold period_entry.
  cbv [bind ret Monad_St St_bind St_ret lift try_except py_get].
  rewrite Hts. cbn [truthy].
  destruct (negb (negb (text =? "")%string)); [reflexivity|].
  cbn [py_replace_Z]. unfold parse_iso.
  unfold entry_time in Ht. rewrite Ht.
  rewrite (datetime_lt_naive t start_time Htz Hsz).
  destruct (Z.ltb_spec (dt_us t) (dt_us start_time)); [reflexivity|].
  unfold datetime_gt. rewrite (datetime_lt_naive end_time t Hez Htz).
  destruct (Z.ltb_spec (dt_us end_time) (dt_us t)); [reflexivity | lia].
Qed.

(** An entry that changes a total has a timestamp that parses and passes
    both comparisons. *)
Lemma period_entry_changes (start_time end_time : datetime) (entry : pyval)
    (v v' : period_vars) (r : outcome unit) :
  period_entry start_time end_time entry v = (r, v') -> v' <> v ->
  exists d text t,
    entry = PDict d
    /\ dict_get d "timestamp" = Some (PStr text)
    /\ entry_time text = Some t
    /\ in_window start_time end_time t.
Proof.
  unfold period_entry.
  cbv [bind ret Monad_St St_bind St_ret lift try_except].
  destruct entry as [| | | | | |d];
    try (cbn [py_get]; intros [= _ <-] Hne; contradiction).
  cbn [py_get].
  destruct (dict_get d "timestamp") as [ts|] eqn:Hts;
    [|cbn [truthy negb]; intros [= _ <-] Hne; contradiction].
  destruct (negb (truthy ts)); [intros [= _ <-] Hne; contradiction|].
  destruct ts as [| | | |text| |];
    try (cbn [py_replace_Z is_ValueError_or_TypeError is_ValueError is_TypeError orb];
         intros [= _ <-] Hne; contradiction).
  cbn [py_replace_Z]. unfold parse_iso.
  destruct (fromisoformat (str_replace_char "Z" "" text)) as [t|] eqn:Ht;
    [|cbn; intros [= _ <-] Hne; contradiction].
  destruct (datetime_lt t start_time) as [[|]|e] eqn:Hlt.
  - intros [= _ <-] Hne; contradiction.
  - destruct (datetime_gt t end_time) as [[|]|e] eqn:Hgt.
    + intros [= _ <-] Hne; contradiction.
    + intros _ _. exists d, text, t. repeat split; assumption.
    + destruct (is_ValueError_or_TypeError e); intros [= _ <-] Hne; contradiction.
  - destruct (is_ValueError_or_TypeError e); intros [= _ <-] Hne; contradiction.
Qed.

Lemma for_each_cons {S A} (body : A -> St S unit) (x : A) (rest : list A) (s : S) :
  for_each body (x :: rest) s =
  match body x s with
  | (Ok _, s') => for_each body rest s'
  | (Raise e, s') => (Raise e, s')
  end.
Proof. reflexivity. Qed.

(** Entries outside the window can be removed from the listing without
    changing what the aggregation returns. *)
Lemma aggregate_logs_drop_outside (start_time end_time : datetime)
    (before after : list pyval) (entry : pyval) (v : period_vars) :
  outside_window start_time end_time entry ->
  aggregate_logs start_time end_time (before ++ entry :: after) v
  = aggregate_logs start_time end_time (before ++ after) v.
Proof.
  intros Hout. unfold aggregate_logs. revert v.
  induction before as [|x before IH]; intros v.
  - cbn [app]. rewrite for_each_cons, period_entry_outside by exact Hout. reflexivity.
  - cbn [app]. rewrite !for_each_cons.
    destruct (period_entry start_time end_time x v) as [[[]|e] v1]; [apply IH | reflexivity].
Qed.

(** C4.  In the log fallback of [get_time_period_stats], an entry moves
    the token totals only if its timestamp parses to a time t that passes
    both comparisons of the loop, that is start_time <= t <= end_time for
    the naive datetimes the window is made of; an entry whose timestamp
    lies strictly before start_time or strictly after end_time leaves the
    totals unchanged, and removing it from the listing does not change
    the aggregated counts. *)
Theorem aggregation_respects_window (start_time end_time : datetime) :
  (forall entry v v' r,
      period_entry start_time end_time entry v = (r, v') -> v' <> v ->
      exists d text t,
        entry = PDict d
        /\ dict_get d "timestamp" = Some (PStr text)
        /\ entry_time text = Some t
        /\ in_window start_time end_time t
        /\ (dt_tz start_time = None -> dt_tz end_time = None ->
            dt_tz t = None /\ dt_us start_time <= dt_us t <= dt_us end_time))
  /\ (forall entry v,
         outside_window start_time end_time entry ->
         period_entry start_time end_time entry v = (Ok tt, v))
  /\ (forall before after entry v,
         outside_window start_time end_time entry ->
         aggregate_logs start_time end_time (before ++ entry :: after) v
         = aggregate_logs start_time end_time (before ++ after) v).
Proof.
  split; [|split].
  - intros entry v v' r Hrun Hne.
    destruct (period_entry_changes _ _ _ _ _ _ Hrun Hne)
      as (d & text & t & Hd & Hts & Ht & Hin).
    exists d, text, t.
    split; [exact Hd|]. split; [exact Hts|]. split; [exact Ht|]. split; [exact Hin|].
    intros Hs He. apply (in_window_naive _ _ _ Hs He Hin).
  - intros entry v. apply period_entry_outside.
  - intros before after entry v. apply aggregate_logs_drop_outside.
Qed.

(* ================================================================== *)
(** ** Log aggregation: timestamps that do not parse *)
(* ================================================================== *)

Lemma append_assoc (a b c : string) :
  ((a ++ b) ++ c)%string = (a ++ (b ++ c))%string.
Proof. induction a as [|x a IH]; cbn [append]; [reflexivity | rewrite IH; reflexivity]. Qed.

Lemma append_empty_r (a : string) : (a ++ "")%string = a.
Proof. induction a as [|c a IH]; cbn [append]; [reflexivity | rewrite IH; reflexivity]. Qed.

Lemma str_replace_char_app (old : ascii) (new a b : string) :
  str_replace_char old new (a ++ b)
  = (str_replace_char old new a ++ str_replace_char old new b)%string.
Proof.
  induction a as [|c a IH]; cbn [append str_replace_char]; [reflexivity|].
  rewrite IH. destruct (Ascii.eqb c old); cbn [append]; [|reflexivity].
  symmetry. apply append_assoc.
Qed.

(** A trailing "Z" is dropped before the text is parsed. *)
Lemma entry_time_trailing_Z (text : string) :
  entry_time (text ++ "Z") = entry_time text.
Proof.
  unfold entry_time. rewrite str_replace_char_app.
  cbn [str_replace_char Ascii.eqb Bool.eqb append].
  rewrite append_empty_r. reflexivity.
Qed.

(** A text timestamp that does not parse: the entry is skipped, in both
    loops, and the loop continues. *)
Lemma period_entry_malformed (start_time end_time : datetime) (entry : pyval)
    (v : period_vars) :
  malformed_timestamp entry ->
  period_entry start_time end_time entry v = (Ok tt, v).
Proof.
  intros (d & text & -> & Hts & Ht).
  unfold period_entry.
  cbv [bind ret Monad_St St_bind St_ret lift try_except py_get].
  rewrite Hts. cbn [truthy].
  destruct (negb (negb (text =? "")%string)); [reflexivity|].
  cbn [py_replace_Z]. unfold parse_iso.
  unfold entry_time in Ht. rewrite Ht. reflexivity.
Qed.

Lemma session_track_timestamp_malformed (entry : pyval) (v : session_vars) :
  malformed_timestamp entry ->
  session_track_timestamp entry v = (Ok tt, v).
Proof.
  intros (d & text & -> & Hts & Ht).
  unfold session_track_timestamp.
  cbv [bind ret Monad_St St_bind St_ret lift try_except py_get].
  rewrite Hts. cbn [truthy].
  destruct (negb (text =? "")%string); [|reflexivity].
  cbn [py_replace_Z]. unfold parse_iso.
  unfold entry_time in Ht. rewrite Ht. reflexivity.
Qed.

Lemma aggregate_logs_drop_malformed (start_time end_time : datetime)
    (before after : list pyval) (entry : pyval) (v : period_vars) :
  malformed_timestamp entry ->
  aggregate_logs start_time end_time (before ++ entry :: after) v
  = aggregate_logs start_time end_time (before ++ after) v.
Proof.
  intros Hbad. unfold aggregate_logs. revert v.
  induction before as [|x before IH]; intros v.
  - cbn [app]. rewrite for_each_cons, period_entry_malformed by exact Hbad. reflexivity.
  - cbn [app]. rewrite !for_each_cons.
    destruct (period_entry start_time end_time x v) as [[[]|e] v1]; [apply IH | reflexivity].
Qed.

(** A timestamp that is true but not text (a number, a list, ...): the
    call of [replace] raises [AttributeError], which the [except] clause
    of neither loop names. *)
Lemma period_entry_non_text_timestamp (start_time end_time : datetime)
    (d : dict) (ts : pyval) (v : period_vars) :
  dict_get d "timestamp" = Some ts -> truthy ts = true ->
  (forall text, ts <> PStr text) ->
  period_entry start_time end_time (PDict d) v = (Raise AttributeError, v).
Proof.
  intros Hts Htrue Hnot.
  unfold period_entry.
  cbv [bind ret Monad_St St_bind St_ret lift try_except py_get].
  rewrite Hts, Htrue. cbn [negb].
  destruct ts; try reflexivity. exfalso. eapply Hnot. reflexivity.
Qed.

Lemma session_track_non_text_timestamp (d : dict) (ts : pyval) (v : session_vars) :
  dict_get d "timestamp" = Some ts -> truthy ts = true ->
  (forall text, ts <> PStr text) ->
  session_track_timestamp (PDict d) v = (Raise AttributeError, v).
Proof.
  intros Hts Htrue Hnot.
  unfold session_track_timestamp.
  cbv [bind ret Monad_St St_bind St_ret lift try_except py_get].
  rewrite Hts, Htrue.
  destruct ts; try reflexivity. exfalso. eapply Hnot. reflexivity.
Qed.

(* ================================================================== *)
(** ** The window written into the period stats *)
(* ================================================================== *)

Lemma fill_period_stats_fields (stats : pyval) (period : string)
    (start_time end_time : datetime) (r : pyval) :
  fill_period_stats stats period start_time end_time = Ok r ->
  py_getitem r "period" = Ok (PStr period)
  /\ py_getitem r "start_time" = Ok (PStr (isoformat start_time))
  /\ py_getitem r "end_time" = Ok (PStr (isoformat end_time)).
Proof.
  unfold fill_period_stats.
  destruct stats as [| | | | | |d]; try discriminate.
  cbn [py_setitem py_get bind Monad_outcome outcome_bind].
  destruct (py_add _ _) as [total|e]; [|discriminate].
  cbn [outcome_bind].
  destruct (calculate_cost _ _) as [cost|e]; [|discriminate].
  cbn [outcome_bind]. intros [= <-]. cbn [py_getitem].
  repeat split.
  - rewrite !dict_get_set_other by discriminate.
    rewrite dict_get_set_same. reflexivity.
  - rewrite !dict_get_set_other by discriminate.
    rewrite dict_get_set_same. reflexivity.
  - rewrite !dict_get_set_other by discriminate.
    rewrite dict_get_set_same. reflexivity.
Qed.

Lemma period_from_stats_fields (command : list string) (period : string)
    (start_time end_time : datetime) (s s' : state) (r : pyval) :
  period_from_stats E command period start_time end_time s = (Ok (Some r), s') ->
  py_getitem r "period" = Ok (PStr period)
  /\ py_getitem r "start_time" = Ok (PStr (isoformat start_time))
  /\ py_getitem r "end_time" = Ok (PStr (isoformat end_time)).
Proof.
  unfold period_from_stats.
  cbv [bind ret Monad_St St_bind St_ret try_except lift].
  rewrite run_command_spec.
  destruct (env_run E (tick s) command) as [rc out err|e].
  - destruct (rc =? 0); [|discriminate].
    unfold loads. destruct (json_loads out) as [v|]; [|discriminate].
    destruct (fill_period_stats v period start_time end_time) as [r'|e] eqn:Hfill.
    + intros [= <- _]. eapply fill_period_stats_fields; eassumption.
    + destruct (is_JSONDecodeError e); discriminate.
  - destruct e; discriminate.
Qed.

(** Whatever path returns, the mapping carries the label and the window
    it was asked for. *)
Lemma period_stats_in_window_fields (period : string)
    (start_time end_time : datetime) (s s' : state) (r : pyval) :
  period_stats_in_window E period start_time end_time s = (Ok r, s') ->
  py_getitem r "period" = Ok (PStr period)
  /\ py_getitem r "start_time" = Ok (PStr (isoformat start_time))
  /\ py_getitem r "end_time" = Ok (PStr (isoformat end_time)).
Proof.
  unfold period_stats_in_window.
  cbv [bind ret Monad_St St_bind St_ret lift].
  destruct (if is_named_period period then _ else _) as [[[direct|]|e] s2] eqn:Hdirect;
    [| |discriminate].
  - intros [= <- _].
    destruct (is_named_period period); [|discriminate].
    eapply period_from_stats_fields; eassumption.
  - destruct (period_from_stats E _ period start_time end_time s2)
      as [[[ranged|]|e] s3] eqn:Hranged; [| |discriminate].
    + intros [= <- _]. eapply period_from_stats_fields; eassumption.
    + destruct (period_from_logs E period start_time end_time s3) as [[v|e] s4];
        [|discriminate].
      destruct (calculate_cost _ _) as [cost|e]; [|discriminate].
      destruct (py_add _ _) as [total|e]; [|discriminate].
      intros [= <- _]. repeat split.
Qed.

(** With both ends given, [get_time_period_stats] reads the clock once
    (the reading is not used) and runs the fallback chain on them. *)
Lemma get_time_period_stats_given (period : string) (start_time end_time : datetime)
    (s : state) :
  get_time_period_stats E period (Some start_time) (Some end_time) s
  = period_stats_in_window E period start_time end_time (next s).
Proof. reflexivity. Qed.

(* ================================================================== *)
(** ** main: the stats handed to the report *)
(* ================================================================== *)

(** C10.  With [--days 0] the program is the program without [--days]:
    [main] is the same computation, and the three period stats are those
    of the daily, weekly and monthly windows. *)
Theorem days_zero_is_days_absent (verbose : bool) :
  main E (mkargs verbose (Some 0)) = main E (mkargs verbose None)
  /\ collect_stats E (mkargs verbose (Some 0))
     = (current_stats <- get_current_session_stats E ;;
        periods <- (daily_stats <- get_time_period_stats E "daily" None None ;;
                    weekly_stats <- get_time_period_stats E "weekly" None None ;;
                    monthly_stats <- get_time_period_stats E "monthly" None None ;;
                    ret (daily_stats, weekly_stats, monthly_stats)) ;;
        ret (current_stats, periods)).
Proof. split; reflexivity. Qed.

(** The custom window, when it is reached. *)
Lemma custom_period_stats_run (days : Z) (s s' : state) (daily weekly monthly : pyval) :
  custom_period_stats E days s = (Ok (daily, weekly, monthly), s') ->
  let now := mkdatetime (env_now E (tick s)) None in
  exists start_time,
    Z.abs days <= 999999999
    /\ datetime_sub now (days * US_PER_DAY) = Ok start_time
    /\ daily = weekly /\ weekly = monthly
    /\ py_getitem daily "period" = Ok (PStr ("last " ++ str_of_int days ++ " days"))
    /\ py_getitem daily "start_time" = Ok (PStr (isoformat start_time))
    /\ py_getitem daily "end_time" = Ok (PStr (isoformat now)).
Proof.
  intros Hrun now. revert Hrun. unfold custom_period_stats.
  cbv [bind ret Monad_St St_bind St_ret lift datetime_now observe].
  fold now. unfold timedelta_days.
  destruct (Z.leb_spec (Z.abs days) 999999999) as [Hdays|]; [|discriminate].
  destruct (datetime_sub now (days * US_PER_DAY)) as [start_time|e] eqn:Hsub;
    [|discriminate].
  rewrite get_time_period_stats_given.
  destruct (period_stats_in_window E _ start_time now _) as [[r|e] s1] eqn:Hwin;
    [|discriminate].
  intros [= <- <- <- _].
  exists start_time.
  destruct (period_stats_in_window_fields _ _ _ _ _ _ Hwin) as (Hp & Hs & He).
  repeat split; assumption.
Qed.

(** C7, as amended.  With [--days N] and N not 0, the three period stats
    handed to the report are one and the same mapping; its period label is
    "last N days", its start_time is the clock reading of [main] minus N
    days and its end_time is that reading.  And the report is reached: when
    every call of the external tool fails and the window is representable,
    the four stats are returned, the three period stats being the
    zero-valued stats of that window. *)
Theorem days_window_reaches_report (verbose : bool) (days : Z) (s : state) :
  days <> 0 ->
  (forall current daily weekly monthly s',
      collect_stats E (mkargs verbose (Some days)) s
      = (Ok (current, (daily, weekly, monthly)), s') ->
      exists s1 start_time,
        get_current_session_stats E s = (Ok current, s1)
        /\ datetime_sub (mkdatetime (env_now E (tick s1)) None) (days * US_PER_DAY)
           = Ok start_time
        /\ daily = weekly /\ weekly = monthly
        /\ py_getitem daily "period" = Ok (PStr ("last " ++ str_of_int days ++ " days"))
        /\ py_getitem daily "start_time" = Ok (PStr (isoformat start_time))
        /\ py_getitem daily "end_time"
           = Ok (PStr (isoformat (mkdatetime (env_now E (tick s1)) None))))
  /\ ((forall n command, reply_unusable (env_run E n command)) ->
      US_PER_HOUR <= env_now E (S (S (tick s))) < DATETIME_END_US + US_PER_HOUR ->
      Z.abs days <= 999999999 ->
      0 <= env_now E (S (S (S (tick s)))) - days * US_PER_DAY < DATETIME_END_US ->
      let now := mkdatetime (env_now E (S (S (S (tick s))))) None in
      let start_time := mkdatetime (env_now E (S (S (S (tick s)))) - days * US_PER_DAY) None in
      let stats := zero_period_stats ("last " ++ str_of_int days ++ " days") start_time now in
      exists current s',
        collect_stats E (mkargs verbose (Some days)) s
        = (Ok (current, (stats, stats, stats)), s')).
Proof.
  intros Hdays. split.
  - intros current daily weekly monthly s'.
    unfold collect_stats. cbn [arg_days].
    destruct (Z.eqb_spec days 0) as [|_]; [contradiction|].
    cbv [bind ret Monad_St St_bind St_ret].
    destruct (get_current_session_stats E s) as [[c|e] s1] eqn:Hsession; [|discriminate].
    destruct (custom_period_stats E days s1) as [[[[d w] m]|e] s2] eqn:Hcustom;
      [|discriminate].
    intros [= <- <- <- <- _].
    destruct (custom_period_stats_run _ _ _ _ _ _ Hcustom)
      as (start_time & _ & Hsub & Hdw & Hwm & Hp & Hs & He).
    exists s1, start_time. repeat split; assumption.
  - intros Hfail Hhour Hmag Hrange now start_time stats.
    unfold collect_stats. cbn [arg_days].
    destruct (Z.eqb_spec days 0) as [|_]; [contradiction|].
    cbv [bind ret Monad_St St_bind St_ret].
    destruct (get_current_session_stats_unusable Hfail s Hhour) as (out & ->).
    unfold custom_period_stats.
    cbv [bind ret Monad_St St_bind St_ret lift datetime_now observe].
    cbn [tick printed]. fold now. unfold timedelta_days.
    replace (Z.abs days <=? 999999999) with true by (symmetry; apply Z.leb_le; exact Hmag).
    rewrite datetime_sub_in_range by exact Hrange.
    cbn [dt_us dt_tz now]. fold start_time.
    rewrite get_time_period_stats_given.
    destruct (period_stats_in_window_unusable Hfail
                ("last " ++ str_of_int days ++ " days") start_time now
                (next (mkstate (S (S (S (S (tick s))))) (printed s ++ out))))
      as (s2 & ->).
    eexists _, _. reflexivity.
Qed.

(* ================================================================== *)
(** ** main: the configuration shown in verbose mode *)
(* ================================================================== *)

(** [get_claude_version] makes one observation and prints nothing. *)
Lemma get_claude_version_state (s s' : state) (r : outcome string) :
  get_claude_version E s = (r, s') -> s' = next s.
Proof.
  unfold get_claude_version.
  cbv [bind ret Monad_St St_bind St_ret].
  rewrite run_command_spec.
  destruct (match env_run E (tick s) _ with
            | Completed _ _ _ => _
            | RunRaised _ => _
            end) as [[cmd [|]]|e]; intros [= _ <-]; reflexivity.
Qed.

(** C9, as amended.  In verbose mode, after the report, the value of
    the top-level [api_key] field of the configuration, and of no other
    field, is replaced by "********" before the configuration is
    printed: the mapping given to [json.dumps] has "********" under
    [api_key] when the configuration has that key, every other field has
    the value read from the file, and that text is the last line [main]
    prints; a config {"api_key": "secret"} is shown as
    {"api_key": "********"}. *)
Theorem verbose_masks_top_level_api_key_only (a : args) (s s0 s1 : state) (d : dict) :
  arg_verbose a = true ->
  (exists current daily weekly monthly sr,
      collect_stats E a s = (Ok (current, (daily, weekly, monthly)), sr)
      /\ print_usage_report E current daily weekly monthly sr = (Ok tt, s0)) ->
  get_claude_config E s0 = (Ok (PDict d), s1) ->
  let shown := if dict_has d "api_key"
               then dict_set d "api_key" (PStr "********") else d in
  redacted_config E s0 = (Ok (PDict shown), s1)
  /\ (dict_has d "api_key" = true -> dict_get shown "api_key" = Some (PStr "********"))
  /\ (forall k, k <> "api_key" -> dict_get shown k = dict_get d k)
  /\ (forall version s2,
         get_claude_version E (mkstate (tick s1) (printed s1 ++ ["Claude Information:"]))
         = (Ok version, s2) ->
         main E a s
         = (Ok tt,
            mkstate (tick s2)
              (printed s1 ++ ["Claude Information:"; "Version: " ++ version;
                              "Configuration:"; json_dumps_indent2 (PDict shown)])))
  /\ (d = [("api_key", PStr "secret")] -> shown = [("api_key", PStr "********")]).
Proof.
  intros Hverbose (current & daily & weekly & monthly & sr & Hcollect & Hreport)
         Hconfig shown.
  assert (Hred : redacted_config E s0 = (Ok (PDict shown), s1)).
  { unfold redacted_config.
    cbv [bind ret Monad_St St_bind St_ret lift].
    rewrite Hconfig. cbn [py_contains]. unfold shown.
    destruct (dict_has d "api_key"); reflexivity. }
  split; [exact Hred|].
  split.
  { intros Hkey. unfold shown. rewrite Hkey. apply dict_get_set_same. }
  split.
  { intros k Hk. unfold shown. destruct (dict_has d "api_key"); [|reflexivity].
    apply dict_get_set_other. congruence. }
  split.
  - intros version s2 Hversion.
    pose proof (get_claude_version_state _ _ _ Hversion) as Hs2.
    unfold main.
    cbv [bind ret Monad_St St_bind St_ret].
    rewrite Hcollect, Hreport, Hverbose.
    unfold verbose_info.
    cbv [bind ret Monad_St St_bind St_ret print].
    rewrite Hred. cbn [tick printed]. rewrite Hversion.
    subst s2. cbn [next tick printed].
    rewrite <- !app_assoc. reflexivity.
  - intros Hd. unfold shown. rewrite Hd. reflexivity.
Qed.
End Fetchers.
(** C2: the claim is not met by the code.  When the executable is not
    installed, [subprocess.run] raises [FileNotFoundError]; [run_command]
    catches [CalledProcessError] only, so the exception crosses its
    boundary instead of becoming an error text and a false flag. *)
Theorem run_command_raises_when_not_installed :
  run_command Sample.env_not_installed ["claude"; "--version"] initial_state
  = (Raise FileNotFoundError, mkstate 1 []).
Proof. reflexivity. Qed.

(** C1: the claim is not met by the code.  When [claude stats --format
    json] succeeds, [get_current_session_stats] returns the decoded reply
    as it is: a reply with input_tokens = 10, output_tokens = 5 and
    total_tokens = 99 comes back with total_tokens = 99, not 15. *)
Theorem session_stats_total_not_recomputed :
  get_current_session_stats Sample.env_stats_reply initial_state
  = (Ok Sample.stats_value, mkstate 1 [])
  /\ py_getitem Sample.stats_value "input_tokens" = Ok (PInt 10)
  /\ py_getitem Sample.stats_value "output_tokens" = Ok (PInt 5)
  /\ py_getitem Sample.stats_value "total_tokens" = Ok (PInt 99)
  /\ py_add (PInt 10) (PInt 5) = Ok (PInt 15)
  /\ ~ total_is_sum Sample.stats_value.
Proof.
  repeat split; try (vm_compute; reflexivity).
  intros (d & total & Hd & Htotal & Hsum).
  injection Hd as <-. vm_compute in Htotal, Hsum. congruence.
Qed.

(** C8: the claim is not met by the code.  A log listing whose first
    entry has the numeric timestamp 1700000000: in
    [get_time_period_stats] the [AttributeError] of
    [timestamp.replace] leaves the function; in
    [get_current_session_stats] it ends the aggregation, and the counts
    of both entries are lost to the zero-valued stats. *)
Theorem numeric_timestamp_aborts_aggregation :
  get_time_period_stats (Sample.env_logs_reply Sample.epoch_logs_text)
    "daily" None None initial_state
  = (Raise AttributeError, mkstate 4 [])
  /\ get_current_session_stats (Sample.env_logs_reply Sample.epoch_logs_text)
       initial_state
     = (Ok (zero_session_stats (Sample.at_time 2026 11 4 11 0 2)),
        mkstate 3 ["Error processing logs"]).
Proof. split; vm_compute; reflexivity. Qed.

(** C3 as stated fails for the session: with every call failing, the
    mapping returned by [get_current_session_stats] holds a single
    timestamp, [session_start]; there is no pair. *)
Lemma session_zero_stats_no_pair :
  get_current_session_stats Sample.env_failing initial_state
  = (Ok (PDict [("input_tokens", PInt 0); ("output_tokens", PInt 0);
                ("total_tokens", PInt 0);
                ("session_start", PStr "2026-11-04T11:00:02")]),
     mkstate 3 [])
  /\ ~ has_timestamp_pair
         (PDict [("input_tokens", PInt 0); ("output_tokens", PInt 0);
                 ("total_tokens", PInt 0);
                 ("session_start", PStr "2026-11-04T11:00:02")]).
Proof.
  split; [vm_compute; reflexivity|].
  change (PStr "2026-11-04T11:00:02")
    with (PStr (isoformat (Sample.at_time 2026 11 4 11 0 2))).
  apply (zero_session_stats_single_timestamp (Sample.at_time 2026 11 4 11 0 2)).
Qed.

(* ================================================================== *)
(** ** Evaluations on concrete worlds *)
(* ================================================================== *)

(** In the world where every call exits with status 1, every reply is
    unusable. *)
Lemma env_failing_unusable (n : nat) (command : list string) :
  reply_unusable (env_run Sample.env_failing n command).
Proof. left. discriminate. Defined.

(** Witness of C3: the world where every call exits with status 1, at
    noon on 2026-11-04. *)
Lemma zero_stats_when_every_call_fails_witness :
  (exists st s',
      default_start_time "weekly" (mkdatetime (Sample.clock 0) None) = Ok st
      /\ get_time_period_stats Sample.env_failing "weekly" None None initial_state
         = (Ok (zero_period_stats "weekly" st (mkdatetime (Sample.clock 0) None)), s'))
  /\ (exists s',
         get_current_session_stats Sample.env_failing initial_state
         = (Ok (zero_session_stats (mkdatetime (Sample.clock 2 - US_PER_HOUR) None)), s')).
Proof.
  pose proof (zero_stats_when_every_call_fails Sample.env_failing env_failing_unusable)
    as [Hperiod Hsession].
  split.
  - apply (Hperiod "weekly" None None initial_state).
    vm_compute. split; [discriminate | reflexivity].
  - destruct (Hsession initial_state) as (s' & H & _).
    + vm_compute. split; [discriminate | reflexivity].
    + exists s'. exact H.
Defined.

(** Witness of C4: a window from midnight to noon on 2026-11-04, an
    entry at 10:00 that day (counted) and an entry at 23:00 the day
    before (left out). *)
Lemma aggregation_respects_window_witness :
  let start_time := Sample.at_time 2026 11 4 0 0 0 in
  let end_time := Sample.at_time 2026 11 4 12 0 0 in
  let inside := PDict [("timestamp", PStr "2026-11-04T10:00:00Z");
                       ("tokens", Sample.tokens 3 4)] in
  let outside := PDict [("timestamp", PStr "2026-11-03T23:00:00Z");
                        ("tokens", Sample.tokens 100 200)] in
  (exists d text t,
      inside = PDict d
      /\ dict_get d "timestamp" = Some (PStr text)
      /\ entry_time text = Some t
      /\ in_window start_time end_time t
      /\ (dt_tz start_time = None -> dt_tz end_time = None ->
          dt_tz t = None /\ dt_us start_time <= dt_us t <= dt_us end_time))
  /\ period_entry start_time end_time outside period_vars_init = (Ok tt, period_vars_init)
  /\ aggregate_logs start_time end_time ([inside] ++ outside :: [inside]) period_vars_init
     = aggregate_logs start_time end_time ([inside] ++ [inside]) period_vars_init.
Proof.
  intros start_time end_time inside outside.
  assert (Hout : outside_window start_time end_time outside).
  { exists [("timestamp", PStr "2026-11-03T23:00:00Z"); ("tokens", Sample.tokens 100 200)],
      "2026-11-03T23:00:00Z", (Sample.at_time 2026 11 3 23 0 0).
    repeat split; try (vm_compute; reflexivity).
    left. vm_compute. reflexivity. }
  pose proof (aggregation_respects_window start_time end_time) as [Hin [Hskip Hdrop]].
  split; [|split].
  - apply (Hin inside period_vars_init (mkperiod (PInt 3) (PInt 4)) (Ok tt)).
    + vm_compute. reflexivity.
    + discriminate.
  - apply Hskip. exact Hout.
  - apply Hdrop. exact Hout.
Defined.

(** Witness of C7: [--days 7] in the world where every call exits with
    status 1. *)
Lemma days_window_reaches_report_witness :
  let now := mkdatetime (Sample.clock 3) None in
  let start_time := mkdatetime (Sample.clock 3 - 7 * US_PER_DAY) None in
  let stats := zero_period_stats "last 7 days" start_time now in
  exists current s',
    collect_stats Sample.env_failing (mkargs false (Some 7)) initial_state
    = (Ok (current, (stats, stats, stats)), s').
Proof.
  assert (Hdays : 7 <> 0) by discriminate.
  apply (proj2 (days_window_reaches_report Sample.env_failing false 7 initial_state Hdays)).
  - exact env_failing_unusable.
  - vm_compute. split; [discriminate | reflexivity].
  - vm_compute. discriminate.
  - vm_compute. split; [discriminate | reflexivity].
Defined.

(** C7 as stated fails at N = 0: with [--days 0] the report receives
    three different mappings, for the daily, weekly and monthly windows,
    none of them a window of zero days ending now. *)
Lemma days_zero_three_windows :
  fst (collect_stats Sample.env_failing (mkargs false (Some 0)) initial_state)
  = Ok (zero_session_stats (Sample.at_time 2026 11 4 11 0 2),
        (zero_period_stats "daily" (Sample.at_time 2026 11 4 0 0 0)
                                   (Sample.at_time 2026 11 4 12 0 3),
         zero_period_stats "weekly" (Sample.at_time 2026 11 2 0 0 0)
                                    (Sample.at_time 2026 11 4 12 0 7),
         zero_period_stats "monthly" (Sample.at_time 2026 11 1 0 0 0)
                                     (Sample.at_time 2026 11 4 12 0 11)))
  /\ zero_period_stats "daily" (Sample.at_time 2026 11 4 0 0 0)
                               (Sample.at_time 2026 11 4 12 0 3)
     <> zero_period_stats "weekly" (Sample.at_time 2026 11 2 0 0 0)
                                   (Sample.at_time 2026 11 4 12 0 7).
Proof. split; [vm_compute; reflexivity | vm_compute; discriminate]. Qed.

(** Witness of C9: [~/.claude/config.json] holds
    {"api_key": "secret"}; every stats and logs call fails. *)
Lemma verbose_masks_top_level_api_key_only_witness :
  fst (main Sample.env_with_config (mkargs true None) initial_state) = Ok tt
  /\ last (printed (snd (main Sample.env_with_config (mkargs true None) initial_state))) ""
     = json_dumps_indent2 (PDict [("api_key", PStr "********")]).
Proof.
  let c := eval vm_compute in
             (collect_stats Sample.env_with_config (mkargs true None) initial_state) in
  match c with
  | (Ok (?current, (?daily, ?weekly, ?monthly)), ?sr) =>
      let r := eval vm_compute in
                 (print_usage_report Sample.env_with_config
                    current daily weekly monthly sr) in
      match r with
      | (_, ?s0) =>
          let g := eval vm_compute in (get_claude_config Sample.env_with_config s0) in
          match g with
          | (_, ?s1) =>
              destruct (verbose_masks_top_level_api_key_only Sample.env_with_config
                          (mkargs true None) initial_state s0 s1
                          [("api_key", PStr "secret")])
                as (_ & _ & _ & Hmain & _);
              [ reflexivity
              | exists current, daily, weekly, monthly, sr; split; vm_compute; reflexivity
              | vm_compute; reflexivity
              | ]
          end
      end
  end.
  rewrite (Hmain "1.0.0" _ ltac:(vm_compute; reflexivity)).
  split; [reflexivity | vm_compute; reflexivity].
Defined.

(** C9 as stated fails: a configuration whose secrets are stored under
    other names than a top-level [api_key] ([password], [api_secret],
    [API_KEY], an [api_key] inside another field) is printed by the
    verbose mode of [main] with every one of them in clear. *)
Lemma verbose_shows_other_secrets :
  let E := More.env_first_config More.secrets_config_text in
  let run := main (lib := More.more_lib) E (mkargs true None) initial_state in
  let shown := last (printed (snd run)) "" in
  fst run = Ok tt
  /\ redacted_config (lib := More.more_lib) E initial_state
     = (Ok More.secrets_config_value, mkstate 2 [])
  /\ shown = json_dumps_indent2 (PyLib := More.more_lib) More.secrets_config_value
  /\ str_contains "hunter2" shown = true
  /\ str_contains "s3cr3t" shown = true
  /\ str_contains "k-123" shown = true
  /\ str_contains "nested" shown = true
  /\ str_contains "********" shown = false.
Proof. repeat split; vm_compute; reflexivity. Qed.

(** The whole of the verbose tail on that world. *)
Example verbose_info_run :
  verbose_info Sample.env_with_config initial_state
  = (Ok tt,
     mkstate 4 ["Claude Information:"; "Version: 1.0.0"; "Configuration:";
                json_dumps_indent2 (PDict [("api_key", PStr "********")])]).
Proof. vm_compute. reflexivity. Qed.

(** The two rates as binary64 values: 0.03 is 0x1.eb851eb851eb8p-6 and
    0.15 is 0x1.3333333333333p-3. *)
Example rates_binary64 :
  COST_PER_1K_INPUT_TOKENS = S754_finite false 8646911284551352 (-58)
  /\ COST_PER_1K_OUTPUT_TOKENS = S754_finite false 5404319552844595 (-55).
Proof. split; vm_compute; reflexivity. Qed.

(** The log fallback at work: of three entries, the one at 10:00 today
    is counted, the one at 23:00 yesterday and the one whose timestamp
    reads "yesterday" are skipped. *)
Example daily_stats_from_logs :
  fst (get_time_period_stats (Sample.env_logs_reply Sample.day_logs_text)
         "daily" None None initial_state)
  = Ok (PDict [("period", PStr "daily");
               ("input_tokens", PInt 3);
               ("output_tokens", PInt 4);
               ("total_tokens", PInt 7);
               ("cost", PFloat (S754_finite false 6364126705429795 (-63)));
               ("start_time", PStr "2026-11-04T00:00:00");
               ("end_time", PStr "2026-11-04T12:00:00")]).
Proof. vm_compute. reflexivity. Qed.

(** The session fetcher does not filter by window: the same listing
    gives the sum of all three entries. *)
Example session_stats_from_logs :
  fst (get_current_session_stats (Sample.env_logs_reply Sample.day_logs_text)
         initial_state)
  = Ok (PDict [("input_tokens", PInt 1103);
               ("output_tokens", PInt 2204);
               ("total_tokens", PInt 3307);
               ("session_start", PStr "2026-11-03T23:00:00")]).
Proof. vm_compute. reflexivity. Qed.

(** [--days 800000] reaches before year 1: the subtraction raises and no
    report is printed. *)
Example days_out_of_range :
  fst (main Sample.env_failing (mkargs false (Some 800000)) initial_state)
  = Raise OverflowError.
Proof. vm_compute. reflexivity. Qed.

(* ================================================================== *)
(** * Further properties *)
(* ================================================================== *)

Section Coverage.

Context {lib : PyLib}.
Variable E : env.

(** ** run_command, get_claude_version *)

(** X1.  When [run_command] returns, it has made one observation and
    printed nothing; the flag is True exactly when the child exited with
    status 0, the text then being its standard output; and a False flag
    comes with a text that starts with "Error: ". *)
Theorem run_command_flag (command : list string) (s s' : state)
    (text : string) (ok : bool) :
  run_command E command s = (Ok (text, ok), s') ->
  s' = next s
  /\ (ok = true <-> exists err, env_run E (tick s) command = Completed 0 text err)
  /\ (ok = false -> exists err, text = "Error: " ++ err).
Proof.
  rewrite run_command_spec.
  destruct (env_run E (tick s) command) as [rc out err|e] eqn:Hrun.
  - destruct (Z.eqb_spec rc 0) as [->|Hrc]; intros [= <- <- <-].
    + split; [reflexivity|]. split; [|discriminate].
      split; [intros _; exists err; reflexivity | reflexivity].
    + split; [reflexivity|]. split; [|intros _; exists err; reflexivity].
      split; [discriminate|]. intros [err' [= Hrc' _ _]]. contradiction.
  - destruct e; try discriminate. intros [= <- <- <-].
    split; [reflexivity|]. split; [|intros _; eexists; reflexivity].
    split; [discriminate | intros [err' H]; discriminate].
Qed.

(** X2.  [get_claude_version] returns the stripped standard output when
    [claude --version] exits with status 0 and "Unknown" when it exits
    with any other status; an exception of the call other than
    [CalledProcessError] leaves the function instead of giving
    "Unknown". *)
Theorem get_claude_version_spec (s : state) :
  (forall rc out err,
      env_run E (tick s) ["claude"; "--version"] = Completed rc out err ->
      get_claude_version E s
      = (Ok (if rc =? 0 then str_strip out else "Unknown"), next s))
  /\ (forall e,
         env_run E (tick s) ["claude"; "--version"] = RunRaised e ->
         is_CalledProcessError e = false ->
         get_claude_version E s = (Raise e, next s)).
Proof.
  split.
  - intros rc out err Hrun. unfold get_claude_version.
    cbv [bind ret Monad_St St_bind St_ret].
    rewrite run_command_spec, Hrun.
    destruct (rc =? 0); reflexivity.
  - intros e Hrun He. unfold get_claude_version.
    cbv [bind ret Monad_St St_bind St_ret].
    rewrite run_command_spec, Hrun.
    destruct e; try reflexivity; discriminate.
Qed.

(** ** get_claude_config *)

Lemma read_first_config_returns (paths : list string) (s : state) :
  exists found s',
    read_first_config E paths s = (Ok found, s')
    /\ match found with
       | Some v =>
           exists path n text,
             In path paths /\ env_exists E (pred n) path = true
             /\ env_read E n path = Ok text /\ json_loads text = Some v
       | None => True
       end.
Proof.
  revert s. induction paths as [|path rest IH]; intros s.
  - exists None, s. split; [reflexivity | exact I].
  - cbn [read_first_config].
    cbv [bind ret Monad_St St_bind St_ret observe try_except lift print is_Exception].
    cbn [tick printed].
    destruct (env_exists E (tick s) path) eqn:Hex; cbn [tick printed].
    + destruct (env_read E (S (tick s)) path) as [text|e] eqn:Hread; cbn [tick printed].
      * unfold loads. destruct (json_loads text) as [v|] eqn:Hv; cbn [tick printed].
        -- eexists (Some v), _. split; [reflexivity|].
           exists path, (S (tick s)), text. cbn [pred]. auto using in_eq.
        -- destruct (IH (mkstate (S (S (tick s)))
                           (printed s ++ ["Error reading Claude config at " ++ path])))
             as (found & s' & Hrun & Hfound).
           exists found, s'. split; [exact Hrun|].
           destruct found as [v|]; [|exact I].
           destruct Hfound as (p & n & t & Hin & H1 & H2 & H3).
           exists p, n, t. auto using in_cons.
      * destruct (IH (mkstate (S (S (tick s)))
                        (printed s ++ ["Error reading Claude config at " ++ path])))
          as (found & s' & Hrun & Hfound).
        exists found, s'. split; [exact Hrun|].
        destruct found as [v|]; [|exact I].
        destruct Hfound as (p & n & t & Hin & H1 & H2 & H3).
        exists p, n, t. auto using in_cons.
    + destruct (IH (mkstate (S (tick s)) (printed s))) as (found & s' & Hrun & Hfound).
      exists found, s'. split; [exact Hrun|].
      destruct found as [v|]; [|exact I].
      destruct Hfound as (p & n & t & Hin & H1 & H2 & H3).
      exists p, n, t. auto using in_cons.
Qed.

(** X3.  [get_claude_config] never raises, whatever the file system
    does; what it returns is the empty mapping or the decoded content of
    one of the two candidate files, a file that was seen to exist. *)
Theorem get_claude_config_never_raises (s : state) :
  exists config s',
    get_claude_config E s = (Ok config, s')
    /\ (config = PDict []
        \/ exists path n text,
             In path config_paths /\ env_exists E (pred n) path = true
             /\ env_read E n path = Ok text /\ json_loads text = Some config).
Proof.
  unfold get_claude_config.
  cbv [bind ret Monad_St St_bind St_ret].
  destruct (read_first_config_returns config_paths s) as (found & s' & -> & Hfound).
  destruct found as [v|].
  - exists v, s'. split; [reflexivity | right; exact Hfound].
  - eexists (PDict []), _. split; [reflexivity | left; reflexivity].
Qed.

(** X4.  When neither candidate file exists, [get_claude_config] prints
    "Claude config not found" and returns the empty mapping, after
    looking at both paths and reading none. *)
Theorem get_claude_config_not_found (s : state) :
  (forall n path, env_exists E n path = false) ->
  get_claude_config E s
  = (Ok (PDict []),
     mkstate (S (S (tick s))) (printed s ++ ["Claude config not found"])).
Proof.
  intros Habsent. unfold get_claude_config, config_paths.
  cbn [read_first_config].
  cbv [bind ret Monad_St St_bind St_ret observe print].
  cbn [tick printed]. rewrite Habsent. cbn [tick printed]. rewrite Habsent. reflexivity.
Qed.

(** X5.  The candidate files are tried in order.  If the first exists
    and decodes, its content is returned and the second is not looked
    at; if the first exists but cannot be read or decoded, an error line
    is printed and the second, when it exists and decodes, is returned. *)
Theorem get_claude_config_order (s : state) (text : string) (v : pyval) :
  let first := expanduser "~/.config/claude/config.json" in
  let second := expanduser "~/.claude/config.json" in
  json_loads text = Some v ->
  (env_exists E (tick s) first = true ->
   env_read E (S (tick s)) first = Ok text ->
   get_claude_config E s = (Ok v, mkstate (S (S (tick s))) (printed s)))
  /\ (env_exists E (tick s) first = true ->
      match env_read E (S (tick s)) first with
      | Ok bad => json_loads bad = None
      | Raise _ => True
      end ->
      env_exists E (S (S (tick s))) second = true ->
      env_read E (S (S (S (tick s)))) second = Ok text ->
      get_claude_config E s
      = (Ok v, mkstate (S (S (S (S (tick s)))))
                 (printed s ++ ["Error reading Claude config at " ++ first]))).
Proof.
  intros first second Hv. split.
  - intros Hex Hread. unfold get_claude_config, config_paths.
    cbn [read_first_config].
    cbv [bind ret Monad_St St_bind St_ret observe try_except lift print is_Exception].
    cbn [tick printed]. fold first. rewrite Hex. cbn [tick printed]. rewrite Hread.
    unfold loads. rewrite Hv. reflexivity.
  - intros Hex Hbad Hex2 Hread2. unfold get_claude_config, config_paths.
    cbn [read_first_config].
    cbv [bind ret Monad_St St_bind St_ret observe try_except lift print is_Exception].
    cbn [tick printed]. fold first. fold second. rewrite Hex. cbn [tick printed].
    destruct (env_read E (S (tick s)) first) as [bad|e].
    + unfold loads at 1. rewrite Hbad. cbn [tick printed].
      rewrite Hex2. cbn [tick printed]. rewrite Hread2.
      unfold loads. rewrite Hv. reflexivity.
    + cbn [tick printed]. rewrite Hex2. cbn [tick printed]. rewrite Hread2.
      unfold loads. rewrite Hv. reflexivity.
Qed.

End Coverage.

(* ================================================================== *)
(** ** Structured replies *)
(* ================================================================== *)

Section Replies.

Context {lib : PyLib}.
Variable E : env.

Lemma dict_set_absent (d : dict) (k : string) (v : pyval) :
  dict_get d k = None -> dict_set d k v = (d ++ [(k, v)])%list.
Proof.
  induction d as [|[k' v'] d IH]; cbn [dict_get dict_set app]; [reflexivity|].
  destruct (k' =? k)%string; [discriminate|].
  intros H. rewrite (IH H). reflexivity.
Qed.

Lemma dict_has_false (d : dict) (k : string) :
  dict_has d k = false -> dict_get d k = None.
Proof. unfold dict_has. destruct (dict_get d k); [discriminate | reflexivity]. Qed.

(** X6.  When [claude stats --format json] succeeds with a JSON object,
    [get_current_session_stats] returns that object after this one
    call, without reading the logs: unchanged when it has a
    [session_start]; otherwise with [session_start], the clock reading
    minus one hour, added as its last field and every other field as it
    was. *)
Theorem session_stats_reply_returned (s : state) (out err : string) (d : dict) :
  env_run E (tick s) ["claude"; "stats"; "--format"; "json"] = Completed 0 out err ->
  json_loads out = Some (PDict d) ->
  (dict_has d "session_start" = true ->
   get_current_session_stats E s = (Ok (PDict d), next s))
  /\ (dict_has d "session_start" = false ->
      US_PER_HOUR <= env_now E (S (tick s)) < DATETIME_END_US + US_PER_HOUR ->
      let start := mkdatetime (env_now E (S (tick s)) - US_PER_HOUR) None in
      get_current_session_stats E s
      = (Ok (PDict (d ++ [("session_start", PStr (isoformat start))])),
         next (next s))).
Proof.
  intros Hrun Hv. split.
  - intros Hhas. unfold get_current_session_stats, session_from_stats.
    cbv [bind ret Monad_St St_bind St_ret lift try_except].
    rewrite run_command_spec, Hrun. cbn [Z.eqb].
    unfold loads. rewrite Hv. cbn [py_contains]. rewrite Hhas. reflexivity.
  - intros Hhas Hclock start.
    unfold get_current_session_stats, session_from_stats.
    cbv [bind ret Monad_St St_bind St_ret lift try_except datetime_now observe].
    rewrite run_command_spec, Hrun. cbn [Z.eqb].
    unfold loads. rewrite Hv. cbn [py_contains]. rewrite Hhas.
    cbn [next tick printed].
    rewrite datetime_sub_in_range by (cbn [dt_us]; unfold timedelta_one_hour; lia).
    cbn [py_setitem dt_us dt_tz]. fold start.
    rewrite dict_set_absent by (apply dict_has_false; exact Hhas).
    reflexivity.
Qed.

(** X7.  When [claude stats --format json] succeeds with JSON that is
    not an object and does not contain [session_start] (a number, null,
    a list of entries), [get_current_session_stats] raises [TypeError]:
    the logs are not consulted and no zero-valued stats are returned. *)
Theorem session_stats_reply_not_mapping (s : state) (out err : string) (v : pyval) :
  env_run E (tick s) ["claude"; "stats"; "--format"; "json"] = Completed 0 out err ->
  json_loads out = Some v ->
  (forall d, v <> PDict d) ->
  py_contains "session_start" v <> Ok true ->
  US_PER_HOUR <= env_now E (S (tick s)) < DATETIME_END_US + US_PER_HOUR ->
  exists s',
    get_current_session_stats E s = (Raise TypeError, s')
    /\ printed s' = printed s.
Proof.
  intros Hrun Hv Hnot Hstart Hclock.
  unfold get_current_session_stats, session_from_stats.
  cbv [bind ret Monad_St St_bind St_ret lift try_except datetime_now observe].
  rewrite run_command_spec, Hrun. cbn [Z.eqb].
  unfold loads. rewrite Hv.
  destruct (py_contains "session_start" v) as [[|]|e] eqn:Hc.
  - contradiction.
  - unfold next. cbn [tick printed].
    rewrite datetime_sub_in_range by (cbn [dt_us]; unfold timedelta_one_hour; lia).
    destruct v; try (eexists; split; reflexivity).
    exfalso. eapply Hnot. reflexivity.
  - destruct v; cbn [py_contains] in Hc; try discriminate;
      injection Hc as <-; eexists; split; reflexivity.
Qed.

(* ------------------------------------------------------------------ *)
(** *** get_time_period_stats *)

Lemma fill_period_stats_not_mapping (stats : pyval) (period : string)
    (start_time end_time : datetime) :
  (forall d, stats <> PDict d) ->
  fill_period_stats stats period start_time end_time = Raise TypeError.
Proof.
  intros Hnot. destruct stats; try reflexivity.
  exfalso. eapply Hnot. reflexivity.
Qed.

(** X8.  When the first structured stats query of
    [get_time_period_stats] (the [--period] query for daily, weekly and
    monthly, the [--from]/[--to] query for any other label) succeeds
    with JSON that is not an object, the function raises [TypeError]
    from the first field assignment after this one call: the later
    query and the logs are not tried, and nothing is printed. *)
Theorem period_stats_reply_not_mapping (period : string)
    (start_time end_time : datetime) (s : state) (out err : string) (v : pyval) :
  env_run E (tick s)
    (if is_named_period period
     then ["claude"; "stats"; "--period"; period; "--format"; "json"]
     else ["claude"; "stats"; "--from"; strftime_date start_time;
           "--to"; strftime_date end_time; "--format"; "json"])
  = Completed 0 out err ->
  json_loads out = Some v ->
  (forall d, v <> PDict d) ->
  period_stats_in_window E period start_time end_time s = (Raise TypeError, next s).
Proof.
  intros Hrun Hv Hnot.
  unfold period_stats_in_window, period_from_stats.
  cbv [bind ret Monad_St St_bind St_ret lift try_except].
  destruct (is_named_period period).
  - rewrite run_command_spec, Hrun. cbn [Z.eqb].
    unfold loads. rewrite Hv.
    rewrite fill_period_stats_not_mapping by exact Hnot. reflexivity.
  - rewrite run_command_spec, Hrun. cbn [Z.eqb].
    unfold loads. rewrite Hv.
    rewrite fill_period_stats_not_mapping by exact Hnot. reflexivity.
Qed.

(** The fields written over a decoded reply, one by one. *)
Lemma fill_period_stats_mapping (d : dict) (period : string)
    (start_time end_time : datetime) :
  let d3 := dict_set (dict_set (dict_set d "period" (PStr period))
                         "start_time" (PStr (isoformat start_time)))
                     "end_time" (PStr (isoformat end_time)) in
  fill_period_stats (PDict d) period start_time end_time
  = match py_add (get0 d "input_tokens") (get0 d "output_tokens") with
    | Ok total =>
        match calculate_cost (get0 d "input_tokens") (get0 d "output_tokens") with
        | Ok cost =>
            Ok (PDict (dict_set (dict_set d3 "total_tokens" total) "cost" (PFloat cost)))
        | Raise e => Raise e
        end
    | Raise e => Raise e
    end.
Proof.
  intros d3. unfold fill_period_stats.
  cbn [py_setitem py_get bind Monad_outcome outcome_bind].
  fold d3. fold (get0 d3 "input_tokens"). fold (get0 d3 "output_tokens").
  fold (get0 (dict_set d3 "total_tokens"
                (match py_add (get0 d3 "input_tokens") (get0 d3 "output_tokens") with
                 | Ok t => t | Raise _ => PNone end)) "input_tokens").
  unfold d3. rewrite !get0_set_other by discriminate.
  destruct (py_add (get0 d "input_tokens") (get0 d "output_tokens")) as [total|e];
    [|reflexivity].
  cbn [outcome_bind].
  fold (get0 (dict_set
                (dict_set (dict_set (dict_set d "period" (PStr period))
                             "start_time" (PStr (isoformat start_time)))
                   "end_time" (PStr (isoformat end_time)))
                "total_tokens" total) "input_tokens").
  fold (get0 (dict_set
                (dict_set (dict_set (dict_set d "period" (PStr period))
                             "start_time" (PStr (isoformat start_time)))
                   "end_time" (PStr (isoformat end_time)))
                "total_tokens" total) "output_tokens").
  rewrite !get0_set_other by discriminate.
  destruct (calculate_cost _ _); reflexivity.
Qed.

Lemma fill_period_stats_cost (stats : pyval) (period : string)
    (start_time end_time : datetime) (r : pyval) :
  fill_period_stats stats period start_time end_time = Ok r -> cost_is_computed r.
Proof.
  destruct stats as [| | | | | |d]; try discriminate.
  rewrite fill_period_stats_mapping.
  destruct (py_add _ _) as [total|e]; [|discriminate].
  destruct (calculate_cost _ _) as [cost|e] eqn:Hcost; [|discriminate].
  intros [= <-]. eexists _, cost. split; [reflexivity|]. split.
  - apply dict_get_set_same.
  - rewrite !get0_set_other by discriminate. exact Hcost.
Qed.

Lemma period_from_stats_cost (command : list string) (period : string)
    (start_time end_time : datetime) (s s' : state) (r : pyval) :
  period_from_stats E command period start_time end_time s = (Ok (Some r), s') ->
  cost_is_computed r.
Proof.
  unfold period_from_stats.
  cbv [bind ret Monad_St St_bind St_ret try_except lift].
  rewrite run_command_spec.
  destruct (env_run E (tick s) command) as [rc out err|e].
  - destruct (rc =? 0); [|discriminate].
    unfold loads. destruct (json_loads out) as [v|]; [|discriminate].
    destruct (fill_period_stats v period start_time end_time) as [r'|e] eqn:Hfill.
    + intros [= <- _]. eapply fill_period_stats_cost; eassumption.
    + destruct (is_JSONDecodeError e); discriminate.
  - destruct e; discriminate.
Qed.

Lemma period_stats_in_window_cost (period : string)
    (start_time end_time : datetime) (s s' : state) (r : pyval) :
  period_stats_in_window E period start_time end_time s = (Ok r, s') ->
  cost_is_computed r.
Proof.
  unfold period_stats_in_window.
  cbv [bind ret Monad_St St_bind St_ret lift].
  destruct (if is_named_period period then _ else _) as [[[direct|]|e] s2] eqn:Hdirect;
    [| |discriminate].
  - intros [= <- _].
    destruct (is_named_period period); [|discriminate].
    eapply period_from_stats_cost; eassumption.
  - destruct (period_from_stats E _ period start_time end_time s2)
      as [[[ranged|]|e] s3] eqn:Hranged; [| |discriminate].
    + intros [= <- _]. eapply period_from_stats_cost; eassumption.
    + destruct (period_from_logs E period start_time end_time s3) as [[v|e] s4];
        [|discriminate].
      destruct (calculate_cost _ _) as [cost|e] eqn:Hcost; [|discriminate].
      destruct (py_add _ _) as [total|e]; [|discriminate].
      intros [= <- _].
      eexists _, cost. split; [reflexivity|]. split; [reflexivity | exact Hcost].
Qed.

(** X9.  Every mapping returned by [get_time_period_stats], on each of
    its three return paths, has a [cost] field that is [calculate_cost]
    of the [input_tokens] and [output_tokens] of that same mapping (0
    for a count that is absent): a cost sent by the tool is never
    shown. *)
Theorem period_stats_cost_recomputed (period : string)
    (start_time end_time : option datetime) (s s' : state) (r : pyval) :
  get_time_period_stats E period start_time end_time s = (Ok r, s') ->
  cost_is_computed r.
Proof.
  unfold get_time_period_stats.
  cbv [bind ret Monad_St St_bind St_ret lift datetime_now observe].
  destruct (match start_time with
            | Some t => _
            | None => _
            end) as [[st|e] s1] eqn:Hst; [|discriminate].
  apply period_stats_in_window_cost.
Qed.

(** X10.  When the first structured stats query succeeds with a JSON
    object whose counts can be added and priced, that object is
    returned after this one call with [period], [start_time],
    [end_time], [total_tokens] and [cost] overwritten; every other field
    of the reply, known to the script or not, is returned as the tool
    sent it. *)
Theorem period_stats_reply_filled (period : string)
    (start_time end_time : datetime) (s : state) (out err : string) (d : dict)
    (total : pyval) (cost : float) :
  env_run E (tick s)
    (if is_named_period period
     then ["claude"; "stats"; "--period"; period; "--format"; "json"]
     else ["claude"; "stats"; "--from"; strftime_date start_time;
           "--to"; strftime_date end_time; "--format"; "json"])
  = Completed 0 out err ->
  json_loads out = Some (PDict d) ->
  py_add (get0 d "input_tokens") (get0 d "output_tokens") = Ok total ->
  calculate_cost (get0 d "input_tokens") (get0 d "output_tokens") = Ok cost ->
  exists d',
    period_stats_in_window E period start_time end_time s = (Ok (PDict d'), next s)
    /\ dict_get d' "period" = Some (PStr period)
    /\ dict_get d' "start_time" = Some (PStr (isoformat start_time))
    /\ dict_get d' "end_time" = Some (PStr (isoformat end_time))
    /\ dict_get d' "total_tokens" = Some total
    /\ dict_get d' "cost" = Some (PFloat cost)
    /\ (forall k,
           ~ In k ["period"; "start_time"; "end_time"; "total_tokens"; "cost"] ->
           dict_get d' k = dict_get d k).
Proof.
  intros Hrun Hv Hsum Hcost.
  eexists. split; [|split; [|split; [|split; [|split; [|split]]]]].
  - unfold period_stats_in_window, period_from_stats.
    cbv [bind ret Monad_St St_bind St_ret lift try_except].
    destruct (is_named_period period);
      rewrite run_command_spec, Hrun; cbn [Z.eqb];
      unfold loads; rewrite Hv;
      rewrite fill_period_stats_mapping, Hsum, Hcost; reflexivity.
  - rewrite !dict_get_set_other by discriminate. apply dict_get_set_same.
  - rewrite !dict_get_set_other by discriminate. apply dict_get_set_same.
  - rewrite !dict_get_set_other by discriminate. apply dict_get_set_same.
  - rewrite !dict_get_set_other by discriminate. apply dict_get_set_same.
  - apply dict_get_set_same.
  - intros k Hk. cbn [In] in Hk.
    rewrite !dict_get_set_other; [reflexivity| | | | |]; intros <-; tauto.
Qed.

Lemma py_add_raises (a b : pyval) (e : exn) :
  py_add a b = Raise e -> e = TypeError \/ e = OverflowError.
Proof.
  destruct a, b; cbn [py_add]; try discriminate; try (intros [= <-]; auto);
    unfold int_to_float; cbn [bind Monad_outcome outcome_bind];
    destruct (is_infinite _); cbn [outcome_bind]; try discriminate;
    intros [= <-]; auto.
Qed.

Lemma py_div_1000_raises (v : pyval) (e : exn) :
  py_div_1000 v = Raise e -> e = TypeError \/ e = OverflowError.
Proof.
  assert (Hdiv : forall z, int_truediv z 1000 = Raise e -> e = OverflowError).
  { intros z. unfold int_truediv. change (1000 =? 0) with false. cbv iota.
    destruct (_ && _); [discriminate|].
    destruct (is_infinite _); [|discriminate]. intros [= <-]. reflexivity. }
  destruct v; cbn [py_div_1000]; try discriminate; try (intros [= <-]; auto);
    intros H; right; eapply Hdiv; exact H.
Qed.

Lemma calculate_cost_raises (a b : pyval) (e : exn) :
  calculate_cost a b = Raise e -> e = TypeError \/ e = OverflowError.
Proof.
  unfold calculate_cost. cbn [bind Monad_outcome outcome_bind].
  destruct (py_div_1000 a) as [qa|ea] eqn:Ha.
  - cbn [outcome_bind]. destruct (py_div_1000 b) as [qb|eb] eqn:Hb.
    + discriminate.
    + cbn [outcome_bind]. intros [= <-]. eapply py_div_1000_raises; exact Hb.
  - cbn [outcome_bind]. intros [= <-]. eapply py_div_1000_raises; exact Ha.
Qed.

(** X11.  When the first structured stats query succeeds with a JSON
    object whose counts cannot be added or priced (a count that is text,
    a list, null, or an integer too large for a float),
    [get_time_period_stats] raises [TypeError] or [OverflowError] after
    this one call; it does not fall back to the next query or to the
    logs. *)
Theorem period_stats_reply_bad_counts (period : string)
    (start_time end_time : datetime) (s : state) (out err : string) (d : dict)
    (e : exn) :
  env_run E (tick s)
    (if is_named_period period
     then ["claude"; "stats"; "--period"; period; "--format"; "json"]
     else ["claude"; "stats"; "--from"; strftime_date start_time;
           "--to"; strftime_date end_time; "--format"; "json"])
  = Completed 0 out err ->
  json_loads out = Some (PDict d) ->
  py_add (get0 d "input_tokens") (get0 d "output_tokens") = Raise e
  \/ ((exists total, py_add (get0 d "input_tokens") (get0 d "output_tokens") = Ok total)
      /\ calculate_cost (get0 d "input_tokens") (get0 d "output_tokens") = Raise e) ->
  period_stats_in_window E period start_time end_time s = (Raise e, next s)
  /\ (e = TypeError \/ e = OverflowError).
Proof.
  intros Hrun Hv Hbad.
  assert (He : e = TypeError \/ e = OverflowError).
  { destruct Hbad as [H|[_ H]];
      [eapply py_add_raises | eapply calculate_cost_raises]; exact H. }
  split; [|exact He].
  assert (Hfill : fill_period_stats (PDict d) period start_time end_time = Raise e).
  { rewrite fill_period_stats_mapping.
    destruct Hbad as [->|[[total ->] ->]]; reflexivity. }
  unfold period_stats_in_window, period_from_stats.
  cbv [bind ret Monad_St St_bind St_ret lift try_except].
  destruct (is_named_period period);
    rewrite run_command_spec, Hrun; cbn [Z.eqb];
    unfold loads; rewrite Hv, Hfill;
    destruct He as [-> | ->]; reflexivity.
Qed.

End Replies.

(* ================================================================== *)
(** ** Windows and labels *)
(* ================================================================== *)

Section Windows.

Context {lib : PyLib}.
Variable E : env.

Lemma days_label_not_named (days : Z) :
  is_named_period (days_label days) = false.
Proof. reflexivity. Qed.

Lemma days_label_log_limit (days : Z) :
  log_limit (days_label days) = SESSION_LOG_LIMIT.
Proof. reflexivity. Qed.

(** X12.  For the custom window of [--days N], whatever N is, the
    [--period] query is not issued and the log fallback asks for
    [SESSION_LOG_LIMIT] = 50 entries: when the [--from]/[--to] query
    and then [claude logs --format json --limit 50] exit with a
    non-zero status, the zero-valued stats are returned after exactly
    these two calls. *)
Theorem custom_window_two_calls (days : Z) (start_time end_time : datetime)
    (s : state) (rc1 rc2 : Z) (out1 err1 out2 err2 : string) :
  env_run E (tick s)
    ["claude"; "stats"; "--from"; strftime_date start_time;
     "--to"; strftime_date end_time; "--format"; "json"]
  = Completed rc1 out1 err1 ->
  rc1 <> 0 ->
  env_run E (S (tick s)) ["claude"; "logs"; "--format"; "json"; "--limit"; "50"]
  = Completed rc2 out2 err2 ->
  rc2 <> 0 ->
  period_stats_in_window E (days_label days) start_time end_time s
  = (Ok (zero_period_stats (days_label days) start_time end_time), next (next s)).
Proof.
  intros Hrun1 Hrc1 Hrun2 Hrc2.
  unfold period_stats_in_window. rewrite days_label_not_named.
  cbv [bind ret Monad_St St_bind St_ret lift].
  rewrite period_from_stats_unusable by (rewrite Hrun1; left; exact Hrc1).
  unfold period_from_logs. rewrite days_label_log_limit.
  change (str_of_int SESSION_LOG_LIMIT) with "50".
  cbv [bind ret Monad_St St_bind St_ret lift].
  rewrite (run_command_nonzero_exit E _ (next s) rc2 out2 err2 Hrun2 Hrc2).
  reflexivity.
Qed.

(** X13.  The default windows.  For a clock reading inside datetime's
    range: the daily window starts at midnight of the current day, at or
    before now and less than one day before it; the weekly window
    starts at midnight on a Monday, at or before now and less than
    seven days before it; for a label other than daily, weekly and
    monthly the window starts exactly one day before now. *)
Theorem default_window_bounds (now : datetime) :
  0 <= dt_us now < DATETIME_END_US ->
  (exists st,
      default_start_time "daily" now = Ok st
      /\ dt_tz st = dt_tz now
      /\ dt_us st mod US_PER_DAY = 0
      /\ dt_us st <= dt_us now < dt_us st + US_PER_DAY)
  /\ (exists st,
         default_start_time "weekly" now = Ok st
         /\ dt_tz st = dt_tz now
         /\ dt_us st mod US_PER_DAY = 0
         /\ weekday st = 0
         /\ dt_us st <= dt_us now < dt_us st + 7 * US_PER_DAY)
  /\ (forall period,
         is_named_period period = false ->
         US_PER_DAY <= dt_us now ->
         default_start_time period now
         = Ok (mkdatetime (dt_us now - US_PER_DAY) (dt_tz now))).
Proof.
  intros Hnow.
  assert (Hday : 0 < US_PER_DAY) by reflexivity.
  pose proof (Z.div_mod (dt_us now) US_PER_DAY ltac:(lia)) as Hdm.
  pose proof (Z.mod_pos_bound (dt_us now) US_PER_DAY Hday) as Hmod.
  remember (dt_us now / US_PER_DAY) as n eqn:En.
  remember (dt_us now mod US_PER_DAY) as r eqn:Er.
  assert (Hn : 0 <= n) by nia.
  split; [|split].
  - exists (replace_midnight now). split; [reflexivity|].
    unfold replace_midnight. cbn [dt_us dt_tz]. rewrite <- Er.
    split; [reflexivity|]. split.
    + replace (dt_us now - r) with (n * US_PER_DAY) by lia.
      apply Z.mod_mul. lia.
    + lia.
  - pose proof (Z.div_mod n 7 ltac:(lia)) as Hwk.
    pose proof (Z.mod_pos_bound n 7 ltac:(lia)) as Hwd.
    remember (n mod 7) as w eqn:Ew. remember (n / 7) as k eqn:Ek.
    assert (Hk : 0 <= k) by lia.
    assert (Hsub : datetime_sub now (w * US_PER_DAY)
                   = Ok (mkdatetime (dt_us now - w * US_PER_DAY) (dt_tz now))).
    { apply datetime_sub_in_range.
      assert (Hle : w * US_PER_DAY <= n * US_PER_DAY) by nia. lia. }
    exists (replace_midnight (mkdatetime (dt_us now - w * US_PER_DAY) (dt_tz now))).
    split.
    + unfold default_start_time. cbn [String.eqb Ascii.eqb Bool.eqb].
      unfold timedelta_days, weekday. rewrite <- En, <- Ew.
      replace (Z.abs w <=? 999999999) with true by (symmetry; apply Z.leb_le; lia).
      cbn [bind Monad_outcome outcome_bind]. rewrite Hsub. reflexivity.
    + unfold replace_midnight, weekday. cbn [dt_us dt_tz].
      assert (Hshift : (dt_us now - w * US_PER_DAY) mod US_PER_DAY = r).
      { replace (dt_us now - w * US_PER_DAY) with (r + (n - w) * US_PER_DAY) by lia.
        rewrite Z.mod_add by lia. apply Z.mod_small. exact Hmod. }
      rewrite Hshift.
      replace (dt_us now - w * US_PER_DAY - r) with ((7 * k) * US_PER_DAY) by lia.
      split; [reflexivity|]. split; [apply Z.mod_mul; lia|]. split.
      * rewrite Z.div_mul by lia. rewrite Z.mul_comm. apply Z.mod_mul. lia.
      * nia.
  - intros period Hnamed Hlate. unfold default_start_time.
    unfold is_named_period in Hnamed. cbn [existsb] in Hnamed.
    rewrite !orb_false_iff in Hnamed. destruct Hnamed as (Hd & Hw & Hm & _).
    rewrite Hd, Hw, Hm.
    change (timedelta_days 1) with (Ok US_PER_DAY : outcome timedelta).
    cbn [bind Monad_outcome outcome_bind].
    rewrite datetime_sub_in_range by lia. reflexivity.
Qed.

End Windows.

(* ================================================================== *)
(** ** The log loops on well-formed listings *)
(* ================================================================== *)

Section Loops.

Context {lib : PyLib}.
Variable E : env.

Lemma log_entry_timestamp (r : log_record) :
  py_get (log_entry r) "timestamp" PNone = Ok (PStr (log_text r)).
Proof. reflexivity. Qed.

Lemma log_entry_has_tokens (r : log_record) :
  py_contains "tokens" (log_entry r) = Ok true.
Proof. reflexivity. Qed.

Lemma log_entry_prompt (r : log_record) :
  (tokens <- py_get (log_entry r) "tokens" (PDict []) ;;
   py_get tokens "prompt" (PInt 0))%py
  = Ok (PInt (log_prompt r)).
Proof. reflexivity. Qed.

Lemma log_entry_completion (r : log_record) :
  (tokens <- py_get (log_entry r) "tokens" (PDict []) ;;
   py_get tokens "completion" (PInt 0))%py
  = Ok (PInt (log_completion r)).
Proof. reflexivity. Qed.

(** One pass of the period loop over a well-formed entry. *)
Lemma period_entry_log_entry (start_time end_time : datetime) (r : log_record)
    (a b : Z) :
  period_entry start_time end_time (log_entry r) (mkperiod (PInt a) (PInt b))
  = (Ok tt,
     if counted start_time end_time r
     then mkperiod (PInt (a + log_prompt r)) (PInt (b + log_completion r))
     else mkperiod (PInt a) (PInt b)).
Proof.
  unfold period_entry, counted.
  cbv [bind ret Monad_St St_bind St_ret lift try_except get_state put_state].
  rewrite log_entry_timestamp. cbn [truthy].
  destruct (log_text r =? "")%string; cbn [negb andb]; [reflexivity|].
  cbn [py_replace_Z]. unfold parse_iso, entry_time.
  destruct (fromisoformat (str_replace_char "Z" "" (log_text r))) as [t|];
    [|reflexivity].
  destruct (datetime_lt t start_time) as [[|]|e] eqn:Hlt.
  - reflexivity.
  - destruct (datetime_gt t end_time) as [[|]|e] eqn:Hgt.
    + reflexivity.
    + reflexivity.
    + unfold datetime_gt, datetime_lt in Hgt.
      destruct (dt_tz end_time), (dt_tz t); try discriminate;
        injection Hgt as <-; reflexivity.
  - unfold datetime_lt in Hlt.
    destruct (dt_tz t), (dt_tz start_time); try discriminate;
      injection Hlt as <-; reflexivity.
Qed.

(** The period loop over well-formed entries, from any pair of totals. *)
Lemma aggregate_logs_totals (start_time end_time : datetime) (l : list log_record)
    (a b : Z) :
  aggregate_logs start_time end_time (map log_entry l) (mkperiod (PInt a) (PInt b))
  = (Ok tt,
     mkperiod
       (PInt (a + Zsum (map log_prompt (filter (counted start_time end_time) l))))
       (PInt (b + Zsum (map log_completion (filter (counted start_time end_time) l))))).
Proof.
  unfold aggregate_logs. revert a b.
  induction l as [|r l IH]; intros a b.
  - cbn. rewrite !Z.add_0_r. reflexivity.
  - cbn [map]. rewrite for_each_cons, period_entry_log_entry.
    cbn [filter]. destruct (counted start_time end_time r).
    + rewrite IH. cbn [map Zsum fold_right].
      fold (Zsum (map log_prompt (filter (counted start_time end_time) l))).
      fold (Zsum (map log_completion (filter (counted start_time end_time) l))).
      rewrite !Z.add_assoc. reflexivity.
    + apply IH.
Qed.

(** X14.  Over a listing of well-formed entries the period loop never
    raises, and the two totals it returns are the sums of the prompt
    and completion counts of the entries it counts: those whose
    timestamp is not empty, parses, and is neither before the start nor
    after the end of the window.  Every other entry contributes
    nothing. *)
Theorem aggregate_logs_sums (start_time end_time : datetime) (l : list log_record)
    (a b : Z) :
  aggregate_logs start_time end_time (map log_entry l) (mkperiod (PInt a) (PInt b))
  = (Ok tt,
     mkperiod
       (PInt (a + Zsum (map log_prompt (filter (counted start_time end_time) l))))
       (PInt (b + Zsum (map log_completion (filter (counted start_time end_time) l))))).
Proof. apply aggregate_logs_totals. Qed.

(** X15.  When the structured stats queries give nothing usable and
    [claude logs] answers a listing of well-formed entries,
    [get_time_period_stats] returns, without printing anything, the sums
    of the prompt and completion counts of the entries inside the
    window as [input_tokens] and [output_tokens], their sum as
    [total_tokens], and [calculate_cost] of the two as [cost]. *)
Theorem period_stats_from_logs (period : string) (start_time end_time : datetime)
    (s : state) (out err : string) (l : list log_record) (cost : float) :
  (forall n command, nth 1 command "" = "stats" -> reply_unusable (env_run E n command)) ->
  (forall n,
      env_run E n ["claude"; "logs"; "--format"; "json"; "--limit";
                   str_of_int (log_limit period)]
      = Completed 0 out err) ->
  json_loads out = Some (PList (map log_entry l)) ->
  let kept := filter (counted start_time end_time) l in
  let input_tokens := Zsum (map log_prompt kept) in
  let output_tokens := Zsum (map log_completion kept) in
  calculate_cost (PInt input_tokens) (PInt output_tokens) = Ok cost ->
  exists s',
    period_stats_in_window E period start_time end_time s
    = (Ok (PDict [("period", PStr period);
                  ("input_tokens", PInt input_tokens);
                  ("output_tokens", PInt output_tokens);
                  ("total_tokens", PInt (input_tokens + output_tokens));
                  ("cost", PFloat cost);
                  ("start_time", PStr (isoformat start_time));
                  ("end_time", PStr (isoformat end_time))]), s')
    /\ printed s' = printed s.
Proof.
  intros Hstats Hlogs Hv kept input_tokens output_tokens Hcost.
  unfold period_stats_in_window.
  cbv [bind ret Monad_St St_bind St_ret lift].
  assert (Hdirect : exists s1,
             (if is_named_period period
              then period_from_stats E
                     ["claude"; "stats"; "--period"; period; "--format"; "json"]
                     period start_time end_time
              else fun s0 : state => (Ok None, s0)) s
             = (Ok None, s1) /\ printed s1 = printed s).
  { destruct (is_named_period period).
    - rewrite period_from_stats_unusable by (apply Hstats; reflexivity).
      eexists. split; reflexivity.
    - eexists. split; reflexivity. }
  destruct Hdirect as (s1 & -> & Hs1).
  rewrite period_from_stats_unusable by (apply Hstats; reflexivity).
  unfold period_from_logs.
  cbv [bind ret Monad_St St_bind St_ret lift try_except].
  rewrite run_command_spec, Hlogs. cbn [Z.eqb].
  unfold loads. rewrite Hv. cbn [py_iter].
  unfold with_locals, period_vars_init. rewrite aggregate_logs_totals.
  cbv [ret Monad_St St_ret]. cbn [p_input_tokens p_output_tokens Z.add].
  fold kept. fold input_tokens. fold output_tokens.
  rewrite Hcost. cbn [py_add].
  eexists. split; [reflexivity|]. cbn [next tick printed]. exact Hs1.
Qed.

(** X16.  A timestamp that carries a UTC offset is not counted by the
    period loop: against the naive window the script builds from
    [datetime.now()], the comparison raises [TypeError], which the loop
    swallows, and the totals stay as they were. *)
Theorem aware_timestamp_not_counted (start_time end_time : datetime)
    (r : log_record) (t : datetime) (v : period_vars) :
  dt_tz start_time = None ->
  entry_time (log_text r) = Some t ->
  dt_tz t <> None ->
  counted start_time end_time r = false
  /\ period_entry start_time end_time (log_entry r) v = (Ok tt, v).
Proof.
  intros Hs Ht Htz.
  assert (Hlt : datetime_lt t start_time = Raise TypeError).
  { unfold datetime_lt. rewrite Hs. destruct (dt_tz t); [reflexivity | contradiction]. }
  split.
  - unfold counted. rewrite Ht, Hlt. apply andb_false_r.
  - unfold period_entry.
    cbv [bind ret Monad_St St_bind St_ret lift try_except].
    rewrite log_entry_timestamp. cbn [truthy].
    destruct (negb (negb (log_text r =? "")%string)); [reflexivity|].
    cbn [py_replace_Z]. unfold parse_iso. unfold entry_time in Ht.
    rewrite Ht, Hlt. reflexivity.
Qed.

(** X17.  An entry inside the window whose prompt count is an integer
    and whose completion count cannot be added to an integer (text, a
    list, null): the period loop adds the prompt count, the addition of
    the completion count raises [TypeError], the loop swallows it and
    goes on.  The entry is half counted. *)
Theorem period_entry_half_counted (start_time end_time : datetime)
    (d tk : dict) (text : string) (t : datetime) (p a b : Z) (c : pyval) :
  dict_get d "timestamp" = Some (PStr text) ->
  text <> "" ->
  entry_time text = Some t ->
  in_window start_time end_time t ->
  dict_get d "tokens" = Some (PDict tk) ->
  dict_get tk "prompt" = Some (PInt p) ->
  dict_get tk "completion" = Some c ->
  py_add (PInt b) c = Raise TypeError ->
  period_entry start_time end_time (PDict d) (mkperiod (PInt a) (PInt b))
  = (Ok tt, mkperiod (PInt (a + p)) (PInt b)).
Proof.
  intros Hts Htext Ht [Hlt Hgt] Htk Hp Hc Hadd.
  unfold period_entry.
  cbv [bind ret Monad_St St_bind St_ret lift try_except get_state put_state py_get
       py_contains dict_has].
  rewrite Hts. cbn [truthy].
  destruct (String.eqb_spec text "") as [|_]; [contradiction|]. cbn [negb].
  cbn [py_replace_Z]. unfold parse_iso. unfold entry_time in Ht.
  rewrite Ht, Hlt, Hgt, Htk, Hp, Hc. cbn [p_input_tokens p_output_tokens].
  change (py_add (PInt a) (PInt p)) with (Ok (PInt (a + p))).
  cbn [p_input_tokens p_output_tokens]. rewrite Hadd. reflexivity.
Qed.

End Loops.

(* ================================================================== *)
(** ** The session loop, entries that are not mappings, and the report *)
(* ================================================================== *)

Section Session.

Context {lib : PyLib}.
Variable E : env.

Lemma for_each_app {S A} (body : A -> St S unit) (l1 l2 : list A) (s : S) :
  for_each body (l1 ++ l2)%list s =
  match for_each body l1 s with
  | (Ok _, s') => for_each body l2 s'
  | (Raise e, s') => (Raise e, s')
  end.
Proof.
  revert s. induction l1 as [|x l1 IH]; intros s; [reflexivity|].
  cbn [app]. rewrite !for_each_cons.
  destruct (body x s) as [[[]|e] s']; [apply IH | reflexivity].
Qed.

(** One pass of the session loop over a well-formed entry: both counts
    are added, whatever the timestamp is. *)
Lemma session_entry_log_entry (r : log_record) (a b : Z)
    (f la : option datetime) :
  exists f' la',
    session_entry (log_entry r) (mksession (PInt a) (PInt b) f la)
    = (Ok tt, mksession (PInt (a + log_prompt r)) (PInt (b + log_completion r)) f' la').
Proof.
  unfold session_entry, session_count_tokens, session_track_timestamp.
  cbv [bind ret Monad_St St_bind St_ret lift try_except get_state put_state].
  cbn [log_entry py_contains dict_has dict_get String.eqb Ascii.eqb Bool.eqb py_get
       py_add s_input_tokens s_output_tokens first_timestamp last_timestamp truthy].
  destruct (log_text r =? "")%string; cbn [negb]; [eexists _, _; reflexivity|].
  cbn [py_replace_Z]. unfold parse_iso.
  destruct (fromisoformat (str_replace_char "Z" "" (log_text r))) as [t|];
    [|eexists _, _; reflexivity].
  unfold datetime_gt, datetime_lt.
  destruct f as [t1|], la as [t2|];
    repeat (cbn [first_timestamp last_timestamp s_input_tokens s_output_tokens
                 is_ValueError_or_TypeError is_ValueError is_TypeError orb];
            match goal with
            | |- context [match dt_tz ?x with _ => _ end] => destruct (dt_tz x)
            | |- context [if ?x <? ?y then _ else _] => destruct (x <? y)
            end);
    cbn [first_timestamp last_timestamp s_input_tokens s_output_tokens
         is_ValueError_or_TypeError is_ValueError is_TypeError orb];
    eexists _, _; reflexivity.
Qed.

Lemma session_loop_sums (l : list log_record) (a b : Z) (f la : option datetime) :
  exists f' la',
    for_each session_entry (map log_entry l) (mksession (PInt a) (PInt b) f la)
    = (Ok tt,
       mksession (PInt (a + Zsum (map log_prompt l)))
                 (PInt (b + Zsum (map log_completion l))) f' la').
Proof.
  revert a b f la. induction l as [|r l IH]; intros a b f la.
  - exists f, la. cbn. rewrite !Z.add_0_r. reflexivity.
  - cbn [map]. rewrite for_each_cons.
    destruct (session_entry_log_entry r a b f la) as (f1 & la1 & ->).
    destruct (IH (a + log_prompt r) (b + log_completion r) f1 la1) as (f' & la' & ->).
    exists f', la'. cbn [Zsum fold_right].
    fold (Zsum (map log_prompt l)). fold (Zsum (map log_completion l)).
    rewrite !Z.add_assoc. reflexivity.
Qed.

(** X18.  When [claude stats] exits with a non-zero status and
    [claude logs] answers a listing of well-formed entries,
    [get_current_session_stats] returns, without printing anything, the
    sums of the prompt and completion counts of all the entries: unlike
    the period fetcher it applies no window, and an entry whose
    timestamp is empty or does not parse is counted too. *)
Theorem session_stats_from_logs_sums (s : state) (rc : Z)
    (out0 err0 out err : string) (l : list log_record) :
  env_run E (tick s) ["claude"; "stats"; "--format"; "json"] = Completed rc out0 err0 ->
  rc <> 0 ->
  env_run E (S (tick s)) ["claude"; "logs"; "--format"; "json"; "--limit"; "50"]
  = Completed 0 out err ->
  json_loads out = Some (PList (map log_entry l)) ->
  let input_tokens := Zsum (map log_prompt l) in
  let output_tokens := Zsum (map log_completion l) in
  exists start s',
    get_current_session_stats E s
    = (Ok (PDict [("input_tokens", PInt input_tokens);
                  ("output_tokens", PInt output_tokens);
                  ("total_tokens", PInt (input_tokens + output_tokens));
                  ("session_start", PStr start)]), s')
    /\ printed s' = printed s.
Proof.
  intros Hstats Hrc Hlogs Hv input_tokens output_tokens.
  unfold get_current_session_stats, session_from_stats, session_from_logs.
  cbv [bind ret Monad_St St_bind St_ret lift try_except].
  rewrite (run_command_nonzero_exit E _ s rc out0 err0 Hstats Hrc).
  change (str_of_int SESSION_LOG_LIMIT) with "50".
  rewrite run_command_spec. unfold next at 1. cbn [tick printed].
  rewrite Hlogs. cbn [Z.eqb].
  unfold loads. rewrite Hv. cbn [py_iter].
  unfold with_locals, session_vars_init.
  destruct (session_loop_sums l 0 0 None None) as (f' & la' & ->).
  cbv [ret Monad_St St_ret]. cbn [s_input_tokens s_output_tokens first_timestamp Z.add].
  fold input_tokens. fold output_tokens.
  destruct f' as [t|].
  - cbn [py_add]. eexists _, _. split; reflexivity.
  - cbv [datetime_now observe bind ret Monad_St St_bind St_ret]. cbn [py_add].
    eexists _, _. split; reflexivity.
Qed.

(** X19.  A listing in which an entry that is text follows well-formed
    entries (a JSON object in place of the list gives such entries, its
    keys): the session loop raises [AttributeError] at that entry, the
    outer handler prints "Error processing logs", and the zero-valued
    stats are returned.  The counts of the entries before it are
    discarded. *)
Theorem session_logs_text_entry_discards (s : state) (rc : Z)
    (out0 err0 out err : string) (v : pyval) (l : list log_record)
    (k : string) (rest : list pyval) :
  env_run E (tick s) ["claude"; "stats"; "--format"; "json"] = Completed rc out0 err0 ->
  rc <> 0 ->
  env_run E (S (tick s)) ["claude"; "logs"; "--format"; "json"; "--limit"; "50"]
  = Completed 0 out err ->
  json_loads out = Some v ->
  py_iter v = Ok (map log_entry l ++ PStr k :: rest)%list ->
  US_PER_HOUR <= env_now E (S (S (tick s))) < DATETIME_END_US + US_PER_HOUR ->
  get_current_session_stats E s
  = (Ok (zero_session_stats
           (mkdatetime (env_now E (S (S (tick s))) - US_PER_HOUR) None)),
     mkstate (S (S (S (tick s)))) (printed s ++ ["Error processing logs"])).
Proof.
  intros Hstats Hrc Hlogs Hv Hiter Hclock.
  unfold get_current_session_stats, session_from_stats, session_from_logs.
  cbv [bind ret Monad_St St_bind St_ret lift try_except].
  rewrite (run_command_nonzero_exit E _ s rc out0 err0 Hstats Hrc).
  change (str_of_int SESSION_LOG_LIMIT) with "50".
  rewrite run_command_spec. unfold next at 1. cbn [tick printed].
  rewrite Hlogs. cbn [Z.eqb].
  unfold loads. rewrite Hv, Hiter.
  unfold with_locals, session_vars_init.
  rewrite for_each_app.
  destruct (session_loop_sums l 0 0 None None) as (f' & la' & ->).
  rewrite for_each_cons.
  assert (Hbad : forall w, session_entry (PStr k) w = (Raise AttributeError, w)).
  { intros w. unfold session_entry, session_count_tokens, session_track_timestamp.
    cbv [bind ret Monad_St St_bind St_ret lift].
    cbn [py_contains py_get]. destruct (str_contains "tokens" k); reflexivity. }
  rewrite Hbad.
  cbv [raise print]. cbn [is_JSONDecodeError_or_AttributeError is_JSONDecodeError
                          is_AttributeError orb tick printed].
  unfold next. cbn [tick printed].
  rewrite session_last_resort_spec by (cbn [tick]; exact Hclock).
  reflexivity.
Qed.

(** X20.  When the structured stats queries give nothing usable and the
    first entry of the log listing is not a mapping (a number, text,
    null, a list; the keys of a JSON object sent in place of the list),
    [get_time_period_stats] raises [AttributeError] from the first
    [entry.get]: neither handler of the log fallback names it. *)
Theorem period_logs_entry_not_mapping (period : string)
    (start_time end_time : datetime) (s : state) (out err : string)
    (v entry : pyval) (rest : list pyval) :
  (forall n command, nth 1 command "" = "stats" -> reply_unusable (env_run E n command)) ->
  (forall n,
      env_run E n ["claude"; "logs"; "--format"; "json"; "--limit";
                   str_of_int (log_limit period)]
      = Completed 0 out err) ->
  json_loads out = Some v ->
  py_iter v = Ok (entry :: rest) ->
  (forall d, entry <> PDict d) ->
  exists s',
    period_stats_in_window E period start_time end_time s = (Raise AttributeError, s')
    /\ printed s' = printed s.
Proof.
  intros Hstats Hlogs Hv Hiter Hnot.
  unfold period_stats_in_window.
  cbv [bind ret Monad_St St_bind St_ret lift].
  assert (Hdirect : exists s1,
             (if is_named_period period
              then period_from_stats E
                     ["claude"; "stats"; "--period"; period; "--format"; "json"]
                     period start_time end_time
              else fun s0 : state => (Ok None, s0)) s
             = (Ok None, s1) /\ printed s1 = printed s).
  { destruct (is_named_period period).
    - rewrite period_from_stats_unusable by (apply Hstats; reflexivity).
      eexists. split; reflexivity.
    - eexists. split; reflexivity. }
  destruct Hdirect as (s1 & -> & Hs1).
  rewrite period_from_stats_unusable by (apply Hstats; reflexivity).
  unfold period_from_logs.
  cbv [bind ret Monad_St St_bind St_ret lift try_except].
  rewrite run_command_spec, Hlogs. cbn [Z.eqb].
  unfold loads. rewrite Hv, Hiter.
  unfold with_locals, aggregate_logs. rewrite for_each_cons.
  assert (Hbad : forall w, period_entry start_time end_time entry w
                           = (Raise AttributeError, w)).
  { intros w. unfold period_entry.
    cbv [bind ret Monad_St St_bind St_ret lift].
    destruct entry; try reflexivity. exfalso. eapply Hnot. reflexivity. }
  rewrite Hbad. cbv [raise]. cbn [is_JSONDecodeError].
  eexists. split; [reflexivity|]. cbn [next tick printed]. exact Hs1.
Qed.

(** The loop of the report on a mapping that has a [period] and no
    [input_tokens]. *)
Lemma report_period_missing_input (d : dict) (label : string) (s0 : state) :
  dict_get d "period" = Some (PStr label) ->
  dict_get d "input_tokens" = None ->
  report_period (PDict d) s0
  = (Raise KeyError,
     mkstate (tick s0) (printed s0 ++ ["  " ++ str_capitalize label ++ " Usage:"])).
Proof.
  intros Hperiod Hinput. unfold report_period.
  cbv [bind Monad_St St_bind lift].
  cbn [py_getitem]. rewrite Hperiod. cbn [py_capitalize].
  cbv [print]. rewrite Hinput. reflexivity.
Qed.

(** X21.  A structured stats reply that is an object without
    [input_tokens] is accepted by [get_time_period_stats], which reads
    the missing count as 0 for the total and the cost, but the report
    reads the count itself: [print_usage_report]'s loop prints the
    heading of the period and raises [KeyError]. *)
Theorem period_stats_without_counts_break_report (period : string)
    (start_time end_time : datetime) (s : state) (out err : string) (d : dict)
    (total : pyval) (cost : float) :
  env_run E (tick s)
    (if is_named_period period
     then ["claude"; "stats"; "--period"; period; "--format"; "json"]
     else ["claude"; "stats"; "--from"; strftime_date start_time;
           "--to"; strftime_date end_time; "--format"; "json"])
  = Completed 0 out err ->
  json_loads out = Some (PDict d) ->
  dict_get d "input_tokens" = None ->
  py_add (PInt 0) (get0 d "output_tokens") = Ok total ->
  calculate_cost (PInt 0) (get0 d "output_tokens") = Ok cost ->
  exists stats,
    period_stats_in_window E period start_time end_time s = (Ok stats, next s)
    /\ forall s0,
         report_period stats s0
         = (Raise KeyError,
            mkstate (tick s0)
              (printed s0 ++ ["  " ++ str_capitalize period ++ " Usage:"])).
Proof.
  intros Hrun Hv Hnone Hsum Hcost.
  assert (Hget0 : get0 d "input_tokens" = PInt 0) by (unfold get0; rewrite Hnone; reflexivity).
  eexists. split.
  - unfold period_stats_in_window, period_from_stats.
    cbv [bind ret Monad_St St_bind St_ret lift try_except].
    destruct (is_named_period period);
      rewrite run_command_spec, Hrun; cbn [Z.eqb];
      unfold loads; rewrite Hv;
      rewrite fill_period_stats_mapping, Hget0, Hsum, Hcost; reflexivity.
  - intros s0. apply report_period_missing_input.
    + rewrite !dict_get_set_other by discriminate. apply dict_get_set_same.
    + rewrite !dict_get_set_other by discriminate. exact Hnone.
Qed.

End Session.

(* ================================================================== *)
(** ** The whole program when the tool gives nothing usable *)
(* ================================================================== *)

Section Whole.

Context {lib : PyLib}.
Variable E : env.







End Whole.

(* ================================================================== *)
(** ** The further properties on concrete worlds *)
(* ================================================================== *)

(** Witness of X1: [claude --version] answers with status 0. *)
Lemma run_command_flag_witness :
  mkstate 1 [] = next initial_state
  /\ (true = true <->
      exists err,
        env_run Sample.env_with_config (tick initial_state) ["claude"; "--version"]
        = Completed 0 ("1.0.0" ++ nl) err)
  /\ (true = false -> exists err, "1.0.0" ++ nl = "Error: " ++ err).
Proof.
  apply (run_command_flag Sample.env_with_config ["claude"; "--version"]
           initial_state (mkstate 1 []) ("1.0.0" ++ nl) true).
  vm_compute. reflexivity.
Defined.

(** Witness of X2: the tool answers "1.0.0"; the tool is not
    installed. *)
Lemma get_claude_version_spec_witness :
  get_claude_version Sample.env_with_config initial_state
  = (Ok (if 0 =? 0 then str_strip ("1.0.0" ++ nl) else "Unknown"), next initial_state)
  /\ get_claude_version Sample.env_not_installed initial_state
     = (Raise FileNotFoundError, next initial_state).
Proof.
  split.
  - apply (proj1 (get_claude_version_spec Sample.env_with_config initial_state)
             0 ("1.0.0" ++ nl) "").
    reflexivity.
  - apply (proj2 (get_claude_version_spec Sample.env_not_installed initial_state)
             FileNotFoundError); reflexivity.
Defined.

(** Witness of X4: no configuration file exists. *)
Lemma get_claude_config_not_found_witness :
  get_claude_config Sample.env_failing initial_state
  = (Ok (PDict []),
     mkstate (S (S (tick initial_state)))
       (printed initial_state ++ ["Claude config not found"])).
Proof.
  apply (get_claude_config_not_found Sample.env_failing initial_state).
  intros n path. reflexivity.
Defined.

(** Witness of X5: the first file holds a configuration; the first file
    is unreadable as JSON and the second holds the configuration. *)
Lemma get_claude_config_order_witness :
  get_claude_config (lib := More.more_lib)
    (More.env_first_config More.nested_config_text) initial_state
  = (Ok More.nested_config_value, mkstate 2 [])
  /\ get_claude_config (lib := More.more_lib)
       (More.env_two_configs More.nested_config_text) initial_state
     = (Ok More.nested_config_value,
        mkstate 4 ["Error reading Claude config at /home/user/.config/claude/config.json"]).
Proof.
  split.
  - apply (proj1 (get_claude_config_order (lib := More.more_lib)
                    (More.env_first_config More.nested_config_text) initial_state
                    More.nested_config_text More.nested_config_value
                    ltac:(vm_compute; reflexivity)));
      vm_compute; reflexivity.
  - apply (proj2 (get_claude_config_order (lib := More.more_lib)
                    (More.env_two_configs More.nested_config_text) initial_state
                    More.nested_config_text More.nested_config_value
                    ltac:(vm_compute; reflexivity)));
      vm_compute; reflexivity.
Defined.

(** Witness of X6: a reply with [session_start]; a reply without. *)
Lemma session_stats_reply_returned_witness :
  get_current_session_stats Sample.env_stats_reply initial_state
  = (Ok Sample.stats_value, next initial_state)
  /\ get_current_session_stats (lib := More.more_lib)
       (More.env_always More.bare_stats_text) initial_state
     = (Ok (PDict [("input_tokens", PInt 10); ("output_tokens", PInt 5);
                   ("model", PStr "opus");
                   ("session_start", PStr "2026-11-04T11:00:01")]),
        next (next initial_state)).
Proof.
  split.
  - apply (proj1 (session_stats_reply_returned Sample.env_stats_reply initial_state
                    Sample.stats_text ""
                    [("input_tokens", PInt 10); ("output_tokens", PInt 5);
                     ("total_tokens", PInt 99);
                     ("session_start", PStr "2026-11-04T09:00:00")]
                    ltac:(vm_compute; reflexivity) ltac:(vm_compute; reflexivity)));
      vm_compute; reflexivity.
  - apply (proj2 (session_stats_reply_returned (lib := More.more_lib)
                    (More.env_always More.bare_stats_text) initial_state
                    More.bare_stats_text ""
                    [("input_tokens", PInt 10); ("output_tokens", PInt 5);
                     ("model", PStr "opus")]
                    ltac:(vm_compute; reflexivity) ltac:(vm_compute; reflexivity))).
    + vm_compute. reflexivity.
    + vm_compute. split; [discriminate | reflexivity].
Defined.

(** Witness of X7: the stats reply is the JSON list []. *)
Lemma session_stats_reply_not_mapping_witness :
  exists s',
    get_current_session_stats (lib := More.more_lib)
      (More.env_always More.list_text) initial_state
    = (Raise TypeError, s')
    /\ printed s' = printed initial_state.
Proof.
  apply (session_stats_reply_not_mapping (lib := More.more_lib)
           (More.env_always More.list_text) initial_state More.list_text "" (PList [])).
  - vm_compute. reflexivity.
  - vm_compute. reflexivity.
  - discriminate.
  - vm_compute. discriminate.
  - vm_compute. split; [discriminate | reflexivity].
Defined.

(** Witness of X8: the daily stats reply is the JSON list []. *)
Lemma period_stats_reply_not_mapping_witness :
  period_stats_in_window (lib := More.more_lib) (More.env_always More.list_text)
    "daily" (Sample.at_time 2026 11 4 0 0 0) (Sample.at_time 2026 11 4 12 0 0)
    initial_state
  = (Raise TypeError, next initial_state).
Proof.
  apply (period_stats_reply_not_mapping (lib := More.more_lib)
           (More.env_always More.list_text) "daily"
           (Sample.at_time 2026 11 4 0 0 0) (Sample.at_time 2026 11 4 12 0 0)
           initial_state More.list_text "" (PList [])).
  - vm_compute. reflexivity.
  - vm_compute. reflexivity.
  - discriminate.
Defined.

(** Witness of X9: a daily stats reply with counts 10 and 5. *)
Lemma period_stats_cost_recomputed_witness :
  exists r s',
    get_time_period_stats (lib := More.more_lib)
      (More.env_always More.bare_stats_text) "daily" None None initial_state
    = (Ok r, s')
    /\ cost_is_computed r.
Proof.
  let c := eval vm_compute in
             (get_time_period_stats (lib := More.more_lib)
                (More.env_always More.bare_stats_text) "daily" None None initial_state) in
  match c with
  | (Ok ?r, ?s') =>
      exists r, s'; split;
      [ vm_compute; reflexivity
      | apply (period_stats_cost_recomputed (lib := More.more_lib)
                 (More.env_always More.bare_stats_text) "daily" None None
                 initial_state s' r);
        vm_compute; reflexivity ]
  end.
Defined.

(** Witness of X10: the reply has a field of its own, [model]. *)
Lemma period_stats_reply_filled_witness :
  exists d',
    period_stats_in_window (lib := More.more_lib)
      (More.env_always More.bare_stats_text) "daily"
      (Sample.at_time 2026 11 4 0 0 0) (Sample.at_time 2026 11 4 12 0 0) initial_state
    = (Ok (PDict d'), next initial_state)
    /\ dict_get d' "total_tokens" = Some (PInt 15)
    /\ dict_get d' "model" = Some (PStr "opus").
Proof.
  let c := eval vm_compute in (calculate_cost (PInt 10) (PInt 5)) in
  match c with
  | Ok ?cost =>
      destruct (period_stats_reply_filled (lib := More.more_lib)
                  (More.env_always More.bare_stats_text) "daily"
                  (Sample.at_time 2026 11 4 0 0 0) (Sample.at_time 2026 11 4 12 0 0)
                  initial_state More.bare_stats_text ""
                  [("input_tokens", PInt 10); ("output_tokens", PInt 5);
                   ("model", PStr "opus")]
                  (PInt 15) cost
                  ltac:(vm_compute; reflexivity) ltac:(vm_compute; reflexivity)
                  ltac:(vm_compute; reflexivity) ltac:(vm_compute; reflexivity))
        as (d' & Hrun & _ & _ & _ & Htotal & _ & Hother)
  end.
  exists d'. split; [exact Hrun|]. split; [exact Htotal|].
  rewrite Hother; [reflexivity|].
  cbn [In]. intros [H|[H|[H|[H|[H|[]]]]]]; discriminate.
Defined.

(** Witness of X11: the input count of the reply is the text "many". *)
Lemma period_stats_reply_bad_counts_witness :
  period_stats_in_window (lib := More.more_lib)
    (More.env_always More.text_count_text) "daily"
    (Sample.at_time 2026 11 4 0 0 0) (Sample.at_time 2026 11 4 12 0 0) initial_state
  = (Raise TypeError, next initial_state)
  /\ (TypeError = TypeError \/ TypeError = OverflowError).
Proof.
  apply (period_stats_reply_bad_counts (lib := More.more_lib)
           (More.env_always More.text_count_text) "daily"
           (Sample.at_time 2026 11 4 0 0 0) (Sample.at_time 2026 11 4 12 0 0)
           initial_state More.text_count_text "" [("input_tokens", PStr "many")]
           TypeError).
  - vm_compute. reflexivity.
  - vm_compute. reflexivity.
  - left. vm_compute. reflexivity.
Defined.

(** Witness of X12: [--days 7] when every call exits with status 1. *)
Lemma custom_window_two_calls_witness :
  period_stats_in_window Sample.env_failing (days_label 7)
    (Sample.at_time 2026 10 28 12 0 0) (Sample.at_time 2026 11 4 12 0 0) initial_state
  = (Ok (zero_period_stats (days_label 7)
           (Sample.at_time 2026 10 28 12 0 0) (Sample.at_time 2026 11 4 12 0 0)),
     next (next initial_state)).
Proof.
  apply (custom_window_two_calls Sample.env_failing 7
           (Sample.at_time 2026 10 28 12 0 0) (Sample.at_time 2026 11 4 12 0 0)
           initial_state 1 1 "" "claude: not logged in" "" "claude: not logged in").
  - reflexivity.
  - discriminate.
  - reflexivity.
  - discriminate.
Defined.

(** Witness of X13: noon on Wednesday 2026-11-04. *)
Lemma default_window_bounds_witness :
  default_start_time "daily" (Sample.at_time 2026 11 4 12 0 0)
  = Ok (Sample.at_time 2026 11 4 0 0 0)
  /\ exists st,
       default_start_time "weekly" (Sample.at_time 2026 11 4 12 0 0) = Ok st
       /\ weekday st = 0
       /\ dt_us st <= dt_us (Sample.at_time 2026 11 4 12 0 0) < dt_us st + 7 * US_PER_DAY.
Proof.
  destruct (default_window_bounds (Sample.at_time 2026 11 4 12 0 0))
    as (_ & (st & Hweekly & _ & _ & Hmonday & Hrange) & _).
  - vm_compute. split; [discriminate | reflexivity].
  - split; [vm_compute; reflexivity|].
    exists st. split; [exact Hweekly|]. split; [exact Hmonday | exact Hrange].
Defined.

(** Witness of X15: three entries, one of them inside today's window. *)
Lemma period_stats_from_logs_witness :
  exists s' r,
    period_stats_in_window (Sample.env_logs_reply Sample.day_logs_text) "daily"
      (Sample.at_time 2026 11 4 0 0 0) (Sample.at_time 2026 11 4 12 0 0) initial_state
    = (Ok r, s')
    /\ py_getitem r "input_tokens" = Ok (PInt 3)
    /\ py_getitem r "output_tokens" = Ok (PInt 4)
    /\ printed s' = [].
Proof.
  let c := eval vm_compute in (calculate_cost (PInt 3) (PInt 4)) in
  match c with
  | Ok ?cost =>
      destruct (period_stats_from_logs (Sample.env_logs_reply Sample.day_logs_text)
                  "daily"
                  (Sample.at_time 2026 11 4 0 0 0) (Sample.at_time 2026 11 4 12 0 0)
                  initial_state Sample.day_logs_text ""
                  [mklog "2026-11-04T10:00:00Z" 3 4;
                   mklog "2026-11-03T23:00:00Z" 100 200;
                   mklog "yesterday" 1000 2000]
                  cost) as (s' & Hrun & Hprinted)
  end.
  - intros n command Hstats. cbn [Sample.env_logs_reply env_run].
    unfold Sample.subcommand. rewrite Hstats. left. discriminate.
  - intros n. reflexivity.
  - vm_compute. reflexivity.
  - vm_compute. reflexivity.
  - exists s'. eexists. split; [exact Hrun|].
    split; [vm_compute; reflexivity|]. split; [vm_compute; reflexivity | exact Hprinted].
Defined.

(** Witness of X16: a timestamp with the offset +00:00 against today's
    naive window. *)
Lemma aware_timestamp_not_counted_witness :
  counted (lib := More.offset_lib)
    (Sample.at_time 2026 11 4 0 0 0) (Sample.at_time 2026 11 4 12 0 0)
    (mklog "2026-11-04T10:00:00+00:00" 3 4) = false
  /\ period_entry (lib := More.offset_lib)
       (Sample.at_time 2026 11 4 0 0 0) (Sample.at_time 2026 11 4 12 0 0)
       (log_entry (mklog "2026-11-04T10:00:00+00:00" 3 4)) period_vars_init
     = (Ok tt, period_vars_init).
Proof.
  apply (aware_timestamp_not_counted (lib := More.offset_lib)
           (Sample.at_time 2026 11 4 0 0 0) (Sample.at_time 2026 11 4 12 0 0)
           (mklog "2026-11-04T10:00:00+00:00" 3 4)
           (mkdatetime (dt_us (Sample.at_time 2026 11 4 10 0 0)) (Some 0))
           period_vars_init).
  - reflexivity.
  - vm_compute. reflexivity.
  - discriminate.
Defined.

(** Witness of X17: prompt 3, completion "many", inside today's
    window. *)
Lemma period_entry_half_counted_witness :
  period_entry (Sample.at_time 2026 11 4 0 0 0) (Sample.at_time 2026 11 4 12 0 0)
    (PDict [("timestamp", PStr "2026-11-04T10:00:00Z");
            ("tokens", PDict [("prompt", PInt 3); ("completion", PStr "many")])])
    (mkperiod (PInt 0) (PInt 0))
  = (Ok tt, mkperiod (PInt (0 + 3)) (PInt 0)).
Proof.
  apply (period_entry_half_counted
           (Sample.at_time 2026 11 4 0 0 0) (Sample.at_time 2026 11 4 12 0 0)
           [("timestamp", PStr "2026-11-04T10:00:00Z");
            ("tokens", PDict [("prompt", PInt 3); ("completion", PStr "many")])]
           [("prompt", PInt 3); ("completion", PStr "many")]
           "2026-11-04T10:00:00Z" (Sample.at_time 2026 11 4 10 0 0)
           3 0 0 (PStr "many")).
  - reflexivity.
  - discriminate.
  - vm_compute. reflexivity.
  - split; vm_compute; reflexivity.
  - reflexivity.
  - reflexivity.
  - reflexivity.
  - reflexivity.
Defined.

(** Witness of X18: the three entries of [day_logs_text]; the one at
    23:00 the day before and the one that reads "yesterday" are counted
    too. *)
Lemma session_stats_from_logs_sums_witness :
  exists start s',
    get_current_session_stats (Sample.env_logs_reply Sample.day_logs_text) initial_state
    = (Ok (PDict [("input_tokens", PInt 1103);
                  ("output_tokens", PInt 2204);
                  ("total_tokens", PInt (1103 + 2204));
                  ("session_start", PStr start)]), s')
    /\ printed s' = printed initial_state.
Proof.
  apply (session_stats_from_logs_sums (Sample.env_logs_reply Sample.day_logs_text)
           initial_state 1 "" "claude: not logged in" Sample.day_logs_text ""
           [mklog "2026-11-04T10:00:00Z" 3 4;
            mklog "2026-11-03T23:00:00Z" 100 200;
            mklog "yesterday" 1000 2000]).
  - reflexivity.
  - discriminate.
  - reflexivity.
  - vm_compute. reflexivity.
Defined.

(** Witness of X19: the logs reply is the JSON object
    {"entries": []}. *)
Lemma session_logs_text_entry_discards_witness :
  get_current_session_stats (lib := More.more_lib)
    (Sample.env_logs_reply More.object_logs_text) initial_state
  = (Ok (zero_session_stats (lib := More.more_lib)
           (mkdatetime (Sample.clock 2 - US_PER_HOUR) None)),
     mkstate 3 ["Error processing logs"]).
Proof.
  apply (session_logs_text_entry_discards (lib := More.more_lib)
           (Sample.env_logs_reply More.object_logs_text) initial_state
           1 "" "claude: not logged in" More.object_logs_text ""
           More.object_logs_value [] "entries" []).
  - reflexivity.
  - discriminate.
  - reflexivity.
  - vm_compute. reflexivity.
  - reflexivity.
  - vm_compute. split; [discriminate | reflexivity].
Defined.

(** Witness of X20: the same reply, for the daily window. *)
Lemma period_logs_entry_not_mapping_witness :
  exists s',
    period_stats_in_window (lib := More.more_lib)
      (Sample.env_logs_reply More.object_logs_text) "daily"
      (Sample.at_time 2026 11 4 0 0 0) (Sample.at_time 2026 11 4 12 0 0) initial_state
    = (Raise AttributeError, s')
    /\ printed s' = printed initial_state.
Proof.
  apply (period_logs_entry_not_mapping (lib := More.more_lib)
           (Sample.env_logs_reply More.object_logs_text) "daily"
           (Sample.at_time 2026 11 4 0 0 0) (Sample.at_time 2026 11 4 12 0 0)
           initial_state More.object_logs_text "" More.object_logs_value
           (PStr "entries") []).
  - intros n command Hstats. cbn [Sample.env_logs_reply env_run].
    unfold Sample.subcommand. rewrite Hstats. left. discriminate.
  - intros n. reflexivity.
  - vm_compute. reflexivity.
  - reflexivity.
  - discriminate.
Defined.

(** Witness of X21: the daily stats reply is the JSON object {}. *)
Lemma period_stats_without_counts_break_report_witness :
  exists stats,
    period_stats_in_window (lib := More.more_lib)
      (More.env_always More.empty_object_text) "daily"
      (Sample.at_time 2026 11 4 0 0 0) (Sample.at_time 2026 11 4 12 0 0) initial_state
    = (Ok stats, next initial_state)
    /\ forall s0,
         report_period (lib := More.more_lib) stats s0
         = (Raise KeyError,
            mkstate (tick s0)
              (printed s0 ++ ["  " ++ str_capitalize (PyLib := More.more_lib) "daily"
                              ++ " Usage:"])).
Proof.
  apply (period_stats_without_counts_break_report (lib := More.more_lib)
           (More.env_always More.empty_object_text) "daily"
           (Sample.at_time 2026 11 4 0 0 0) (Sample.at_time 2026 11 4 12 0 0)
           initial_state More.empty_object_text "" [] (PInt 0) float_zero).
  - vm_compute. reflexivity.
  - vm_compute. reflexivity.
  - reflexivity.
  - reflexivity.
  - vm_compute. reflexivity.
Defined.

